(** * ltv-node-monitor: the reconciliation loop and the credential cache

    A shallow embedding of [monitor/marzban_api.py] (class [MarzbanAPI]) and
    [monitor/monitor.py] (class [NodeMonitor]).

    The two classes talk to four collaborators: the Marzban HTTP API, a
    Redis store, the wall clock and the Telegram notifier.  The embedding
    threads a [World] (store contents, log of effects, number of
    interactions so far) through every call, and reads what the
    collaborators answer from an [Env]: the answer to the k-th interaction
    is a function of k, so nothing is assumed about the collaborators
    beyond their interface.  A Python exception is a [Raise] result; the
    world reached so far is kept, as the effects of a Python call that
    raises are.

    Conventions of the model:
    - [time.time()] and [datetime.now()] read the same clock; a reading is
      a binary64 number, given by its exact rational value.  The
      difference, the quotient and the rounding of lines 123-124 are
      computed as Python computes them on binary64 numbers (to the nearest,
      a tie to the even one; an overflow to infinity is outside the model);
      the sum of line 64 and the comparisons are exact;
    - a value of the store remembers whether it was written as text or as a
      number: [float(...)] reads a number back exactly and rejects text;
    - the time to live given to [redis.set] is passed to the store, which
      accepts or refuses it ([ttl_ok]); a Redis server refuses one that is
      not positive ([ttl_positive]).  Keys are not aged: a store from
      which Redis has dropped a key is a world that does not hold it;
    - the notifier delivers every message and raises nothing;
    - the JSON bodies are typed: an entry of the listing has its [id] and
      [name], a token answer its [access_token];
    - [logging] calls have no effect on the control flow and are left out. *)

From Stdlib Require Import QArith ZArith String List Lia Lqa Qround Qabs.
From stdpp Require Import base gmap strings list pretty.

Local Open Scope string_scope.
Local Open Scope list_scope.

(** ** Exceptions *)

Inductive exn :=
| RequestError (msg : string)      (* httpx.RequestError: no answer to the request *)
| HTTPStatusError (msg : string)   (* httpx.HTTPStatusError, from raise_for_status *)
| RedisError (msg : string)        (* redis.RedisError *)
| ValueError (msg : string)        (* float() of text, json() of a body that is not JSON *)
| TimeoutError (msg : string)      (* the builtin TimeoutError *)
| KeyError (msg : string)          (* node_status["status"] without the key *)
| Exception (msg : string).        (* raise Exception(...) *)

(** [str(e)] *)
Definition exn_str (x : exn) : string :=
  match x with
  | RequestError m | HTTPStatusError m | RedisError m
  | ValueError m | TimeoutError m | KeyError m | Exception m => m
  end.

(** [except httpx.HTTPError]: [RequestError] and [HTTPStatusError] are its
    two subclasses. *)
Definition is_HTTPError (x : exn) : bool :=
  match x with RequestError _ | HTTPStatusError _ => true | _ => false end.

Definition is_RequestError (x : exn) : bool :=
  match x with RequestError _ => true | _ => false end.

Definition is_RedisError (x : exn) : bool :=
  match x with RedisError _ => true | _ => false end.

Definition is_TimeoutError (x : exn) : bool :=
  match x with TimeoutError _ => true | _ => false end.

(** ** Data *)

(** A node object of the [/nodes] listing.  [node["id"]] and [node["name"]]
    are read unconditionally, [address] and [message] through [.get] with a
    default. *)
Record Node := mkNode {
  node_id : string;
  node_name : string;
  node_address : option string;
  node_message : option string
}.

(** The JSON object of [/node/{id}]; only ["status"] is read. *)
Record NodeData := mkNodeData { nd_status : option string }.

(** The JSON object of [/admin/token]. *)
Record TokenData := mkTokenData {
  access_token : string;
  expires_in : option Z
}.

(** The body of [/nodes]: [isinstance(nodes, list)] or not. *)
Inductive NodesBody :=
| NodeList (ns : list Node)
| NotAList.

(** What an HTTP exchange comes to: a body, no answer ([session.get] or
    [session.post] raises [httpx.RequestError]), a status that
    [raise_for_status] refuses, or a body that [response.json()] refuses. *)
Inductive Reply (A : Type) :=
| Ok200 (body : A)
| NoReply
| BadStatus
| NotJson.
Arguments Ok200 {A} body.
Arguments NoReply {A}.
Arguments BadStatus {A}.
Arguments NotJson {A}.

(** A value of the store. *)
Inductive sval :=
| SText (s : string)
| SFloat (t : Q).

(** [Responses.get_message(key, **fields)]: the category and its fields. *)
Inductive Message :=
| MONITOR_START
| ERROR_MONITOR_FAILURE (error_message : string) (timestamp : Q)
| ERROR_NODE_DISCONNECTED (name ip error_message : string) (timestamp : Q)
| SUCCESS_NODE_RECONNECTED (name ip : string) (timestamp : Q) (downtime_minutes : Q)
| SUCCESS_NODE_RECONNECTED_AFTER_ATTEMPTS (name ip : string) (timestamp : Q) (attempts : nat)
| ERROR_NODE_RECONNECT_FAILED (name ip error_message : string) (attempts : nat) (timestamp : Q).

(** The effects of a run, in the order they happen. *)
Inductive Event :=
| EvPostToken (r : Reply TokenData)            (* POST /admin/token *)
| EvGetNodes (r : Reply NodesBody)             (* GET /nodes *)
| EvGetNode (id : string) (r : Reply NodeData) (* GET /node/{id} *)
| EvReconnect (id : string) (r : Reply unit)   (* POST /node/{id}/reconnect *)
| EvSet (key : string) (v : sval) (ex : option Z)
| EvDelete (key : string)
| EvSend (m : Message)
| EvSleep (seconds : Z).

(** The collaborators: the answer to the interaction number [k]. *)
Record Env := mkEnv {
  post_token : nat -> Reply TokenData;
  nodes_reply : nat -> Reply NodesBody;
  node_reply : nat -> string -> Reply NodeData;
  reconnect_reply : nat -> string -> Reply unit;
  store_up : nat -> bool;
  ttl_ok : Z -> bool;
  clock : nat -> Q
}.

Record World := mkWorld {
  store : gmap string sval;
  trace : list Event;
  tick : nat
}.

(** ** The monad of a call: a result or an exception, and the world after *)

Inductive Result (A : Type) :=
| Ok (a : A)
| Raise (x : exn).
Arguments Ok {A} a.
Arguments Raise {A} x.

Definition M (A : Type) : Type := World -> Result A * World.

Definition ret {A} (a : A) : M A := fun w => (Ok a, w).

Definition raise {A} (x : exn) : M A := fun w => (Raise x, w).

Definition bind {A B} (m : M A) (f : A -> M B) : M B :=
  fun w =>
    match m w with
    | (Ok a, w') => f a w'
    | (Raise x, w') => (Raise x, w')
    end.

(** The body of a [try]: its outcome is handed to the [except] clauses. *)
Definition try_block {A} (m : M A) : M (Result A) :=
  fun w => let '(r, w') := m w in (Ok r, w').

Declare Scope monad_scope.
Delimit Scope monad_scope with monad.
Notation "x <- m ;; k" := (bind m (fun x => k))
  (at level 100, m at next level, right associativity) : monad_scope.
Notation "m ;;; k" := (bind m (fun _ => k))
  (at level 100, right associativity) : monad_scope.
Local Open Scope monad_scope.

Definition next_tick : M nat :=
  fun w => (Ok (tick w), mkWorld (store w) (trace w) (S (tick w))).

Definition emit (ev : Event) : M unit :=
  fun w => (Ok tt, mkWorld (store w) (trace w ++ [ev]) (tick w)).

Definition read_store (key : string) : M (option sval) :=
  fun w => (Ok (store w !! key), w).

Definition write_store (f : gmap string sval -> gmap string sval) : M unit :=
  fun w => (Ok tt, mkWorld (f (store w)) (trace w) (tick w)).

Definition Qltb (a b : Q) : bool := negb (Qle_bool b a).

(** The world after one more interaction. *)
Definition ticked (w : World) : World := mkWorld (store w) (trace w) (S (tick w)).

(** The integer nearest to [q], a tie to the even one. *)
Definition round_half_even (q : Q) : Z :=
  let f := Qfloor q in
  match Qcompare (q - inject_Z f) (1 # 2) with
  | Lt => f
  | Gt => (f + 1)%Z
  | Eq => if Z.even f then f else (f + 1)%Z
  end.

(** The exponent of the leading bit of [q > 0]: the largest [g] with
    [2 ^ g <= q]. *)
Definition floor_log2 (q : Q) : Z :=
  let g := (Z.log2 (Qnum q) - Z.log2 (Zpos (Qden q)))%Z in
  if Qle_bool (2 ^ g) q then g else (g - 1)%Z.

(** The binary64 number nearest to [q], a tie to the one with an even
    significand: 53 significant bits, the last one of weight [2 ^ -1074]
    at least (subnormal numbers).  The exponent has no upper bound here. *)
Definition binary64 (q : Q) : Q :=
  match Qcompare q 0 with
  | Eq => 0
  | c =>
      let a := Qabs q in
      let e := Z.max (floor_log2 a - 52) (-1074) in
      let m := round_half_even (a / 2 ^ e) in
      let r := (inject_Z m * 2 ^ e)%Q in
      Qred (match c with Lt => - r | _ => r end)
  end.

(** [a - b] and [a / b] on two floats. *)
Definition float_sub (a b : Q) : Q := binary64 (a - b).
Definition float_div (a b : Q) : Q := binary64 (a / b).

(** Python's [round(x, 2)] on a float: the exact value of [x] is rounded
    to the nearest hundredth, a tie to the even one, and the result is the
    float nearest to that decimal. *)
Definition round2 (x : Q) : Q := binary64 (inject_Z (round_half_even (x * 100)) / 100).

(** Truth value of a [bytes] object: not empty.  The repr of a number is
    never empty. *)
Definition truthy (v : sval) : bool :=
  match v with
  | SText s => negb (String.eqb s "")
  | SFloat _ => true
  end.

(** [bytes.decode('utf-8')]; the text of a number stands for its repr. *)
Definition decode (v : sval) : string :=
  match v with
  | SText s => s
  | SFloat t => pretty (Qnum t) +:+ "/" +:+ pretty (Zpos (Qden t))
  end.

(** [value == b"disconnected"] *)
Definition is_disconnected (v : option sval) : bool :=
  match v with
  | Some (SText s) => String.eqb s "disconnected"
  | _ => false
  end.

Section Primitives.
Variable e : Env.

(** [time.time()], [datetime.now()] *)
Definition time_time : M Q := k <- next_tick ;; ret (clock e k).
Definition datetime_now : M Q := k <- next_tick ;; ret (clock e k).

(** [time.sleep(d)] *)
Definition sleep (d : Z) : M unit := emit (EvSleep d).

(** [float(b)] *)
Definition py_float (v : sval) : M Q :=
  match v with
  | SFloat t => ret t
  | SText s => raise (ValueError ("could not convert string to float: " +:+ s))
  end.

(** [redis.get(key)] *)
Definition redis_get (key : string) : M (option sval) :=
  k <- next_tick ;;
  if store_up e k then read_store key
  else raise (RedisError "store unreachable").

(** [redis.set(key, value, ex=ex)] *)
Definition redis_set (key : string) (v : sval) (ex : option Z) : M unit :=
  k <- next_tick ;;
  if store_up e k then
    if match ex with Some t => ttl_ok e t | None => true end then
      write_store (insert key v) ;;; emit (EvSet key v ex)
    else raise (RedisError "invalid expire time")
  else raise (RedisError "store unreachable").

(** [redis.delete(key)] *)
Definition redis_delete (key : string) : M unit :=
  k <- next_tick ;;
  if store_up e k then write_store (delete key) ;;; emit (EvDelete key)
  else raise (RedisError "store unreachable").

(** [session.get(...)] or [session.post(...)], then
    [response.raise_for_status()], then [response.json()]. *)
Definition exchange {A} (answer : nat -> Reply A) (log : Reply A -> Event) : M A :=
  k <- next_tick ;;
  emit (log (answer k)) ;;;
  match answer k with
  | Ok200 body => ret body
  | NoReply => raise (RequestError "request failed")
  | BadStatus => raise (HTTPStatusError "error status")
  | NotJson => raise (ValueError "body is not JSON")
  end.

(** Modelled from the spec: [TelegramNotifier.send_message]
    (telegram_notifier.py) and the templates of [Responses.get_message]
    (config.py), which lie outside the two files embedded here.  The
    gateway is "a single SendMessage(text, format) call": the call
    [notifier.send_message(Responses.get_message(key, **fields),
    parse_mode="HTML")] delivers the message of category [key] with its
    fields, and raises nothing. *)
Definition send_message (m : Message) : M unit := emit (EvSend m).

End Primitives.

(** ** marzban_api.py: class MarzbanAPI *)

Module MarzbanAPI.
Section API.
Variable e : Env.

Definition token_key : string := "marzban_access_token".
Definition token_expiry_key : string := "marzban_token_expiry".

(** [authenticate]: lines 44-73.  [expires_in] defaults to 3600; both
    keys are written with that time to live, the second one holding
    [time.time() + expires_in]. *)
Definition authenticate : M string :=
  r <- try_block (
    token_data <- exchange (post_token e) EvPostToken ;;
    let auth_token := access_token token_data in
    let expires := default 3600%Z (expires_in token_data) in
    redis_set e token_key (SText auth_token) (Some expires) ;;;
    now <- time_time e ;;
    redis_set e token_expiry_key (SFloat (now + inject_Z expires)) (Some expires) ;;;
    ret auth_token) ;;
  match r with
  | Ok tok => ret tok
  | Raise x =>
      if is_HTTPError x
      then raise (Exception ("Authentication failed: " +:+ exn_str x))
      else raise x
  end.

(** The condition of line 35, [token and expiry and time.time() <
    float(expiry)], with Python's left-to-right short circuit. *)
Definition cache_is_fresh (token expiry : option sval) : M bool :=
  match token, expiry with
  | Some t, Some x =>
      if truthy t && truthy x then
        now <- time_time e ;;
        limit <- py_float x ;;
        ret (Qltb now limit)
      else ret false
  | _, _ => ret false
  end.

(** [get_cached_token]: lines 29-42. *)
Definition get_cached_token : M string :=
  r <- try_block (
    token <- redis_get e token_key ;;
    expiry <- redis_get e token_expiry_key ;;
    fresh <- cache_is_fresh token expiry ;;
    if fresh then ret (from_option decode "" token)
    else authenticate) ;;
  match r with
  | Ok tok => ret tok
  | Raise x => if is_RedisError x then authenticate else raise x
  end.

(** [get_auth_headers]: the header carries the token. *)
Definition get_auth_headers : M string := get_cached_token.

(** One pass of the [for attempt in range(retries)] loop of [get_nodes],
    lines 82-102. *)
Fixpoint get_nodes_from (delay : Z) (remaining : nat) : M (list Node) :=
  match remaining with
  | O => raise (Exception "Exceeded maximum retries for get_nodes")
  | S remaining' =>
      r <- try_block (
        _ <- get_auth_headers ;;
        nodes <- exchange (nodes_reply e) EvGetNodes ;;
        match nodes with
        | NodeList ns => ret ns
        | NotAList =>
            raise (ValueError "Unexpected response format. Expected a list of nodes.")
        end) ;;
      match r with
      | Ok ns => ret ns
      | Raise x =>
          if is_RequestError x
          then sleep delay ;;; get_nodes_from delay remaining'
          else raise x
      end
  end.

(** [get_nodes(retries=3, delay=5)] *)
Definition get_nodes : M (list Node) := get_nodes_from 5 3.

(** [get_node(node_id)]: lines 104-115. *)
Definition get_node (id : string) : M NodeData :=
  r <- try_block (
    _ <- get_auth_headers ;;
    exchange (fun k => node_reply e k id) (EvGetNode id)) ;;
  match r with
  | Ok d => ret d
  | Raise x =>
      if is_HTTPError x
      then raise (Exception ("Failed to retrieve node " +:+ id +:+ ": " +:+ exn_str x))
      else raise x
  end.

(** [reconnect_node(node_id)]: lines 117-128. *)
Definition reconnect_node (id : string) : M unit :=
  r <- try_block (
    _ <- get_auth_headers ;;
    exchange (fun k => reconnect_reply e k id) (EvReconnect id)) ;;
  match r with
  | Ok d => ret d
  | Raise x =>
      if is_HTTPError x
      then raise (Exception ("Failed to reconnect node " +:+ id +:+ ": " +:+ exn_str x))
      else raise x
  end.

End API.
End MarzbanAPI.

(** ** monitor.py: class NodeMonitor *)

(** The timing attributes set by [__init__]. *)
Record Config := mkConfig {
  sleep_interval : Z;
  reconnect_attempts : nat;
  reconnect_delay : Z;
  node_check_delay : Z
}.

Module NodeMonitor.

(** Lines 27-30. *)
Definition default_config : Config := mkConfig 30 3 5 10.

Definition node_status_key_prefix : string := "node_status:".
Definition node_disconnect_time_prefix : string := "node_disconnect_time:".

Definition get_node_status_key (id : string) : string :=
  node_status_key_prefix +:+ id.

Definition get_node_disconnect_time_key (id : string) : string :=
  node_disconnect_time_prefix +:+ id.

(** [node.get("address", "IP не указан")] and
    [node.get("message", "Ошибка не указана")] *)
Definition node_ip (node : Node) : string :=
  default "IP не указан" (node_address node).

Definition node_error (node : Node) : string :=
  default "Ошибка не указана" (node_message node).

Section Monitor.
Variable cfg : Config.
Variable e : Env.

(** Lines 119-143: the node is back. *)
Definition report_recovery (node : Node) : M unit :=
  disconnect_time <- redis_get e (get_node_disconnect_time_key (node_id node)) ;;
  match disconnect_time with
  | Some v =>
      if truthy v then
        disconnect_time <- py_float v ;;
        reconnect_time <- time_time e ;;
        let downtime := float_sub reconnect_time disconnect_time in
        let downtime_minutes := round2 (float_div downtime 60) in
        timestamp_reconnect <- datetime_now e ;;
        send_message (SUCCESS_NODE_RECONNECTED (node_name node) (node_ip node)
                        timestamp_reconnect downtime_minutes)
      else ret tt
  | None => ret tt
  end ;;;
  redis_delete e (get_node_status_key (node_id node)) ;;;
  redis_delete e (get_node_disconnect_time_key (node_id node)).

(** Lines 169-193: the body of the [try] of one reconnect attempt;
    [true] when it ends in [break]. *)
Definition reconnect_attempt (node : Node) (i : nat) : M bool :=
  MarzbanAPI.reconnect_node e (node_id node) ;;;
  sleep (node_check_delay cfg) ;;;
  node_status <- MarzbanAPI.get_node e (node_id node) ;;
  match nd_status node_status with
  | None => raise (KeyError "status")
  | Some status =>
      if String.eqb status "connected" then
        timestamp_reconnect <- datetime_now e ;;
        send_message (SUCCESS_NODE_RECONNECTED_AFTER_ATTEMPTS (node_name node)
                        (node_ip node) timestamp_reconnect (i + 1)) ;;;
        redis_delete e (get_node_status_key (node_id node)) ;;;
        redis_delete e (get_node_disconnect_time_key (node_id node)) ;;;
        ret true
      else ret false
  end.

(** Lines 167-198: [for i in range(self.reconnect_attempts)], from
    iteration [i] with [remaining] iterations to go; [true] when the loop
    was left by [break]. *)
Fixpoint reconnect_loop (node : Node) (i remaining : nat) : M bool :=
  match remaining with
  | O => ret false
  | S remaining' =>
      r <- try_block (reconnect_attempt node i) ;;
      match r with
      | Ok true => ret true
      | Ok false => reconnect_loop node (S i) remaining'
      | Raise _ =>
          sleep (reconnect_delay cfg) ;;;
          reconnect_loop node (S i) remaining'
      end
  end.

(** Lines 167-220: the loop and its [else] clause. *)
Definition recover (node : Node) : M unit :=
  broke <- reconnect_loop node 0 (reconnect_attempts cfg) ;;
  if broke : bool then ret tt
  else
    timestamp_failure <- datetime_now e ;;
    send_message (ERROR_NODE_RECONNECT_FAILED (node_name node) (node_ip node)
                    (node_error node) (reconnect_attempts cfg) timestamp_failure) ;;;
    redis_set e (get_node_status_key (node_id node)) (SText "disconnected") None.

(** Lines 146-220: the node is neither connected nor disabled. *)
Definition handle_disconnected (node : Node) : M unit :=
  timestamp <- datetime_now e ;;
  stored <- redis_get e (get_node_status_key (node_id node)) ;;
  (if negb (is_disconnected stored) then
     send_message (ERROR_NODE_DISCONNECTED (node_name node) (node_ip node)
                     (node_error node) timestamp) ;;;
     now <- time_time e ;;
     redis_set e (get_node_disconnect_time_key (node_id node)) (SFloat now) None
   else ret tt) ;;;
  recover node.

(** Lines 111-220: what is done with the status just fetched. *)
Definition reconcile (node : Node) (node_status : NodeData) : M unit :=
  let current_status := default "unknown" (nd_status node_status) in
  stored <- redis_get e (get_node_status_key (node_id node)) ;;
  (if is_disconnected stored && String.eqb current_status "connected"
   then report_recovery node else ret tt) ;;;
  if negb (String.eqb current_status "connected" || String.eqb current_status "disabled")
  then handle_disconnected node
  else ret tt.

(** Lines 87-220: the body of [for node in nodes].  Both [except]
    clauses of lines 100-109 log and [continue]. *)
Definition process_node (node : Node) : M unit :=
  r <- try_block (MarzbanAPI.get_node e (node_id node)) ;;
  match r with
  | Raise x => if is_TimeoutError x then ret tt else ret tt
  | Ok node_status => reconcile node node_status
  end.

(** [for node in nodes]: an exception leaves the loop. *)
Fixpoint process_nodes (nodes : list Node) : M unit :=
  match nodes with
  | [] => ret tt
  | node :: rest => process_node node ;;; process_nodes rest
  end.

(** Lines 61-84: the two handlers of a failed listing; each ends in
    [continue]. *)
Definition listing_failed (x : exn) : M unit :=
  if is_TimeoutError x then
    timestamp <- datetime_now e ;;
    send_message (ERROR_MONITOR_FAILURE "Timeout while retrieving nodes" timestamp) ;;;
    sleep (sleep_interval cfg)
  else
    timestamp <- datetime_now e ;;
    send_message (ERROR_MONITOR_FAILURE (exn_str x) timestamp) ;;;
    sleep (sleep_interval cfg).

(** Lines 57-60: the body of the inner [try]. *)
Definition fetch_listing (start_time : Q) : M (list Node) :=
  nodes <- MarzbanAPI.get_nodes e ;;
  now <- time_time e ;;
  let elapsed_time := (now - start_time)%Q in
  ret nodes.

(** Lines 53-222: the body of the outer [try]. *)
Definition cycle_body : M unit :=
  start_time <- time_time e ;;
  r <- try_block (fetch_listing start_time) ;;
  match r with
  | Raise x => listing_failed x
  | Ok nodes =>
      process_nodes nodes ;;;
      sleep (sleep_interval cfg)
  end.

(** Lines 52-234: one iteration of [while True]. *)
Definition cycle : M unit :=
  r <- try_block cycle_body ;;
  match r with
  | Ok _ => ret tt
  | Raise x =>
      timestamp_error <- datetime_now e ;;
      send_message (ERROR_MONITOR_FAILURE (exn_str x) timestamp_error)
  end.

(** [n] iterations of [while True]. *)
Fixpoint cycles (n : nat) : M unit :=
  match n with
  | O => ret tt
  | S n' => cycle ;;; cycles n'
  end.

(** [monitor], cut after [n] cycles. *)
Definition monitor (n : nat) : M unit :=
  send_message MONITOR_START ;;;
  cycles n.

End Monitor.
End NodeMonitor.

(** ** Vocabulary of the statements *)

(** What a call adds to the log of effects when started in [w]. *)
Definition emitted {A} (m : M A) (w : World) : list Event :=
  drop (length (trace w)) (trace (m w).2).

(** The store after the writes of a log. *)
Definition apply_event (ev : Event) (s : gmap string sval) : gmap string sval :=
  match ev with
  | EvSet key v _ => <[key := v]> s
  | EvDelete key => delete key s
  | _ => s
  end.

Definition replay (evs : list Event) (s : gmap string sval) : gmap string sval :=
  fold_left (fun s ev => apply_event ev s) evs s.

(** [w'] is reached from [w] by effects that all satisfy [P]; the store
    changes by the logged writes only. *)
Definition ext (P : Event -> Prop) (w w' : World) : Prop :=
  exists evs,
    trace w' = trace w ++ evs /\ Forall P evs /\
    store w' = replay evs (store w) /\ tick w <= tick w'.

(** Every run of [m] stays within the effects [P]. *)
Definition fp {A} (P : Event -> Prop) (m : M A) : Prop :=
  forall w, ext P w (m w).2.

Definition count (p : Event -> bool) (evs : list Event) : nat :=
  length (List.filter p evs).

(** The effects of the credential cache. *)
Inductive token_event : Event -> Prop :=
| te_post r : token_event (EvPostToken r)
| te_set_token tok ex : token_event (EvSet MarzbanAPI.token_key (SText tok) ex)
| te_set_expiry t ex : token_event (EvSet MarzbanAPI.token_expiry_key (SFloat t) ex).

(** The keys under which the code reads a number back with [float]. *)
Definition float_key (key : string) : Prop :=
  key = MarzbanAPI.token_expiry_key \/
  exists id, key = NodeMonitor.get_node_disconnect_time_key id.

(** Every such key holds a number. *)
Definition store_wf (s : gmap string sval) : Prop :=
  forall key v, s !! key = Some v -> float_key key -> exists t, v = SFloat t.

(** A write that keeps [store_wf]. *)
Definition sane (ev : Event) : Prop :=
  match ev with
  | EvSet key v _ => float_key key -> exists t, v = SFloat t
  | _ => True
  end.


(** ** Vocabulary of the statements about the monitor *)

(** The events counted by the statements. *)
Definition is_reconnect (ev : Event) : bool :=
  match ev with EvReconnect _ _ => true | _ => false end.

Definition is_disconnect_alert (name : string) (ev : Event) : bool :=
  match ev with
  | EvSend (ERROR_NODE_DISCONNECTED n _ _ _) => String.eqb n name
  | _ => false
  end.

Definition is_reconnect_failed (name : string) (ev : Event) : bool :=
  match ev with
  | EvSend (ERROR_NODE_RECONNECT_FAILED n _ _ _ _) => String.eqb n name
  | _ => false
  end.

Definition is_monitor_failure (ev : Event) : bool :=
  match ev with
  | EvSend (ERROR_MONITOR_FAILURE _ _) => true
  | _ => false
  end.

Definition is_send (ev : Event) : bool :=
  match ev with EvSend _ => true | _ => false end.

Definition is_sleep (ev : Event) : bool :=
  match ev with EvSleep _ => true | _ => false end.

Definition is_set_of (key : string) (ev : Event) : bool :=
  match ev with EvSet k _ _ => String.eqb k key | _ => false end.

Definition is_fetch_of (id : string) (ev : Event) : bool :=
  match ev with EvGetNode i _ => String.eqb i id | _ => false end.

(** The event writes or deletes [key]. *)
Definition touches (key : string) (ev : Event) : Prop :=
  match ev with
  | EvSet k _ _ | EvDelete k => k = key
  | _ => False
  end.

(** The fetch of node [id] that found it connected. *)
Definition seen_connected (id : string) : Event :=
  EvGetNode id (Ok200 (mkNodeData (Some "connected"))).

(** The environments of the nominal runs. *)
Definition store_reachable (e : Env) : Prop := forall k, store_up e k = true.

Definition auth_succeeds (e : Env) : Prop :=
  forall k, exists d,
    post_token e k = Ok200 d /\ ttl_ok e (default 3600%Z (expires_in d)) = true.

Definition lists (e : Env) (fleet : list Node) : Prop :=
  forall k, nodes_reply e k = Ok200 (NodeList fleet).

Definition reports (e : Env) (id status : string) : Prop :=
  forall k, node_reply e k id = Ok200 (mkNodeData (Some status)).

Definition reconnect_fails (e : Env) (id : string) : Prop :=
  forall k, reconnect_reply e k id <> Ok200 tt.

(** [other] is another node than [node]: another id and another name. *)
Definition stranger (node other : Node) : Prop :=
  node_id other <> node_id node /\ node_name other <> node_name node.

(** [node] is listed once, among strangers. *)
Definition listed_once (node : Node) (fleet : list Node) : Prop :=
  exists before after,
    fleet = before ++ node :: after /\
    Forall (stranger node) before /\ Forall (stranger node) after.

(** The effects of fetching node [id]. *)
Inductive fetch_event (id : string) : Event -> Prop :=
| fe_token ev : token_event ev -> fetch_event id ev
| fe_get r : fetch_event id (EvGetNode id r).

(** The effects of a fetch of node [id] that does not find it connected. *)
Inductive blind_fetch_event (id : string) : Event -> Prop :=
| bf_token ev : token_event ev -> blind_fetch_event id ev
| bf_get r : r <> Ok200 (mkNodeData (Some "connected")) ->
    blind_fetch_event id (EvGetNode id r).

(** The effects of asking node [id] to reconnect. *)
Inductive reconnect_event (id : string) : Event -> Prop :=
| re_token ev : token_event ev -> reconnect_event id ev
| re_post r : reconnect_event id (EvReconnect id r).

(** The name a message is about. *)
Definition message_name (m : Message) : option string :=
  match m with
  | MONITOR_START | ERROR_MONITOR_FAILURE _ _ => None
  | ERROR_NODE_DISCONNECTED n _ _ _
  | SUCCESS_NODE_RECONNECTED n _ _ _
  | SUCCESS_NODE_RECONNECTED_AFTER_ATTEMPTS n _ _ _
  | ERROR_NODE_RECONNECT_FAILED n _ _ _ _ => Some n
  end.

(** The effects of the reconnect attempts for [node]. *)
Inductive attempt_event (node : Node) : Event -> Prop :=
| at_token ev : token_event ev -> attempt_event node ev
| at_get r : attempt_event node (EvGetNode (node_id node) r)
| at_reconnect r : attempt_event node (EvReconnect (node_id node) r)
| at_sleep d : attempt_event node (EvSleep d)
| at_delete_status :
    attempt_event node (EvDelete (NodeMonitor.get_node_status_key (node_id node)))
| at_delete_time :
    attempt_event node (EvDelete (NodeMonitor.get_node_disconnect_time_key (node_id node)))
| at_send ip ts n :
    attempt_event node
      (EvSend (SUCCESS_NODE_RECONNECTED_AFTER_ATTEMPTS (node_name node) ip ts n)).

(** The effects of handling [node] in a cycle. *)
Inductive node_event (node : Node) : Event -> Prop :=
| ne_attempt ev : attempt_event node ev -> node_event node ev
| ne_set_time t :
    node_event node
      (EvSet (NodeMonitor.get_node_disconnect_time_key (node_id node)) (SFloat t) None)
| ne_set_status :
    node_event node
      (EvSet (NodeMonitor.get_node_status_key (node_id node)) (SText "disconnected") None)
| ne_send m : message_name m = Some (node_name node) -> node_event node (EvSend m).

(** The effects of the reconnect attempts as long as the node is not seen
    connected. *)
Inductive quiet_event (id : string) : Event -> Prop :=
| qe_token ev : token_event ev -> quiet_event id ev
| qe_get r : quiet_event id (EvGetNode id r)
| qe_reconnect r : quiet_event id (EvReconnect id r)
| qe_sleep d : quiet_event id (EvSleep d).

(** Every run of [m] adds at most [n] events of the kind [p]. *)
Definition emits_at_most {A} (p : Event -> bool) (n : nat) (m : M A) : Prop :=
  forall w, exists evs, trace (m w).2 = trace w ++ evs /\ count p evs <= n.

(** No reconnect action follows a fetch that saw node [id] connected. *)
Definition stops_when_connected (id : string) (evs : list Event) : Prop :=
  forall before after,
    evs = before ++ seen_connected id :: after -> count is_reconnect after = 0.

(** No fetch of the log saw node [id] connected. *)
Definition never_connected (id : string) (evs : list Event) : Prop :=
  Forall (fun ev => ev <> seen_connected id) evs.

(** An effect that is none of those counted for [node] and leaves its
    record alone. *)
Definition foreign (node : Node) (ev : Event) : Prop :=
  sane ev /\
  ~ touches (NodeMonitor.get_node_status_key (node_id node)) ev /\
  ~ touches (NodeMonitor.get_node_disconnect_time_key (node_id node)) ev /\
  is_disconnect_alert (node_name node) ev = false /\
  is_reconnect_failed (node_name node) ev = false.

(** What a step from [w] to [w'] did about [node]: the numbers of
    NodeDisconnected alerts, of writes of the disconnect timestamp and of
    NodeReconnectFailed notifications. *)
Definition tally (node : Node) (alerts stamps failures : nat) (w w' : World) : Prop :=
  exists evs,
    trace w' = trace w ++ evs /\
    count (is_disconnect_alert (node_name node)) evs = alerts /\
    count (is_set_of (NodeMonitor.get_node_disconnect_time_key (node_id node))) evs = stamps /\
    count (is_reconnect_failed (node_name node)) evs = failures.

(** Every NodeReconnectFailed notification of the log reports [attempts]
    attempts. *)
Definition failed_alerts_report (attempts : nat) (ev : Event) : Prop :=
  forall name ip message a ts,
    ev = EvSend (ERROR_NODE_RECONNECT_FAILED name ip message a ts) -> a = attempts.

(** ** Concrete collaborators for the examples *)

Definition empty_world : World := mkWorld ∅ [] 0.

(** Every collaborator answers; the token endpoint carries no
    [expires_in]; the clock advances by one second per reading. *)
Definition env_calm (fleet : list Node) (status : string) : Env :=
  mkEnv (fun _ => Ok200 (mkTokenData "token" None))
        (fun _ => Ok200 (NodeList fleet))
        (fun _ _ => Ok200 (mkNodeData (Some status)))
        (fun _ _ => Ok200 tt)
        (fun _ => true)
        (fun _ => true)
        (fun k => inject_Z (Z.of_nat k)).

Definition node_a : Node := mkNode "1" "alpha" (Some "10.0.0.1") None.
Definition node_b : Node := mkNode "2" "beta" None (Some "timeout").

(** As [env_calm], but the store does not answer interaction 13: in a
    first cycle started in [empty_world] that is the read of the stored
    state of the first node listed (line 116). *)
Definition env_store_fault (fleet : list Node) (status : string) : Env :=
  mkEnv (fun _ => Ok200 (mkTokenData "token" None))
        (fun _ => Ok200 (NodeList fleet))
        (fun _ _ => Ok200 (mkNodeData (Some status)))
        (fun _ _ => Ok200 tt)
        (fun k => negb (Nat.eqb k 13))
        (fun _ => true)
        (fun k => inject_Z (Z.of_nat k)).

(** The scenario of a node that stays [connecting]: its reconnect actions
    are refused. *)
Definition node_c : Node := mkNode "3" "gamma" (Some "10.0.0.3") (Some "handshake failed").

Definition env_connecting : Env :=
  mkEnv (fun _ => Ok200 (mkTokenData "token" None))
        (fun _ => Ok200 (NodeList [node_c]))
        (fun _ _ => Ok200 (mkNodeData (Some "connecting")))
        (fun _ _ => BadStatus)
        (fun _ => true)
        (fun _ => true)
        (fun k => inject_Z (Z.of_nat k)).

Definition two_attempts : Config := mkConfig 30 2 5 10.

(** A store that holds the state [disconnected] for node "1", with and
    without the disconnect timestamp 3. *)
Definition world_flagged : World :=
  mkWorld (<[NodeMonitor.get_node_status_key "1" := SText "disconnected"]>
             (<[NodeMonitor.get_node_disconnect_time_key "1" := SFloat 3]> ∅))
          [] 0.

Definition world_flagged_unstamped : World :=
  mkWorld (<[NodeMonitor.get_node_status_key "1" := SText "disconnected"]> ∅) [] 0.


(** ** Vocabulary of the statements about the API client and the loop *)

Definition is_post_token (ev : Event) : bool :=
  match ev with EvPostToken _ => true | _ => false end.

Definition is_get_nodes (ev : Event) : bool :=
  match ev with EvGetNodes _ => true | _ => false end.

Definition is_get_node (ev : Event) : bool :=
  match ev with EvGetNode _ _ => true | _ => false end.

Definition is_monitor_start (ev : Event) : bool :=
  match ev with EvSend MONITOR_START => true | _ => false end.

(** The event changes the store. *)
Definition is_write (ev : Event) : bool :=
  match ev with EvSet _ _ _ | EvDelete _ => true | _ => false end.

(** The token endpoint answers, the store refuses the time to live. *)
Definition env_ttl_refused : Env :=
  mkEnv (fun _ => Ok200 (mkTokenData "token" (Some (-1)%Z)))
        (fun _ => Ok200 (NodeList []))
        (fun _ _ => Ok200 (mkNodeData (Some "connected")))
        (fun _ _ => Ok200 tt)
        (fun _ => true)
        (fun t => Z.ltb 0 t)
        (fun k => inject_Z (Z.of_nat k)).

(** Every collaborator answers but the store. *)
Definition env_store_down (fleet : list Node) : Env :=
  mkEnv (fun _ => Ok200 (mkTokenData "token" None))
        (fun _ => Ok200 (NodeList fleet))
        (fun _ _ => Ok200 (mkNodeData (Some "connected")))
        (fun _ _ => Ok200 tt)
        (fun _ => false)
        (fun _ => true)
        (fun k => inject_Z (Z.of_nat k)).

(** A store that holds the token "cached", which expires at 100. *)
Definition world_cached : World :=
  mkWorld (<[MarzbanAPI.token_key := SText "cached"]>
             (<[MarzbanAPI.token_expiry_key := SFloat 100]> ∅))
          [] 0.

(** Every exception that [m] raises satisfies [Q]. *)
Definition raises_only {A} (Q : exn -> Prop) (m : M A) : Prop :=
  forall w x, (m w).1 = Raise x -> Q x.

(** The token endpoint refuses the credentials; reconnect requests are
    refused too. *)
Definition env_auth_refused : Env :=
  mkEnv (fun _ => BadStatus)
        (fun _ => Ok200 (NodeList []))
        (fun _ _ => Ok200 (mkNodeData (Some "connected")))
        (fun _ _ => Ok200 tt)
        (fun _ => true)
        (fun _ => true)
        (fun k => inject_Z (Z.of_nat k)).

(** No request to the listing endpoint is answered. *)
Definition env_no_listing : Env :=
  mkEnv (fun _ => Ok200 (mkTokenData "token" None))
        (fun _ => NoReply)
        (fun _ _ => Ok200 (mkNodeData (Some "connected")))
        (fun _ _ => Ok200 tt)
        (fun _ => true)
        (fun _ => true)
        (fun k => inject_Z (Z.of_nat k)).

(** The listing endpoint answers with a body that is not a list. *)
Definition env_not_a_list : Env :=
  mkEnv (fun _ => Ok200 (mkTokenData "token" None))
        (fun _ => Ok200 NotAList)
        (fun _ _ => Ok200 (mkNodeData (Some "connected")))
        (fun _ _ => Ok200 tt)
        (fun _ => true)
        (fun _ => true)
        (fun k => inject_Z (Z.of_nat k)).

(** The exception [get_nodes] raises on an answer that is neither a list
    nor a transport failure. *)
Definition listing_refused (r : Reply NodesBody) : option exn :=
  match r with
  | BadStatus => Some (HTTPStatusError "error status")
  | NotJson => Some (ValueError "body is not JSON")
  | Ok200 NotAList =>
      Some (ValueError "Unexpected response format. Expected a list of nodes.")
  | Ok200 (NodeList _) | NoReply => None
  end.

(** The effects of reading the API: the credential cache and the fetch
    of some node. *)
Definition read_event (ev : Event) : Prop := exists id, fetch_event id ev.

(** No request for the status of a node is answered. *)
Definition env_unreachable_nodes (fleet : list Node) : Env :=
  mkEnv (fun _ => Ok200 (mkTokenData "token" None))
        (fun _ => Ok200 (NodeList fleet))
        (fun _ _ => NoReply)
        (fun _ _ => Ok200 tt)
        (fun _ => true)
        (fun _ => true)
        (fun k => inject_Z (Z.of_nat k)).

(** The effects of the monitoring loop. *)
Inductive loop_event : Event -> Prop :=
| le_token ev : token_event ev -> loop_event ev
| le_nodes r : loop_event (EvGetNodes r)
| le_node node ev : node_event node ev -> loop_event ev
| le_sleep d : loop_event (EvSleep d)
| le_failure message ts : loop_event (EvSend (ERROR_MONITOR_FAILURE message ts)).

(** A stored state, when there is one, is [disconnected]. *)
Definition status_wf (s : gmap string sval) : Prop :=
  forall id v,
    s !! NodeMonitor.get_node_status_key id = Some v -> v = SText "disconnected".

(** A write that keeps [status_wf]. *)
Definition sets_disconnected (ev : Event) : Prop :=
  match ev with
  | EvSet key v _ =>
      forall id, key = NodeMonitor.get_node_status_key id -> v = SText "disconnected"
  | _ => True
  end.

(** The event concerns [node] and no other: a message carries its name, a
    request its id, a write goes to one of its two keys or to the
    credential cache. *)
Definition about_node (node : Node) (ev : Event) : Prop :=
  match ev with
  | EvSend m => message_name m = Some (node_name node)
  | EvGetNode id _ | EvReconnect id _ => id = node_id node
  | EvSet key _ _ | EvDelete key =>
      key = NodeMonitor.get_node_status_key (node_id node) \/
      key = NodeMonitor.get_node_disconnect_time_key (node_id node) \/
      key = MarzbanAPI.token_key \/ key = MarzbanAPI.token_expiry_key
  | EvGetNodes _ => False
  | EvPostToken _ | EvSleep _ => True
  end.

(** The event is neither a NodeDisconnected alert for [node] nor a write
    of its disconnect timestamp. *)
Definition no_alert (node : Node) (ev : Event) : Prop :=
  is_disconnect_alert (node_name node) ev = false /\
  is_set_of (NodeMonitor.get_node_disconnect_time_key (node_id node)) ev = false.

(** Every fetch of a node finds it connected or disabled. *)
Definition healthy (e : Env) : Prop :=
  forall k id, exists s,
    node_reply e k id = Ok200 (mkNodeData (Some s)) /\
    (s = "connected" \/ s = "disabled").

(** Every request to the listing endpoint is answered with a list. *)
Definition listing_answers (e : Env) : Prop :=
  forall k, exists fleet, nodes_reply e k = Ok200 (NodeList fleet).

(** No node is recorded as disconnected. *)
Definition no_record (s : gmap string sval) : Prop :=
  forall id, is_disconnected (s !! NodeMonitor.get_node_status_key id) = false.

(** The effects of a cycle that only looks: the credential cache, the
    listing and the fetches. *)
Definition calm_event (ev : Event) : Prop :=
  read_event ev \/ exists r, ev = EvGetNodes r.

(** ** Stores that fail, and a store as strict as Redis *)

(** The store accepts no time to live that is not positive, as Redis
    does ([SET key value EX seconds] with [seconds <= 0] is an error). *)
Definition ttl_positive (e : Env) : Prop :=
  forall t, ttl_ok e t = true -> (0 < t)%Z.


(** As [env_connecting], but the store does not answer interaction
    [fault]. *)
Definition env_connecting_fault (fault : nat) : Env :=
  mkEnv (fun _ => Ok200 (mkTokenData "token" None))
        (fun _ => Ok200 (NodeList [node_c]))
        (fun _ _ => Ok200 (mkNodeData (Some "connecting")))
        (fun _ _ => BadStatus)
        (fun k => negb (Nat.eqb k fault))
        (fun _ => true)
        (fun k => inject_Z (Z.of_nat k)).

(** As [env_calm], but the store does not answer interaction [fault]. *)
Definition env_calm_fault (fault : nat) (fleet : list Node) (status : string) : Env :=
  mkEnv (fun _ => Ok200 (mkTokenData "token" None))
        (fun _ => Ok200 (NodeList fleet))
        (fun _ _ => Ok200 (mkNodeData (Some status)))
        (fun _ _ => Ok200 tt)
        (fun k => negb (Nat.eqb k fault))
        (fun _ => true)
        (fun k => inject_Z (Z.of_nat k)).

(** As [env_calm], with a clock that reads 151.5 at interaction 0 and
    advances by one second per reading. *)
Definition env_half_past (fleet : list Node) (status : string) : Env :=
  mkEnv (fun _ => Ok200 (mkTokenData "token" None))
        (fun _ => Ok200 (NodeList fleet))
        (fun _ _ => Ok200 (mkNodeData (Some status)))
        (fun _ _ => Ok200 tt)
        (fun _ => true)
        (fun _ => true)
        (fun k => (inject_Z (Z.of_nat k) + (303 # 2))%Q).

(** A store that holds the state [disconnected] for node "1", with the
    disconnect timestamp 0. *)
Definition world_flagged_at_zero : World :=
  mkWorld (<[NodeMonitor.get_node_status_key "1" := SText "disconnected"]>
             (<[NodeMonitor.get_node_disconnect_time_key "1" := SFloat 0]> ∅))
          [] 0.
(** ** Running a call *)

Lemma bind_ok {A B} (m : M A) (f : A -> M B) w a w' :
  m w = (Ok a, w') -> bind m f w = f a w'.
Proof. intros H. unfold bind. by rewrite H. Qed.

Lemma bind_raise {A B} (m : M A) (f : A -> M B) w x w' :
  m w = (Raise x, w') -> bind m f w = (Raise x, w').
Proof. intros H. unfold bind. by rewrite H. Qed.

Lemma try_block_run {A} (m : M A) w :
  try_block m w = (Ok (m w).1, (m w).2).
Proof. unfold try_block. by destruct (m w). Qed.

Lemma bind_snd {A B} (m : M A) (f : A -> M B) w :
  (bind m f w).2 =
  match (m w).1 with
  | Ok a => (f a (m w).2).2
  | Raise _ => (m w).2
  end.
Proof. unfold bind. by destruct (m w) as [[a|x] w']. Qed.

Lemma replay_app evs1 evs2 s :
  replay (evs1 ++ evs2) s = replay evs2 (replay evs1 s).
Proof. apply fold_left_app. Qed.

Lemma ext_refl P w : ext P w w.
Proof. exists []. rewrite app_nil_r. by repeat split. Qed.

Lemma ext_trans P w1 w2 w3 : ext P w1 w2 -> ext P w2 w3 -> ext P w1 w3.
Proof.
  intros (evs1 & Ht1 & Hp1 & Hs1 & Hk1) (evs2 & Ht2 & Hp2 & Hs2 & Hk2).
  exists (evs1 ++ evs2). repeat split.
  - by rewrite Ht2, Ht1, app_assoc.
  - by apply Forall_app.
  - by rewrite Hs2, Hs1, replay_app.
  - lia.
Qed.

Lemma ext_mono (P P' : Event -> Prop) w w' :
  (forall ev, P ev -> P' ev) -> ext P w w' -> ext P' w w'.
Proof.
  intros Hsub (evs & Ht & Hp & Hs & Hk). exists evs. repeat split; try done.
  eapply Forall_impl; eauto.
Qed.

Lemma ext_emitted {A} P (m : M A) w :
  ext P w (m w).2 ->
  trace (m w).2 = trace w ++ emitted m w /\ Forall P (emitted m w) /\
  store (m w).2 = replay (emitted m w) (store w).
Proof.
  intros (evs & Ht & Hp & Hs & _). unfold emitted.
  rewrite Ht, drop_app_length. done.
Qed.

Section Footprint.
Variable P : Event -> Prop.

Lemma fp_ret {A} (a : A) : fp P (ret a).
Proof. intros w. apply ext_refl. Qed.

Lemma fp_raise {A} x : fp P (@raise A x).
Proof. intros w. apply ext_refl. Qed.

Lemma fp_bind {A B} (m : M A) (f : A -> M B) :
  fp P m -> (forall a, fp P (f a)) -> fp P (bind m f).
Proof.
  intros Hm Hf w. rewrite bind_snd. specialize (Hm w).
  destruct (m w).1; [|done]. eapply ext_trans; [done|]. apply Hf.
Qed.

Lemma fp_try_block {A} (m : M A) : fp P m -> fp P (try_block m).
Proof. intros Hm w. rewrite try_block_run. apply Hm. Qed.

Lemma fp_next_tick : fp P next_tick.
Proof.
  intros w. exists []. simpl. rewrite app_nil_r. repeat split; try done. lia.
Qed.

Lemma fp_emit ev :
  P ev -> (forall s, apply_event ev s = s) -> fp P (emit ev).
Proof.
  intros Hp Hs w. exists [ev]. simpl. rewrite Hs. repeat split; auto.
Qed.

Lemma fp_sleep d : P (EvSleep d) -> fp P (sleep d).
Proof. intros. by apply fp_emit. Qed.

Lemma fp_send_message m : P (EvSend m) -> fp P (send_message m).
Proof. intros. by apply fp_emit. Qed.

Lemma fp_py_float v : fp P (py_float v).
Proof. destruct v; [apply fp_raise | apply fp_ret]. Qed.

Variable e : Env.

Lemma fp_time_time : fp P (time_time e).
Proof. apply fp_bind; [apply fp_next_tick | intros; apply fp_ret]. Qed.

Lemma fp_datetime_now : fp P (datetime_now e).
Proof. apply fp_time_time. Qed.

Lemma fp_redis_get key : fp P (redis_get e key).
Proof.
  apply fp_bind; [apply fp_next_tick | intros k].
  destruct (store_up e k); [|apply fp_raise]. intros w. apply ext_refl.
Qed.

Lemma fp_redis_set key v ex : P (EvSet key v ex) -> fp P (redis_set e key v ex).
Proof.
  intros Hp. apply fp_bind; [apply fp_next_tick | intros k].
  destruct (store_up e k); [|apply fp_raise].
  destruct (match ex with Some t => ttl_ok e t | None => true end); [|apply fp_raise].
  intros w. exists [EvSet key v ex]. simpl. repeat split; auto.
Qed.

Lemma fp_redis_delete key : P (EvDelete key) -> fp P (redis_delete e key).
Proof.
  intros Hp. apply fp_bind; [apply fp_next_tick | intros k].
  destruct (store_up e k); [|apply fp_raise].
  intros w. exists [EvDelete key]. simpl. repeat split; auto.
Qed.

Lemma fp_exchange {A} (answer : nat -> Reply A) (log : Reply A -> Event) :
  (forall r, P (log r)) -> (forall r s, apply_event (log r) s = s) ->
  fp P (exchange answer log).
Proof.
  intros Hp Hs. apply fp_bind; [apply fp_next_tick | intros k].
  apply fp_bind; [by apply fp_emit | intros _].
  destruct (answer k); [apply fp_ret | apply fp_raise ..].
Qed.

End Footprint.

Create HintDb fp.

#[local] Hint Constructors token_event : fp.

Ltac fp_step :=
  first
    [ solve [eauto with fp]
    | apply fp_ret | apply fp_raise | apply fp_try_block | apply fp_next_tick
    | apply fp_time_time | apply fp_datetime_now | apply fp_redis_get
    | apply fp_py_float | apply fp_redis_set | apply fp_redis_delete
    | apply fp_sleep | apply fp_send_message | apply fp_exchange
    | apply fp_bind; [| intros ?]
    | match goal with |- fp _ (match ?x with _ => _ end) => destruct x end ].

Ltac fp_auto := repeat fp_step.

Section FootprintAPI.
Variable P : Event -> Prop.
Variable e : Env.
Hypothesis Htoken : forall ev, token_event ev -> P ev.

Lemma fp_authenticate : fp P (MarzbanAPI.authenticate e).
Proof. unfold MarzbanAPI.authenticate. fp_auto. Qed.

Lemma fp_cache_is_fresh token expiry : fp P (MarzbanAPI.cache_is_fresh e token expiry).
Proof. unfold MarzbanAPI.cache_is_fresh. fp_auto. Qed.

Lemma fp_get_cached_token : fp P (MarzbanAPI.get_cached_token e).
Proof.
  pose proof fp_authenticate. pose proof fp_cache_is_fresh.
  unfold MarzbanAPI.get_cached_token. fp_auto.
Qed.

Lemma fp_get_nodes_from delay n :
  (forall r, P (EvGetNodes r)) -> (forall d, P (EvSleep d)) ->
  fp P (MarzbanAPI.get_nodes_from e delay n).
Proof.
  intros Hg Hs. pose proof fp_get_cached_token.
  induction n as [|n IH]; simpl; unfold MarzbanAPI.get_auth_headers; fp_auto.
Qed.

Lemma fp_get_node id :
  (forall r, P (EvGetNode id r)) -> fp P (MarzbanAPI.get_node e id).
Proof.
  intros Hg. pose proof fp_get_cached_token.
  unfold MarzbanAPI.get_node, MarzbanAPI.get_auth_headers. fp_auto.
Qed.

Lemma fp_reconnect_node id :
  (forall r, P (EvReconnect id r)) -> fp P (MarzbanAPI.reconnect_node e id).
Proof.
  intros Hg. pose proof fp_get_cached_token.
  unfold MarzbanAPI.reconnect_node, MarzbanAPI.get_auth_headers. fp_auto.
Qed.

End FootprintAPI.

(** ** The equations of the primitives *)

Lemma run_bind {A B} (m : M A) (f : A -> M B) w :
  bind m f w =
  match m w with
  | (Ok a, w') => f a w'
  | (Raise x, w') => (Raise x, w')
  end.
Proof. reflexivity. Qed.

Lemma run_ret {A} (a : A) w : ret a w = (Ok a, w).
Proof. reflexivity. Qed.

Lemma run_raise {A} x w : @raise A x w = (Raise x, w).
Proof. reflexivity. Qed.

Lemma run_try_block {A} (m : M A) w :
  try_block m w = let '(r, w') := m w in (Ok r, w').
Proof. reflexivity. Qed.

Lemma run_time_time e w : time_time e w = (Ok (clock e (tick w)), ticked w).
Proof. reflexivity. Qed.

Lemma run_datetime_now e w : datetime_now e w = (Ok (clock e (tick w)), ticked w).
Proof. reflexivity. Qed.

Lemma run_sleep d w :
  sleep d w = (Ok tt, mkWorld (store w) (trace w ++ [EvSleep d]) (tick w)).
Proof. reflexivity. Qed.

Lemma run_send_message m w :
  send_message m w = (Ok tt, mkWorld (store w) (trace w ++ [EvSend m]) (tick w)).
Proof. reflexivity. Qed.

Lemma run_py_float v w :
  py_float v w =
  match v with
  | SFloat t => (Ok t, w)
  | SText s => (Raise (ValueError ("could not convert string to float: " +:+ s)), w)
  end.
Proof. by destruct v. Qed.

Lemma run_redis_get e key w :
  redis_get e key w =
  if store_up e (tick w) then (Ok (store w !! key), ticked w)
  else (Raise (RedisError "store unreachable"), ticked w).
Proof. unfold redis_get, bind; simpl. by destruct (store_up e (tick w)). Qed.

Lemma run_redis_set e key v ex w :
  redis_set e key v ex w =
  if store_up e (tick w) then
    if match ex with Some t => ttl_ok e t | None => true end
    then (Ok tt, mkWorld (<[key:=v]> (store w)) (trace w ++ [EvSet key v ex]) (S (tick w)))
    else (Raise (RedisError "invalid expire time"), ticked w)
  else (Raise (RedisError "store unreachable"), ticked w).
Proof.
  unfold redis_set, bind; simpl. destruct (store_up e (tick w)); [|done].
  by destruct (match ex with Some t => ttl_ok e t | None => true end).
Qed.

Lemma run_redis_delete e key w :
  redis_delete e key w =
  if store_up e (tick w)
  then (Ok tt, mkWorld (delete key (store w)) (trace w ++ [EvDelete key]) (S (tick w)))
  else (Raise (RedisError "store unreachable"), ticked w).
Proof. unfold redis_delete, bind; simpl. by destruct (store_up e (tick w)). Qed.

Lemma run_exchange {A} (answer : nat -> Reply A) log w :
  exchange answer log w =
  (match answer (tick w) with
   | Ok200 body => Ok body
   | NoReply => Raise (RequestError "request failed")
   | BadStatus => Raise (HTTPStatusError "error status")
   | NotJson => Raise (ValueError "body is not JSON")
   end,
   mkWorld (store w) (trace w ++ [log (answer (tick w))]) (S (tick w))).
Proof. unfold exchange, bind; simpl. by destruct (answer (tick w)). Qed.

Ltac run1 :=
  first
    [ rewrite run_bind | rewrite run_ret | rewrite run_raise | rewrite run_try_block
    | rewrite run_time_time | rewrite run_datetime_now | rewrite run_sleep
    | rewrite run_send_message | rewrite run_py_float | rewrite run_redis_get
    | rewrite run_redis_set | rewrite run_redis_delete | rewrite run_exchange ].

Ltac run := repeat (run1; cbn [ticked store trace tick fst snd]).

Ltac run1_in H :=
  first
    [ rewrite run_bind in H | rewrite run_ret in H | rewrite run_raise in H
    | rewrite run_try_block in H | rewrite run_time_time in H
    | rewrite run_datetime_now in H | rewrite run_sleep in H
    | rewrite run_send_message in H | rewrite run_py_float in H
    | rewrite run_redis_get in H | rewrite run_redis_set in H
    | rewrite run_redis_delete in H | rewrite run_exchange in H ].

Ltac run_in H := repeat (run1_in H; cbn [ticked store trace tick fst snd] in H).

(** Case analysis on what a collaborator answers. *)
Ltac case_env :=
  match goal with
  | |- context [match post_token ?e ?k with _ => _ end] =>
      destruct (post_token e k) eqn:?
  | |- context [match nodes_reply ?e ?k with _ => _ end] =>
      destruct (nodes_reply e k) eqn:?
  | |- context [match node_reply ?e ?k ?id with _ => _ end] =>
      destruct (node_reply e k id) eqn:?
  | |- context [match reconnect_reply ?e ?k ?id with _ => _ end] =>
      destruct (reconnect_reply e k id) eqn:?
  | |- context [if store_up ?e ?k then _ else _] =>
      destruct (store_up e k) eqn:?
  | |- context [if ttl_ok ?e ?t then _ else _] =>
      destruct (ttl_ok e t) eqn:?
  end.

Ltac calc :=
  cbn [String.eqb Ascii.eqb Bool.eqb default from_option id andb orb negb
       is_TimeoutError is_RedisError is_HTTPError is_RequestError
       is_disconnected truthy].

(** ** Counting and replaying events *)

Lemma count_app p evs1 evs2 : count p (evs1 ++ evs2) = count p evs1 + count p evs2.
Proof. unfold count. by rewrite List.filter_app, length_app. Qed.

Lemma count_none p (P : Event -> Prop) evs :
  (forall ev, P ev -> p ev = false) -> Forall P evs -> count p evs = 0.
Proof.
  intros Hp Hall. unfold count. induction Hall as [|ev evs Hev _ IH]; [done|].
  simpl. by rewrite (Hp _ Hev).
Qed.

Lemma replay_untouched key evs s :
  Forall (fun ev => ~ touches key ev) evs -> replay evs s !! key = s !! key.
Proof.
  intros Hall. revert s. induction Hall as [|ev evs Hev _ IH]; intros s; [done|].
  unfold replay in *. simpl. rewrite IH.
  destruct ev; simpl in *; try done.
  - by rewrite lookup_insert_ne.
  - by rewrite lookup_delete_ne.
Qed.

Lemma ext_lookup (P : Event -> Prop) key w w' :
  (forall ev, P ev -> ~ touches key ev) -> ext P w w' ->
  store w' !! key = store w !! key.
Proof.
  intros Hp (evs & _ & Hall & -> & _). apply replay_untouched.
  eapply Forall_impl; eauto.
Qed.


Lemma replay_wf evs s : Forall sane evs -> store_wf s -> store_wf (replay evs s).
Proof.
  intros Hall. revert s. induction Hall as [|ev evs Hev _ IH]; intros s Hwf; [done|].
  unfold replay in *. simpl. apply IH. clear IH.
  destruct ev; simpl in *; try done.
  - intros k v' Hk Hf. destruct (decide (key = k)) as [->|Hne].
    + rewrite lookup_insert_eq in Hk. injection Hk as <-. auto.
    + rewrite lookup_insert_ne in Hk by done. eauto.
  - intros k v' Hk Hf. destruct (decide (key = k)) as [->|Hne].
    + by rewrite lookup_delete_eq in Hk.
    + rewrite lookup_delete_ne in Hk by done. eauto.
Qed.

Lemma ext_wf (P : Event -> Prop) w w' :
  (forall ev, P ev -> sane ev) -> ext P w w' ->
  store_wf (store w) -> store_wf (store w').
Proof.
  intros Hp (evs & _ & Hall & -> & _). apply replay_wf.
  eapply Forall_impl; eauto.
Qed.

(** ** The keys *)

Lemma status_key_inj id1 id2 :
  NodeMonitor.get_node_status_key id1 = NodeMonitor.get_node_status_key id2 -> id1 = id2.
Proof. unfold NodeMonitor.get_node_status_key. simpl. by intros [=]. Qed.

Lemma time_key_inj id1 id2 :
  NodeMonitor.get_node_disconnect_time_key id1 =
  NodeMonitor.get_node_disconnect_time_key id2 -> id1 = id2.
Proof. unfold NodeMonitor.get_node_disconnect_time_key. simpl. by intros [=]. Qed.

Lemma status_key_not_time_key id1 id2 :
  NodeMonitor.get_node_status_key id1 <> NodeMonitor.get_node_disconnect_time_key id2.
Proof. discriminate. Qed.

Lemma status_key_not_float id : ~ float_key (NodeMonitor.get_node_status_key id).
Proof. intros [H|[id' H]]; discriminate. Qed.

Lemma token_key_not_float : ~ float_key MarzbanAPI.token_key.
Proof. intros [H|[id' H]]; discriminate. Qed.

Lemma token_event_sane ev : token_event ev -> sane ev.
Proof.
  intros []; simpl; eauto. intros H. by destruct token_key_not_float.
Qed.

Lemma token_event_status_key id ev :
  token_event ev -> ~ touches (NodeMonitor.get_node_status_key id) ev.
Proof. intros [] H; simpl in H; try done; discriminate H. Qed.

Lemma token_event_time_key id ev :
  token_event ev -> ~ touches (NodeMonitor.get_node_disconnect_time_key id) ev.
Proof. intros [] H; simpl in H; try done; discriminate H. Qed.

(** ** What the API calls do *)

Lemma emitted_eq {A} (m : M A) w evs :
  trace (m w).2 = trace w ++ evs -> emitted m w = evs.
Proof. intros H. unfold emitted. by rewrite H, drop_app_length. Qed.

#[local] Hint Constructors fetch_event reconnect_event attempt_event node_event
  quiet_event : fp.

Lemma get_cached_token_ext e w :
  ext token_event w (MarzbanAPI.get_cached_token e w).2.
Proof. by apply fp_get_cached_token. Qed.

Lemma get_node_ext e id w : ext (fetch_event id) w (MarzbanAPI.get_node e id w).2.
Proof. apply fp_get_node; eauto with fp. Qed.

Lemma reconnect_node_ext e id w :
  ext (reconnect_event id) w (MarzbanAPI.reconnect_node e id w).2.
Proof. apply fp_reconnect_node; eauto with fp. Qed.

(** The fetch that returns [d] ends with the exchange that carried it; a
    fetch that raises has not seen the node connected. *)
Lemma get_node_trace e id w :
  match MarzbanAPI.get_node e id w with
  | (Ok d, w') =>
      exists toks, Forall token_event toks /\
        trace w' = trace w ++ toks ++ [EvGetNode id (Ok200 d)]
  | (Raise _, w') =>
      exists evs, Forall (blind_fetch_event id) evs /\ trace w' = trace w ++ evs
  end.
Proof.
  unfold MarzbanAPI.get_node, MarzbanAPI.get_auth_headers. run.
  destruct (get_cached_token_ext e w) as (toks & Ht & Hall & _).
  destruct (MarzbanAPI.get_cached_token e w) as [[tok|x] w1]; simpl in Ht; run.
  - destruct (node_reply e (tick w1) id) eqn:Hr; calc; run.
    + exists toks. split; [done|]. by rewrite Ht, <- app_assoc.
    + exists (toks ++ [EvGetNode id NoReply]). rewrite Ht, <- app_assoc. split; [|done].
      apply Forall_app. split; [eapply Forall_impl; eauto with fp; by constructor|].
      constructor; [by apply bf_get | constructor].
    + exists (toks ++ [EvGetNode id BadStatus]). rewrite Ht, <- app_assoc. split; [|done].
      apply Forall_app. split; [eapply Forall_impl; eauto with fp; by constructor|].
      constructor; [by apply bf_get | constructor].
    + exists (toks ++ [EvGetNode id NotJson]). rewrite Ht, <- app_assoc. split; [|done].
      apply Forall_app. split; [eapply Forall_impl; eauto with fp; by constructor|].
      constructor; [by apply bf_get | constructor].
  - destruct (is_HTTPError x); run; exists toks; (split; [|done]);
      eapply Forall_impl; eauto; by constructor.
Qed.

(** ** The credential cache *)

Lemma Qltb_lt a b : Qltb a b = true -> (a < b)%Q.
Proof.
  unfold Qltb. intros H. apply negb_true_iff in H.
  apply Qnot_le_lt. intros Hle. apply Qle_bool_iff in Hle. congruence.
Qed.





(** Binary64 arithmetic at work: 0.1 and 2.675 are no binary64 numbers;
    [160.5 / 60] is the float just below 2.675, which rounds to 2.67; the
    exact ties 0.125 and 0.375 go to the even hundredth. *)
Example binary64_tenth : binary64 (1 # 10) = (3602879701896397 # 36028797018963968)%Q.
Proof. vm_compute. reflexivity. Qed.

Example float_div_below_tie :
  float_div (float_sub (321 # 2) 0) 60 = (3011782250804019 # 1125899906842624)%Q /\
  round2 (float_div (float_sub (321 # 2) 0) 60) = binary64 (267 # 100).
Proof. vm_compute. done. Qed.

Example round2_tie_down : round2 (1 # 8) = binary64 (12 # 100).
Proof. vm_compute. reflexivity. Qed.

Example round2_tie_up : round2 (3 # 8) = binary64 (38 # 100).
Proof. vm_compute. reflexivity. Qed.


Ltac case_auth :=
  match goal with
  | |- context [MarzbanAPI.authenticate ?e ?w] =>
      destruct (MarzbanAPI.authenticate e w) as [[?tok|?x] ?w1] eqn:?
  end.



(** What the hypothesis on the store is for: when the token endpoint
    carries an [expires_in] that is not positive, the store refuses the
    write of line 62 and no token is returned. *)
Lemma no_token_without_positive_ttl e w d :
  ttl_positive e ->
  post_token e (tick w) = Ok200 d ->
  (default 3600 (expires_in d) <= 0)%Z ->
  exists x, (MarzbanAPI.authenticate e w).1 = Raise x.
Proof.
  intros Hpos Hd Hle. unfold MarzbanAPI.authenticate. run. rewrite Hd. run.
  destruct (ttl_ok e (default 3600%Z (expires_in d))) eqn:Httl.
  { apply Hpos in Httl. lia. }
  case_env; run; calc; run; by eexists.
Qed.

(** ** Handling one node *)

Lemma fetch_event_status_key id id' ev :
  fetch_event id ev -> ~ touches (NodeMonitor.get_node_status_key id') ev.
Proof. intros [ev' H|r]; [by apply token_event_status_key | by intros []]. Qed.

Lemma fetch_event_time_key id id' ev :
  fetch_event id ev -> ~ touches (NodeMonitor.get_node_disconnect_time_key id') ev.
Proof. intros [ev' H|r]; [by apply token_event_time_key | by intros []]. Qed.

Lemma fetch_event_sane id ev : fetch_event id ev -> sane ev.
Proof. intros [ev' H|r]; [by apply token_event_sane | done]. Qed.

(** The fetch leaves the record of every node as it is. *)
Lemma get_node_keeps_record e id id' w :
  store (MarzbanAPI.get_node e id w).2 !! NodeMonitor.get_node_status_key id' =
    store w !! NodeMonitor.get_node_status_key id' /\
  store (MarzbanAPI.get_node e id w).2 !! NodeMonitor.get_node_disconnect_time_key id' =
    store w !! NodeMonitor.get_node_disconnect_time_key id'.
Proof.
  split; eapply ext_lookup; try apply get_node_ext;
    eauto using fetch_event_status_key, fetch_event_time_key.
Qed.

Lemma process_node_fetched cfg e node w ns w1 :
  MarzbanAPI.get_node e (node_id node) w = (Ok ns, w1) ->
  NodeMonitor.process_node cfg e node w = NodeMonitor.reconcile cfg e node ns w1.
Proof. intros H. unfold NodeMonitor.process_node. run. by rewrite H. Qed.

Lemma process_node_skipped cfg e node w x w1 :
  MarzbanAPI.get_node e (node_id node) w = (Raise x, w1) ->
  NodeMonitor.process_node cfg e node w = (Ok tt, w1).
Proof.
  intros H. unfold NodeMonitor.process_node. run. rewrite H.
  by destruct (is_TimeoutError x).
Qed.

Section OneNode.
Variable cfg : Config.
Variable e : Env.
Variable node : Node.

Local Abbreviation status_key := (NodeMonitor.get_node_status_key (node_id node)).
Local Abbreviation time_key := (NodeMonitor.get_node_disconnect_time_key (node_id node)).

(** C8: a node whose fetched status is [disabled] is left alone, whatever
    the store holds about it: its handling adds no effect to those of the
    fetch itself (so no NodeDisconnected alert and no reconnect action),
    and the fetch sends nothing and asks for no reconnection. *)
Theorem disabled_node_left_alone w ns w1 :
  MarzbanAPI.get_node e (node_id node) w = (Ok ns, w1) ->
  nd_status ns = Some "disabled" ->
  trace (NodeMonitor.process_node cfg e node w).2 = trace w1 /\
  store (NodeMonitor.process_node cfg e node w).2 = store w1 /\
  count is_send (emitted (NodeMonitor.process_node cfg e node) w) = 0 /\
  count is_reconnect (emitted (NodeMonitor.process_node cfg e node) w) = 0.
Proof.
  intros Hget Hst.
  assert (Hw : trace (NodeMonitor.process_node cfg e node w).2 = trace w1 /\
               store (NodeMonitor.process_node cfg e node w).2 = store w1).
  { rewrite (process_node_fetched _ _ _ _ _ _ Hget).
    unfold NodeMonitor.reconcile. rewrite Hst. calc. run.
    case_env; run; calc; [|done]. rewrite andb_false_r. run. done. }
  destruct Hw as [Ht Hs]. split; [done|]. split; [done|].
  pose proof (get_node_ext e (node_id node) w) as Hext. rewrite Hget in Hext.
  destruct Hext as (evs & Hevs & Hall & _). simpl in Hevs.
  rewrite <- Ht in Hevs. rewrite (emitted_eq _ _ _ Hevs).
  split; eapply count_none; eauto; by intros ev [ev' []|r].
Qed.

Hypothesis Hup : store_reachable e.

Ltac exec := repeat first [progress run | rewrite Hup | progress calc].

(** C10: the stored state is [disconnected], no disconnect timestamp is
    stored, and the node is fetched connected: both keys are deleted and
    nothing is sent. *)
Theorem recovery_without_timestamp_is_silent w ns w1 :
  MarzbanAPI.get_node e (node_id node) w = (Ok ns, w1) ->
  nd_status ns = Some "connected" ->
  store w !! status_key = Some (SText "disconnected") ->
  store w !! time_key = None ->
  exists w',
    NodeMonitor.process_node cfg e node w = (Ok tt, w') /\
    trace w' = trace w1 ++ [EvDelete status_key; EvDelete time_key] /\
    count is_send (emitted (NodeMonitor.process_node cfg e node) w) = 0 /\
    store w' !! status_key = None /\ store w' !! time_key = None.
Proof.
  intros Hget Hst Hs Ht.
  destruct (get_node_keeps_record e (node_id node) (node_id node) w) as [Hs1 Ht1].
  rewrite Hget in Hs1, Ht1. simpl in Hs1, Ht1.
  rewrite Hs in Hs1. rewrite Ht in Ht1.
  pose proof (get_node_ext e (node_id node) w) as Hext. rewrite Hget in Hext.
  destruct Hext as (evs & Hevs & Hall & _). simpl in Hevs.
  assert (Hrun : NodeMonitor.process_node cfg e node w =
    (Ok tt, mkWorld (delete time_key (delete status_key (store w1)))
              (trace w1 ++ [EvDelete status_key; EvDelete time_key])
              (4 + tick w1))).
  { rewrite (process_node_fetched _ _ _ _ _ _ Hget).
    unfold NodeMonitor.reconcile, NodeMonitor.report_recovery. rewrite Hst.
    exec. rewrite Hs1. exec. rewrite Ht1. exec.
    by rewrite <- app_assoc. }
  eexists. split; [exact Hrun|]. simpl. split; [done|]. split.
  - erewrite emitted_eq; [|rewrite Hrun; simpl; rewrite Hevs, <- app_assoc; done].
    rewrite count_app. erewrite count_none; eauto. by intros ev [ev' []|r].
  - split; [|apply lookup_delete_eq].
    rewrite lookup_delete_ne by (symmetry; apply status_key_not_time_key).
    apply lookup_delete_eq.
Qed.


End OneNode.

(** ** The effects of the monitor stay within the node's own *)

#[local] Hint Resolve fp_get_node fp_reconnect_node fp_get_cached_token : fp.

Section FootprintMonitor.
Variable cfg : Config.
Variable e : Env.
Variable node : Node.

Lemma fp_reconnect_attempt i :
  fp (attempt_event node) (NodeMonitor.reconnect_attempt cfg e node i).
Proof. unfold NodeMonitor.reconnect_attempt. fp_auto. Qed.

Lemma fp_reconnect_loop n i :
  fp (attempt_event node) (NodeMonitor.reconnect_loop cfg e node i n).
Proof.
  revert i. induction n as [|n IH]; intros i; simpl; [apply fp_ret|].
  pose proof (fp_reconnect_attempt i). fp_auto.
Qed.

Lemma fp_recover : fp (node_event node) (NodeMonitor.recover cfg e node).
Proof.
  unfold NodeMonitor.recover. apply fp_bind.
  - intros w. eapply ext_mono; [|apply fp_reconnect_loop]. by constructor.
  - intros []; fp_auto.
Qed.

Lemma fp_handle_disconnected :
  fp (node_event node) (NodeMonitor.handle_disconnected cfg e node).
Proof.
  pose proof fp_recover. unfold NodeMonitor.handle_disconnected. fp_auto.
Qed.

Lemma fp_report_recovery : fp (node_event node) (NodeMonitor.report_recovery e node).
Proof. unfold NodeMonitor.report_recovery. fp_auto. Qed.

Lemma fp_reconcile ns : fp (node_event node) (NodeMonitor.reconcile cfg e node ns).
Proof.
  pose proof fp_handle_disconnected. pose proof fp_report_recovery.
  unfold NodeMonitor.reconcile. fp_auto.
Qed.

Lemma fp_process_node : fp (node_event node) (NodeMonitor.process_node cfg e node).
Proof.
  pose proof fp_reconcile. unfold NodeMonitor.process_node. fp_auto.
Qed.

End FootprintMonitor.

(** ** Counting the reconnect actions *)

Section Bounded.
Variable p : Event -> bool.

Lemma eam_weaken {A} n n' (m : M A) :
  n <= n' -> emits_at_most p n m -> emits_at_most p n' m.
Proof. intros Hle Hm w. destruct (Hm w) as (evs & Ht & Hc). exists evs. split; [done|lia]. Qed.

Lemma eam_fp {A} (P : Event -> Prop) (m : M A) :
  (forall ev, P ev -> p ev = false) -> fp P m -> emits_at_most p 0 m.
Proof.
  intros Hp Hm w. destruct (Hm w) as (evs & Ht & Hall & _). exists evs.
  split; [done|]. by erewrite count_none.
Qed.

Lemma eam_bind {A B} a b (m : M A) (f : A -> M B) :
  emits_at_most p a m -> (forall x, emits_at_most p b (f x)) ->
  emits_at_most p (a + b) (bind m f).
Proof.
  intros Hm Hf w. rewrite bind_snd. destruct (Hm w) as (evs1 & Ht1 & Hc1).
  destruct (m w).1 as [x|x].
  - destruct (Hf x (m w).2) as (evs2 & Ht2 & Hc2). exists (evs1 ++ evs2).
    rewrite Ht2, Ht1, app_assoc, count_app. split; [done|lia].
  - exists evs1. split; [done|lia].
Qed.

Lemma eam_try_block {A} n (m : M A) :
  emits_at_most p n m -> emits_at_most p n (try_block m).
Proof. intros Hm w. rewrite try_block_run. apply Hm. Qed.

Lemma eam_exchange {A} (answer : nat -> Reply A) log :
  emits_at_most p 1 (exchange answer log).
Proof.
  intros w. rewrite run_exchange. simpl. eexists. split; [done|].
  unfold count. simpl. destruct (p _); simpl; lia.
Qed.
End Bounded.

Lemma eam_reconnect_node e id :
  emits_at_most is_reconnect 1 (MarzbanAPI.reconnect_node e id).
Proof.
  unfold MarzbanAPI.reconnect_node, MarzbanAPI.get_auth_headers.
  apply (eam_bind _ 1 0).
  - apply eam_try_block. apply (eam_bind _ 0 1).
    + eapply eam_fp; [|apply (fp_get_cached_token token_event); auto]. by intros ev [].
    + intros _. apply eam_exchange.
  - intros [d|x]; [|destruct (is_HTTPError x)];
      (apply (eam_fp _ (fun _ => False)); [done|first [apply fp_ret | apply fp_raise]]).
Qed.

Section Recovery.
Variable cfg : Config.
Variable e : Env.
Variable node : Node.

Lemma eam_quiet {A} (m : M A) :
  fp (fun ev => is_reconnect ev = false) m -> emits_at_most is_reconnect 0 m.
Proof. by apply eam_fp. Qed.

Lemma fp_no_reconnect_get_node :
  fp (fun ev => is_reconnect ev = false) (MarzbanAPI.get_node e (node_id node)).
Proof. apply fp_get_node; [by intros ev []|done]. Qed.

Lemma eam_reconnect_attempt i :
  emits_at_most is_reconnect 1 (NodeMonitor.reconnect_attempt cfg e node i).
Proof.
  unfold NodeMonitor.reconnect_attempt.
  apply (eam_bind _ 1 0); [apply eam_reconnect_node|intros _].
  apply eam_quiet. pose proof fp_no_reconnect_get_node. fp_auto.
Qed.

Lemma eam_reconnect_loop n i :
  emits_at_most is_reconnect n (NodeMonitor.reconnect_loop cfg e node i n).
Proof.
  revert i. induction n as [|n IH]; intros i; simpl.
  - apply eam_quiet, fp_ret.
  - apply (eam_bind _ 1 n); [apply eam_try_block, eam_reconnect_attempt|].
    intros [[]|x].
    + eapply eam_weaken; [|apply eam_quiet, fp_ret]. lia.
    + apply IH.
    + apply (eam_bind _ 0 n); [apply eam_quiet; fp_auto | intros _; apply IH].
Qed.

Lemma eam_recover :
  emits_at_most is_reconnect (reconnect_attempts cfg) (NodeMonitor.recover cfg e node).
Proof.
  unfold NodeMonitor.recover.
  eapply eam_weaken; [|apply (eam_bind _ (reconnect_attempts cfg) 0)].
  - lia.
  - apply eam_reconnect_loop.
  - intros []; apply eam_quiet; fp_auto.
Qed.
End Recovery.

(** ** The reconnect attempts *)

Lemma never_connected_app id evs1 evs2 :
  never_connected id evs1 -> never_connected id evs2 -> never_connected id (evs1 ++ evs2).
Proof. intros. by apply Forall_app. Qed.

Lemma never_connected_of (P : Event -> Prop) id evs :
  (forall ev, P ev -> ev <> seen_connected id) -> Forall P evs -> never_connected id evs.
Proof. intros Hp Hall. eapply Forall_impl; eauto. Qed.

Lemma token_event_not_seen id ev : token_event ev -> ev <> seen_connected id.
Proof. by intros []. Qed.

Lemma reconnect_event_not_seen id ev : reconnect_event id ev -> ev <> seen_connected id.
Proof. intros [ev' H|r]; [by apply token_event_not_seen | done]. Qed.

Lemma blind_fetch_event_not_seen id ev : blind_fetch_event id ev -> ev <> seen_connected id.
Proof.
  intros [ev' H|r Hr]; [by apply token_event_not_seen |].
  unfold seen_connected. congruence.
Qed.

Section Attempt.
Variable cfg : Config.
Variable e : Env.
Variable node : Node.

Local Abbreviation status_key := (NodeMonitor.get_node_status_key (node_id node)).
Local Abbreviation time_key := (NodeMonitor.get_node_disconnect_time_key (node_id node)).

Lemma reconnect_attempt_trace i w :
  match NodeMonitor.reconnect_attempt cfg e node i w with
  | (r, w') =>
      exists evs, trace w' = trace w ++ evs /\
        match r with
        | Ok true =>
            exists before ts,
              never_connected (node_id node) before /\
              evs = before ++
                [seen_connected (node_id node);
                 EvSend (SUCCESS_NODE_RECONNECTED_AFTER_ATTEMPTS (node_name node)
                           (NodeMonitor.node_ip node) ts (i + 1));
                 EvDelete status_key; EvDelete time_key]
        | Ok false =>
            never_connected (node_id node) evs /\
            store w' !! time_key = store w !! time_key
        | Raise _ =>
            (store_reachable e -> never_connected (node_id node) evs) /\
            store w' !! time_key = store w !! time_key
        end
  end.
Proof.
  unfold NodeMonitor.reconnect_attempt. run.
  destruct (reconnect_node_ext e (node_id node) w) as (evs1 & Ht1 & Hall1 & Hs1 & _).
  assert (Hk1 : store (MarzbanAPI.reconnect_node e (node_id node) w).2 !! time_key =
                store w !! time_key).
  { rewrite Hs1. apply replay_untouched. eapply Forall_impl; [exact Hall1|].
    intros ev [ev' H|r]; [by apply token_event_time_key | by intros []]. }
  clear Hs1.
  apply (never_connected_of _ (node_id node)) in Hall1; [|apply reconnect_event_not_seen].
  destruct (MarzbanAPI.reconnect_node e (node_id node) w) as [[[]|x] w1];
    simpl in Ht1, Hk1; run.
  2: { exists evs1. done. }
  match goal with |- context [MarzbanAPI.get_node e ?id ?w0] =>
    pose proof (get_node_trace e id w0) as Hget;
    destruct (get_node_keeps_record e id id w0) as [_ Hk2];
    destruct (MarzbanAPI.get_node e id w0) as [[d|x] w2] end; simpl in Hget, Hk2.
  all: rewrite Hk1 in Hk2.
  2: { destruct Hget as (evs2 & Hall2 & ->). rewrite Ht1.
       exists (evs1 ++ [EvSleep (node_check_delay cfg)] ++ evs2).
       split; [by rewrite <- !app_assoc|]. split; [intros _|done].
       apply never_connected_app; [done|]. apply never_connected_app; [by repeat constructor|].
       eapply never_connected_of; eauto using blind_fetch_event_not_seen. }
  destruct Hget as (toks & Hall2 & Ht2). rewrite Ht1 in Ht2.
  apply (never_connected_of _ (node_id node)) in Hall2; [|apply token_event_not_seen].
  assert (Hpre : never_connected (node_id node)
                   (evs1 ++ [EvSleep (node_check_delay cfg)] ++ toks)).
  { apply never_connected_app; [done|]. apply never_connected_app; [by repeat constructor|done]. }
  destruct d as [[s|]]; cbn [nd_status]; run.
  2: { eexists. rewrite Ht2, <- !app_assoc. split; [reflexivity|]. split; [intros _|done].
       rewrite !app_assoc. apply never_connected_app; [by rewrite <- !app_assoc|].
       by repeat constructor. }
  destruct (String.eqb_spec s "connected") as [->|Hs]; run.
  2: { eexists. rewrite Ht2, <- !app_assoc. split; [reflexivity|]. split; [|done].
       rewrite !app_assoc. apply never_connected_app; [by rewrite <- !app_assoc|].
       repeat constructor. unfold seen_connected. congruence. }
  case_env; run; [case_env; run|].
  - eexists. rewrite Ht2, <- !app_assoc. split; [reflexivity|].
    eexists _, _. split; [exact Hpre|]. by rewrite <- !app_assoc.
  - eexists. split; [by rewrite Ht2, <- !app_assoc|]. split; [intros Hup; congruence|].
    cbn [ticked store]. by rewrite lookup_delete_ne by apply status_key_not_time_key.
  - eexists. split; [by rewrite Ht2, <- !app_assoc|]. split; [intros Hup; congruence|done].
Qed.

(** The loop never raises.  Left by [break], its last effects are the
    fetch that saw the node connected, the notification and the two
    deletions; run to its end, it has kept the disconnect timestamp. *)
Lemma reconnect_loop_trace n i w :
  match NodeMonitor.reconnect_loop cfg e node i n w with
  | (r, w') =>
      exists evs, trace w' = trace w ++ evs /\
        match r with
        | Ok true =>
            exists before ts k,
              (store_reachable e -> never_connected (node_id node) before) /\
              evs = before ++
                [seen_connected (node_id node);
                 EvSend (SUCCESS_NODE_RECONNECTED_AFTER_ATTEMPTS (node_name node)
                           (NodeMonitor.node_ip node) ts k);
                 EvDelete status_key; EvDelete time_key]
        | Ok false =>
            (store_reachable e -> never_connected (node_id node) evs) /\
            store w' !! time_key = store w !! time_key
        | Raise _ => False
        end
  end.
Proof.
  revert i w. induction n as [|n IH]; intros i w; simpl.
  { exists []. rewrite app_nil_r. split; [done|]. split; [|done]. intros _. constructor. }
  run. pose proof (reconnect_attempt_trace i w) as Ha.
  destruct (NodeMonitor.reconnect_attempt cfg e node i w) as [[[]|x] w1].
  - destruct Ha as (evs & Ht & before & ts & Hb & ->). run.
    exists (before ++ [seen_connected (node_id node);
              EvSend (SUCCESS_NODE_RECONNECTED_AFTER_ATTEMPTS (node_name node)
                        (NodeMonitor.node_ip node) ts (i + 1));
              EvDelete status_key; EvDelete time_key]).
    split; [done|]. exists before, ts, (i + 1). split; [auto|done].
  - destruct Ha as (evs & Ht & Hnc & Hk). specialize (IH (S i) w1).
    destruct (NodeMonitor.reconnect_loop cfg e node (S i) n w1) as [[[]|x] w2];
      [| |by destruct IH as (? & _ & [])].
    + destruct IH as (evs2 & Ht2 & before & ts & k & Hb & ->).
      exists (evs ++ before ++ [seen_connected (node_id node);
              EvSend (SUCCESS_NODE_RECONNECTED_AFTER_ATTEMPTS (node_name node)
                        (NodeMonitor.node_ip node) ts k);
              EvDelete status_key; EvDelete time_key]).
      split; [by rewrite Ht2, Ht, <- !app_assoc|].
      exists (evs ++ before), ts, k. split; [|by rewrite <- !app_assoc].
      intros Hup. apply never_connected_app; auto.
    + destruct IH as (evs2 & Ht2 & Hnc2 & Hk2). exists (evs ++ evs2).
      split; [by rewrite Ht2, Ht, <- !app_assoc|]. split; [|congruence].
      intros Hup. apply never_connected_app; auto.
  - destruct Ha as (evs & Ht & Hnc & Hk). run.
    match goal with |- context [NodeMonitor.reconnect_loop cfg e node (S i) n ?w0] =>
      specialize (IH (S i) w0);
      destruct (NodeMonitor.reconnect_loop cfg e node (S i) n w0) as [[[]|x'] w2] end;
      simpl in IH; [| |by destruct IH as (? & _ & [])].
    + destruct IH as (evs2 & Ht2 & before & ts & k & Hb & ->).
      eexists. split; [by rewrite Ht2, Ht, <- !app_assoc|].
      exists (evs ++ [EvSleep (reconnect_delay cfg)] ++ before), ts, k.
      split; [|by rewrite <- !app_assoc].
      intros Hup. apply never_connected_app; auto.
      apply never_connected_app; [by repeat constructor|auto].
    + destruct IH as (evs2 & Ht2 & Hnc2 & Hk2). eexists.
      split; [by rewrite Ht2, Ht, <- !app_assoc|]. split; [|congruence].
      intros Hup. apply never_connected_app; auto.
      apply never_connected_app; [by repeat constructor|auto].
Qed.

Lemma stops_of_never evs :
  never_connected (node_id node) evs -> stops_when_connected (node_id node) evs.
Proof.
  intros Hnc before after ->. apply Forall_app in Hnc as [_ Hnc].
  by inversion Hnc.
Qed.

Lemma stops_of_break before tail :
  never_connected (node_id node) before -> never_connected (node_id node) tail ->
  count is_reconnect tail = 0 ->
  stops_when_connected (node_id node) (before ++ seen_connected (node_id node) :: tail).
Proof.
  intros Hb Ht Hc. induction Hb as [|b before Hb _ IH]; intros pre post Heq.
  - destruct pre as [|a pre]; simpl in Heq.
    + by injection Heq as <-.
    + injection Heq as <- ->. apply Forall_app in Ht as [_ Ht]. by inversion Ht.
  - destruct pre as [|a pre]; simpl in Heq.
    + injection Heq as Hbad _. by destruct Hb.
    + injection Heq as <- Heq. by eapply IH.
Qed.

(** C6 (amended): every run of the recovery sub-procedure issues at most
    [reconnect_attempts] reconnect actions, whatever the collaborators do;
    and, provided the store answers the calls of the recovery, no
    reconnect action follows the fetch that saw the node connected: the
    sub-procedure stops with that attempt.  The proviso is needed: a
    deletion of lines 191-192 that fails is taken by the handler of line
    194, and the loop goes on with the next attempt. *)
Theorem recovery_bounded_and_stops w :
  count is_reconnect (emitted (NodeMonitor.recover cfg e node) w)
    <= reconnect_attempts cfg /\
  (store_reachable e ->
   stops_when_connected (node_id node) (emitted (NodeMonitor.recover cfg e node) w)).
Proof.
  split.
  - destruct (eam_recover cfg e node w) as (evs & Ht & Hc).
    by rewrite (emitted_eq _ _ _ Ht).
  - intros Hup. unfold NodeMonitor.recover at 1.
    pose proof (reconnect_loop_trace (reconnect_attempts cfg) 0 w) as Hl.
    unfold emitted. rewrite run_bind.
    destruct (NodeMonitor.reconnect_loop cfg e node 0 (reconnect_attempts cfg) w)
      as [[[]|x] w1]; [| |by destruct Hl as (? & _ & [])].
    + destruct Hl as (evs & Ht & before & ts & k & Hb & ->). run. cbn [snd].
      rewrite Ht, drop_app_length. apply stops_of_break; auto.
      by repeat constructor.
    + destruct Hl as (evs & Ht & Hnc & _). run. rewrite Hup. run. cbn [snd trace].
      rewrite Ht, <- !app_assoc, drop_app_length. apply stops_of_never.
      apply never_connected_app; [auto|]. by repeat constructor.
Qed.

(** C7: when the attempts are exhausted without any fetch seeing the
    node connected (and the store answers), the sub-procedure ends by
    sending one NodeReconnectFailed notification, the only one it sends,
    and by setting the stored state to [disconnected]; the stored
    disconnect timestamp is what it was. *)
Theorem exhausted_recovery w :
  store_reachable e ->
  never_connected (node_id node)
    (emitted (NodeMonitor.reconnect_loop cfg e node 0 (reconnect_attempts cfg)) w) ->
  exists w' ts,
    NodeMonitor.recover cfg e node w = (Ok tt, w') /\
    emitted (NodeMonitor.recover cfg e node) w =
      emitted (NodeMonitor.reconnect_loop cfg e node 0 (reconnect_attempts cfg)) w ++
      [EvSend (ERROR_NODE_RECONNECT_FAILED (node_name node) (NodeMonitor.node_ip node)
                 (NodeMonitor.node_error node) (reconnect_attempts cfg) ts);
       EvSet status_key (SText "disconnected") None] /\
    count (is_reconnect_failed (node_name node))
      (emitted (NodeMonitor.recover cfg e node) w) = 1 /\
    store w' !! status_key = Some (SText "disconnected") /\
    store w' !! time_key = store w !! time_key.
Proof.
  intros Hup Hnc.
  pose proof (reconnect_loop_trace (reconnect_attempts cfg) 0 w) as Hl.
  pose proof (fp_reconnect_loop cfg e node (reconnect_attempts cfg) 0 w) as Hfp.
  apply ext_emitted in Hfp as (_ & Hall & _).
  unfold emitted in Hnc, Hall |- *. unfold NodeMonitor.recover. rewrite !run_bind.
  destruct (NodeMonitor.reconnect_loop cfg e node 0 (reconnect_attempts cfg) w)
    as [[[]|x] w1]; [| |by destruct Hl as (? & _ & [])]; cbn [snd] in *.
  - destruct Hl as (evs & Ht & before & ts & k & _ & ->).
    rewrite Ht, drop_app_length in Hnc. apply Forall_app in Hnc as [_ Hnc].
    by inversion Hnc.
  - destruct Hl as (evs & Ht & _ & Hk). run. rewrite Hup. run.
    eexists _, _. split; [reflexivity|]. cbn [snd trace store].
    rewrite Ht, <- !app_assoc, !drop_app_length in *. split; [done|]. split.
    + rewrite count_app. erewrite count_none; [| |exact Hall].
      * unfold count. simpl. by rewrite String.eqb_refl.
      * by intros ev [ev' []| | | | | |].
    + split; [apply lookup_insert_eq|].
      rewrite lookup_insert_ne by apply status_key_not_time_key. done.
Qed.

End Attempt.

(** ** One cycle *)

Section Cycle.
Variable cfg : Config.
Variable e : Env.

(** An exception that leaves the body of the cycle is turned into one
    MonitorFailure notification, and the iteration ends there. *)
Lemma cycle_escaped w x w1 :
  NodeMonitor.cycle_body cfg e w = (Raise x, w1) ->
  NodeMonitor.cycle cfg e w =
    (Ok tt, mkWorld (store w1)
              (trace w1 ++ [EvSend (ERROR_MONITOR_FAILURE (exn_str x) (clock e (tick w1)))])
              (S (tick w1))).
Proof. intros H. unfold NodeMonitor.cycle. run. rewrite H. run. done. Qed.

(** The sibling path: a failed listing is reported and followed by the
    sleep of a full interval. *)
Lemma cycle_listing_failed w x w1 :
  NodeMonitor.fetch_listing e (clock e (tick w)) (ticked w) = (Raise x, w1) ->
  exists message,
    NodeMonitor.cycle cfg e w =
      (Ok tt, mkWorld (store w1)
                (trace w1 ++ [EvSend (ERROR_MONITOR_FAILURE message (clock e (tick w1)));
                              EvSleep (sleep_interval cfg)])
                (S (tick w1))).
Proof.
  intros H. unfold NodeMonitor.cycle, NodeMonitor.cycle_body, NodeMonitor.listing_failed.
  run. rewrite H. destruct (is_TimeoutError x); run; eexists; by rewrite <- app_assoc.
Qed.

(** A cycle whose listing succeeds processes the nodes listed. *)
Lemma cycle_body_listed w nodes w0 :
  NodeMonitor.fetch_listing e (clock e (tick w)) (ticked w) = (Ok nodes, w0) ->
  NodeMonitor.cycle_body cfg e w =
    bind (NodeMonitor.process_nodes cfg e nodes)
         (fun _ => sleep (sleep_interval cfg)) w0.
Proof. intros H. unfold NodeMonitor.cycle_body. run. by rewrite H. Qed.

Lemma process_nodes_app before after w :
  NodeMonitor.process_nodes cfg e (before ++ after) w =
  bind (NodeMonitor.process_nodes cfg e before)
       (fun _ => NodeMonitor.process_nodes cfg e after) w.
Proof.
  revert w. induction before as [|node before IH]; intros w; simpl.
  - by rewrite run_bind.
  - rewrite !run_bind. destruct (NodeMonitor.process_node cfg e node w) as [[[]|x] w1]; [|done].
    by rewrite IH, run_bind.
Qed.

(** An exception raised while a node is handled ends the loop over the
    nodes: those after it are not handled. *)
Lemma process_nodes_escaped before node rest w wa x wb :
  NodeMonitor.process_nodes cfg e before w = (Ok tt, wa) ->
  NodeMonitor.process_node cfg e node wa = (Raise x, wb) ->
  NodeMonitor.process_nodes cfg e (before ++ node :: rest) w = (Raise x, wb).
Proof.
  intros Hb Hn. rewrite process_nodes_app, run_bind, Hb. simpl.
  by rewrite run_bind, Hn.
Qed.

(** The store not answering the read of the stored state (line 116),
    the handling of the node raises. *)
Lemma process_node_store_failure node w ns w1 :
  MarzbanAPI.get_node e (node_id node) w = (Ok ns, w1) ->
  store_up e (tick w1) = false ->
  NodeMonitor.process_node cfg e node w =
    (Raise (RedisError "store unreachable"), ticked w1).
Proof.
  intros Hget Hdown. rewrite (process_node_fetched _ _ _ _ _ _ Hget).
  unfold NodeMonitor.reconcile. run. by rewrite Hdown.
Qed.

(** C4 (amended): a store failure met when the stored state of a node is
    read is not contained to that node.  It leaves the loop over the
    nodes, the nodes listed after it are not handled in that cycle, and
    the handler of the cycle sends one MonitorFailure notification: the
    cycle ends in the world of the failed read plus that notification,
    whatever [rest] is. *)
Theorem store_failure_aborts_cycle w nodes w0 before node rest wa ns wb :
  NodeMonitor.fetch_listing e (clock e (tick w)) (ticked w) = (Ok nodes, w0) ->
  nodes = before ++ node :: rest ->
  NodeMonitor.process_nodes cfg e before w0 = (Ok tt, wa) ->
  MarzbanAPI.get_node e (node_id node) wa = (Ok ns, wb) ->
  store_up e (tick wb) = false ->
  NodeMonitor.process_nodes cfg e nodes w0 =
    (Raise (RedisError "store unreachable"), ticked wb) /\
  NodeMonitor.cycle cfg e w =
    (Ok tt, mkWorld (store wb)
              (trace wb ++
               [EvSend (ERROR_MONITOR_FAILURE "store unreachable" (clock e (S (tick wb))))])
              (S (S (tick wb)))).
Proof.
  intros Hlist -> Hbefore Hget Hdown.
  pose proof (process_node_store_failure node wa ns wb Hget Hdown) as Hnode.
  pose proof (process_nodes_escaped before node rest w0 wa _ _ Hbefore Hnode) as Hloop.
  split; [done|].
  apply (cycle_escaped w (RedisError "store unreachable") (ticked wb)).
  rewrite (cycle_body_listed _ _ _ Hlist), run_bind, Hloop. done.
Qed.

End Cycle.

Lemma store_failure_aborts_cycle_witness :
  let e := env_store_fault [node_a; node_b] "connected" in
  let w0 := (NodeMonitor.fetch_listing e 0 (ticked empty_world)).2 in
  let wb := (MarzbanAPI.get_node e "1" w0).2 in
  NodeMonitor.process_nodes NodeMonitor.default_config e [node_a; node_b] w0 =
    (Raise (RedisError "store unreachable"), ticked wb) /\
  NodeMonitor.cycle NodeMonitor.default_config e empty_world =
    (Ok tt,
     mkWorld (store wb)
       (trace wb ++
        [EvSend (ERROR_MONITOR_FAILURE "store unreachable" (clock e (S (tick wb))))])
       (S (S (tick wb)))).
Proof.
  intros e w0 wb.
  apply (store_failure_aborts_cycle NodeMonitor.default_config e empty_world
           [node_a; node_b] w0 [] node_a [node_b] w0 (mkNodeData (Some "connected")) wb).
  - vm_compute. reflexivity.
  - reflexivity.
  - reflexivity.
  - vm_compute. reflexivity.
  - vm_compute. reflexivity.
Defined.

(** C4 as stated fails: the store does not answer the read of the stored
    state of the first of two nodes; the second node is not fetched in that
    cycle, which ends with a MonitorFailure notification. *)
Lemma store_failure_not_contained :
  let evs := emitted (NodeMonitor.cycle NodeMonitor.default_config
                        (env_store_fault [node_a; node_b] "connected")) empty_world in
  count (is_fetch_of "1") evs = 1 /\
  count (is_fetch_of "2") evs = 0 /\
  count is_monitor_failure evs = 1.
Proof. vm_compute. done. Qed.

(** With the store answering, the same cycle fetches both nodes. *)
Lemma both_nodes_fetched_without_failure :
  let evs := emitted (NodeMonitor.cycle NodeMonitor.default_config
                        (env_calm [node_a; node_b] "connected")) empty_world in
  count (is_fetch_of "1") evs = 1 /\ count (is_fetch_of "2") evs = 1.
Proof. vm_compute. done. Qed.

(** C3 fails on the code: the store does not answer the read of the stored
    state of the node; the exception reaches the handler of the cycle,
    which sends the MonitorFailure notification and does not sleep: the
    notification is the last effect of the cycle, the cycle has slept
    nowhere, and the listing of the next cycle follows at once. *)
Theorem top_level_handler_does_not_sleep :
  let e := env_store_fault [node_a] "connected" in
  emitted (NodeMonitor.cycle NodeMonitor.default_config e) empty_world =
    [EvPostToken (Ok200 (mkTokenData "token" None));
     EvSet MarzbanAPI.token_key (SText "token") (Some 3600%Z);
     EvSet MarzbanAPI.token_expiry_key (SFloat (3605 # 1)) (Some 3600%Z);
     EvGetNodes (Ok200 (NodeList [node_a]));
     EvGetNode "1" (Ok200 (mkNodeData (Some "connected")));
     EvSend (ERROR_MONITOR_FAILURE "store unreachable" (14 # 1))] /\
  count is_sleep (emitted (NodeMonitor.cycle NodeMonitor.default_config e) empty_world) = 0 /\
  emitted (NodeMonitor.cycles NodeMonitor.default_config e 2) empty_world =
    emitted (NodeMonitor.cycle NodeMonitor.default_config e) empty_world ++
    [EvGetNodes (Ok200 (NodeList [node_a]));
     EvGetNode "1" (Ok200 (mkNodeData (Some "connected")));
     EvSleep 30].
Proof. vm_compute. done. Qed.

(** ** Runs in which the collaborators answer *)

Section Nominal.
Variable cfg : Config.
Variable e : Env.
Hypothesis Hup : store_reachable e.
Hypothesis Hauth : auth_succeeds e.

Ltac exec := repeat first [progress run | rewrite Hup | progress calc].

Lemma authenticate_nominal w :
  exists tok, (MarzbanAPI.authenticate e w).1 = Ok tok.
Proof.
  unfold MarzbanAPI.authenticate. run.
  destruct (Hauth (tick w)) as (d & Hd & Httl). rewrite Hd.
  repeat first [progress run | rewrite Hup | rewrite Httl | progress calc].
  by eexists.
Qed.

Lemma get_cached_token_nominal w :
  store_wf (store w) -> exists tok, (MarzbanAPI.get_cached_token e w).1 = Ok tok.
Proof.
  intros Hwf. unfold MarzbanAPI.get_cached_token, MarzbanAPI.cache_is_fresh. exec.
  assert (Hau : forall w0, exists tok,
            (let '(r, w') := let '(r, w') := MarzbanAPI.authenticate e w0 in (Ok r, w') in
             match r with
             | Ok a => match a with
                       | Ok tok => ret tok
                       | Raise x => if is_RedisError x then MarzbanAPI.authenticate e else raise x
                       end w'
             | Raise x => (Raise x, w')
             end).1 = Ok tok).
  { intros w0. destruct (authenticate_nominal w0) as (tok & Htok).
    destruct (MarzbanAPI.authenticate e w0) as [r w1]. simpl in Htok. subst r. by exists tok. }
  destruct (store w !! MarzbanAPI.token_key) as [t|] eqn:Ht; [|exec; apply Hau].
  destruct (store w !! MarzbanAPI.token_expiry_key) as [x|] eqn:Hx; [|exec; apply Hau].
  destruct (truthy t && truthy x); [|exec; apply Hau].
  destruct (Hwf _ _ Hx) as (t0 & ->); [by left|]. exec.
  destruct (Qltb _ _); exec; [by eexists | apply Hau].
Qed.

Lemma get_node_reports id s w :
  reports e id s -> store_wf (store w) ->
  (MarzbanAPI.get_node e id w).1 = Ok (mkNodeData (Some s)).
Proof.
  intros Hrep Hwf. unfold MarzbanAPI.get_node, MarzbanAPI.get_auth_headers. run.
  destruct (get_cached_token_nominal w Hwf) as (tok & Htok).
  destruct (MarzbanAPI.get_cached_token e w) as [r w1]. simpl in Htok. subst r.
  run. by rewrite (Hrep (tick w1)).
Qed.

Lemma ext_slept (P : Event -> Prop) d w :
  P (EvSleep d) -> ext P w (mkWorld (store w) (trace w ++ [EvSleep d]) (tick w)).
Proof. intros Hp. exists [EvSleep d]. repeat split; auto. Qed.

Lemma reconnect_loop_nominal node s n i w :
  reports e (node_id node) s -> s <> "connected" -> store_wf (store w) ->
  exists w',
    NodeMonitor.reconnect_loop cfg e node i n w = (Ok false, w') /\
    ext (quiet_event (node_id node)) w w'.
Proof.
  intros Hrep Hs. revert i w. induction n as [|n IH]; intros i w Hwf; simpl.
  { eexists. split; [reflexivity|apply ext_refl]. }
  unfold NodeMonitor.reconnect_attempt. run.
  pose proof (reconnect_node_ext e (node_id node) w) as Hext1.
  apply (ext_mono _ (quiet_event (node_id node))) in Hext1;
    [|intros ev [ev' H|r]; by constructor].
  destruct (MarzbanAPI.reconnect_node e (node_id node) w) as [[[]|x] w1]; simpl in Hext1; run.
  - pose proof (ext_slept (quiet_event (node_id node)) (node_check_delay cfg) w1
                  (qe_sleep _ _)) as Hext2.
    set (w2 := mkWorld (store w1) (trace w1 ++ [EvSleep (node_check_delay cfg)]) (tick w1)) in *.
    assert (Hwf2 : store_wf (store w2)).
    { apply (ext_wf (quiet_event (node_id node)) w w2); [|by eapply ext_trans|done].
      intros ev [ev' H| | |]; [by apply token_event_sane|done..]. }
    pose proof (get_node_reports (node_id node) s w2 Hrep Hwf2) as Hget.
    pose proof (get_node_ext e (node_id node) w2) as Hext3.
    apply (ext_mono _ (quiet_event (node_id node))) in Hext3;
      [|intros ev [ev' H|r]; by constructor].
    destruct (MarzbanAPI.get_node e (node_id node) w2) as [r w3]. simpl in Hget, Hext3. subst r.
    cbn [nd_status]. destruct (String.eqb_spec s "connected") as [|_]; [done|]. run.
    destruct (IH (S i) w3) as (w' & Hloop & Hext4).
    { apply (ext_wf (quiet_event (node_id node)) w2 w3); [|exact Hext3|done].
      intros ev [ev' H| | |]; [by apply token_event_sane|done..]. }
    exists w'. split; [done|]. eauto using ext_trans.
  - pose proof (ext_slept (quiet_event (node_id node)) (reconnect_delay cfg) w1
                  (qe_sleep _ _)) as Hext2.
    set (w2 := mkWorld (store w1) (trace w1 ++ [EvSleep (reconnect_delay cfg)]) (tick w1)) in *.
    destruct (IH (S i) w2) as (w' & Hloop & Hext4).
    { apply (ext_wf (quiet_event (node_id node)) w w2); [|by eapply ext_trans|done].
      intros ev [ev' H| | |]; [by apply token_event_sane|done..]. }
    exists w'. split; [done|]. eauto using ext_trans.
Qed.

(** Under these hypotheses the handling of a node raises nothing. *)
Lemma recover_ok node w : (NodeMonitor.recover cfg e node w).1 = Ok tt.
Proof.
  unfold NodeMonitor.recover. run.
  pose proof (reconnect_loop_trace cfg e node (reconnect_attempts cfg) 0 w) as Hl.
  destruct (NodeMonitor.reconnect_loop cfg e node 0 (reconnect_attempts cfg) w)
    as [[[]|x] w1]; [| |by destruct Hl as (? & _ & [])]; exec; done.
Qed.

Lemma handle_disconnected_ok node w :
  (NodeMonitor.handle_disconnected cfg e node w).1 = Ok tt.
Proof.
  unfold NodeMonitor.handle_disconnected. exec.
  destruct (is_disconnected _); exec;
    match goal with |- context [NodeMonitor.recover cfg e node ?w0] =>
      pose proof (recover_ok node w0) as Hr;
      destruct (NodeMonitor.recover cfg e node w0) as [r w1]; simpl in Hr; by subst r
    end.
Qed.

Lemma report_recovery_ok node w :
  store_wf (store w) -> (NodeMonitor.report_recovery e node w).1 = Ok tt.
Proof.
  intros Hwf. unfold NodeMonitor.report_recovery. exec.
  destruct (store w !! _) as [v|] eqn:Hv; exec; [|done].
  destruct (Hwf _ _ Hv) as (t & ->); [right; by eexists|]. exec. done.
Qed.

Lemma reconcile_ok node ns w :
  store_wf (store w) -> (NodeMonitor.reconcile cfg e node ns w).1 = Ok tt.
Proof.
  intros Hwf. unfold NodeMonitor.reconcile. exec.
  destruct (is_disconnected _ && _).
  - pose proof (report_recovery_ok node (ticked w) Hwf) as Hr.
    destruct (NodeMonitor.report_recovery e node (ticked w)) as [r w1]. simpl in Hr. subst r.
    destruct (negb _); exec; [|done].
    pose proof (handle_disconnected_ok node w1) as Hh.
    by destruct (NodeMonitor.handle_disconnected cfg e node w1).
  - exec. destruct (negb _); exec; [|done].
    pose proof (handle_disconnected_ok node (ticked w)) as Hh.
    by destruct (NodeMonitor.handle_disconnected cfg e node (ticked w)).
Qed.

Lemma node_event_sane node ev : node_event node ev -> sane ev.
Proof.
  intros [ev' [ev'' H| | | | | |]| | |]; simpl; eauto using token_event_sane.
  intros Hf. by destruct (status_key_not_float (node_id node)).
Qed.

Lemma process_node_ok node w :
  store_wf (store w) ->
  exists w',
    NodeMonitor.process_node cfg e node w = (Ok tt, w') /\
    ext (node_event node) w w' /\ store_wf (store w').
Proof.
  intros Hwf.
  pose proof (fp_process_node cfg e node w) as Hext.
  assert (Hok : (NodeMonitor.process_node cfg e node w).1 = Ok tt).
  { unfold NodeMonitor.process_node. run.
    pose proof (get_node_ext e (node_id node) w) as Hg.
    destruct (MarzbanAPI.get_node e (node_id node) w) as [[ns|x] w1]; simpl in Hg.
    - apply reconcile_ok. eapply ext_wf; [|exact Hg|done]. apply fetch_event_sane.
    - by destruct (is_TimeoutError x). }
  destruct (NodeMonitor.process_node cfg e node w) as [r w']. simpl in *. subst r.
  exists w'. split; [done|]. split; [done|].
  eapply ext_wf; [|exact Hext|done]. apply node_event_sane.
Qed.

Lemma tally_refl node w : tally node 0 0 0 w w.
Proof. exists []. by rewrite app_nil_r. Qed.

Lemma tally_trans node a1 s1 f1 a2 s2 f2 w1 w2 w3 :
  tally node a1 s1 f1 w1 w2 -> tally node a2 s2 f2 w2 w3 ->
  tally node (a1 + a2) (s1 + s2) (f1 + f2) w1 w3.
Proof.
  intros (evs1 & Ht1 & <- & <- & <-) (evs2 & Ht2 & <- & <- & <-).
  exists (evs1 ++ evs2). rewrite Ht2, Ht1, <- app_assoc, !count_app. done.
Qed.

Lemma is_set_of_foreign node ev :
  foreign node ev ->
  is_set_of (NodeMonitor.get_node_disconnect_time_key (node_id node)) ev = false.
Proof.
  intros (_ & _ & Ht & _). destruct ev; try done. simpl in *.
  by apply String.eqb_neq.
Qed.

Lemma tally_foreign node w w' : ext (foreign node) w w' -> tally node 0 0 0 w w'.
Proof.
  intros (evs & Ht & Hall & _). exists evs. split; [done|].
  repeat split; eapply count_none; eauto using is_set_of_foreign;
    by intros ev (_ & _ & _ & ? & ?).
Qed.

Lemma foreign_counts node evs :
  Forall (foreign node) evs ->
  count (is_disconnect_alert (node_name node)) evs = 0 /\
  count (is_set_of (NodeMonitor.get_node_disconnect_time_key (node_id node))) evs = 0 /\
  count (is_reconnect_failed (node_name node)) evs = 0.
Proof.
  intros Hall. repeat split; eapply count_none; eauto using is_set_of_foreign;
    by intros ev (_ & _ & _ & ? & ?).
Qed.

Lemma foreign_keeps node w w' :
  ext (foreign node) w w' ->
  store w' !! NodeMonitor.get_node_status_key (node_id node) =
    store w !! NodeMonitor.get_node_status_key (node_id node) /\
  store w' !! NodeMonitor.get_node_disconnect_time_key (node_id node) =
    store w !! NodeMonitor.get_node_disconnect_time_key (node_id node) /\
  (store_wf (store w) -> store_wf (store w')).
Proof.
  intros Hext. repeat split.
  - eapply ext_lookup; [|exact Hext]. by intros ev (_ & ? & _).
  - eapply ext_lookup; [|exact Hext]. by intros ev (_ & _ & ? & _).
  - eapply ext_wf; [|exact Hext]. by intros ev (? & _).
Qed.

Lemma token_event_foreign node ev : token_event ev -> foreign node ev.
Proof.
  intros H. split; [by apply token_event_sane|].
  split; [by apply token_event_status_key|]. split; [by apply token_event_time_key|].
  by destruct H.
Qed.

Lemma quiet_event_foreign node id ev : quiet_event id ev -> foreign node ev.
Proof. intros [ev' H| | |]; [by apply token_event_foreign|repeat split; by intros []..]. Qed.

Lemma fetch_event_foreign node id ev : fetch_event id ev -> foreign node ev.
Proof. intros [ev' H|]; [by apply token_event_foreign|repeat split; by intros []]. Qed.

Lemma node_event_foreign node other ev :
  stranger node other -> node_event other ev -> foreign node ev.
Proof.
  intros [Hid Hname] Hev. split; [by eapply node_event_sane|].
  destruct Hev as [ev [ev' H| | | | | |]| | |m Hm];
    [by apply token_event_foreign|..|destruct m; try done; simpl in Hm; injection Hm as ->];
    repeat split; simpl; try done;
    try (intros H;
         first [ by apply status_key_inj in H
               | by apply time_key_inj in H
               | by destruct (status_key_not_time_key _ _ H)
               | by destruct (status_key_not_time_key _ _ (eq_sym H)) ]);
    try (by apply String.eqb_neq); try tauto.
Qed.

Lemma store_wf_insert_float key t s : store_wf s -> store_wf (<[key := SFloat t]> s).
Proof.
  intros Hwf k v Hk Hf. destruct (decide (key = k)) as [->|Hne].
  - rewrite lookup_insert_eq in Hk. injection Hk as <-. by eexists.
  - rewrite lookup_insert_ne in Hk by done. eauto.
Qed.

Lemma store_wf_insert_status id v s :
  store_wf s -> store_wf (<[NodeMonitor.get_node_status_key id := v]> s).
Proof.
  intros Hwf k v' Hk Hf. destruct (decide (NodeMonitor.get_node_status_key id = k)) as [<-|Hne].
  - by destruct (status_key_not_float id).
  - rewrite lookup_insert_ne in Hk by done. eauto.
Qed.

Lemma tally_step node evs w w' :
  trace w' = trace w ++ evs ->
  tally node (count (is_disconnect_alert (node_name node)) evs)
    (count (is_set_of (NodeMonitor.get_node_disconnect_time_key (node_id node))) evs)
    (count (is_reconnect_failed (node_name node)) evs) w w'.
Proof. intros Ht. by exists evs. Qed.

Section Target.
Variable node : Node.
Variable s : string.
Hypothesis Hrep : reports e (node_id node) s.
Hypothesis Hs1 : s <> "connected".
Hypothesis Hs2 : s <> "disabled".

Local Abbreviation status_key := (NodeMonitor.get_node_status_key (node_id node)).
Local Abbreviation time_key := (NodeMonitor.get_node_disconnect_time_key (node_id node)).

(** The node keeps being reported with status [s]: its handling alerts
    and stamps if no disconnected state is stored, and ends in any case
    with one NodeReconnectFailed notification and the state
    [disconnected]. *)
Lemma process_node_target w :
  store_wf (store w) ->
  exists w',
    NodeMonitor.process_node cfg e node w = (Ok tt, w') /\
    store_wf (store w') /\
    store w' !! status_key = Some (SText "disconnected") /\
    if is_disconnected (store w !! status_key)
    then tally node 0 0 1 w w' /\ store w' !! time_key = store w !! time_key
    else tally node 1 1 1 w w' /\ exists t, store w' !! time_key = Some (SFloat t).
Proof.
  intros Hwf.
  pose proof (get_node_reports (node_id node) s w Hrep Hwf) as Hget.
  pose proof (get_node_ext e (node_id node) w) as Hext1.
  apply (ext_mono _ (foreign node)) in Hext1; [|apply fetch_event_foreign].
  destruct (MarzbanAPI.get_node e (node_id node) w) as [r w1] eqn:Hg.
  simpl in Hget, Hext1. subst r.
  destruct (foreign_keeps node w w1 Hext1) as (Hk1 & Hk2 & Hwf1). specialize (Hwf1 Hwf).
  destruct Hext1 as (evs1 & Ht1 & Hall1 & _).
  destruct (foreign_counts node evs1 Hall1) as (Ha1 & Hb1 & Hc1).
  rewrite (process_node_fetched _ _ _ _ _ _ Hg).
  unfold NodeMonitor.reconcile, NodeMonitor.handle_disconnected, NodeMonitor.recover.
  cbn [nd_status]. calc.
  destruct (String.eqb_spec s "connected") as [|_]; [done|].
  destruct (String.eqb_spec s "disabled") as [|_]; [done|].
  exec. rewrite andb_false_r. exec. rewrite Hk1.
  destruct (is_disconnected (store w !! status_key)) eqn:Hknown; exec.
  all: match goal with |- context [NodeMonitor.reconnect_loop cfg e node 0 _ ?w0] =>
      destruct (reconnect_loop_nominal node s (reconnect_attempts cfg) 0 w0 Hrep Hs1)
        as (w3 & Hloop & Hext3);
      [first [done | by apply store_wf_insert_float]|]; rewrite Hloop end.
  all: apply (ext_mono _ (foreign node)) in Hext3; [|apply quiet_event_foreign].
  all: destruct (foreign_keeps node _ w3 Hext3) as (Hk3 & Hk4 & Hwf3).
  all: destruct Hext3 as (evs3 & Ht3 & Hall3 & _).
  all: destruct (foreign_counts node evs3 Hall3) as (Ha3 & Hb3 & Hc3).
  all: cbn [store trace ticked] in *.
  all: exec; eexists; (split; [reflexivity|]); cbn [store trace].
  all: split; [apply store_wf_insert_status, Hwf3;
               first [done | by apply store_wf_insert_float]|].
  all: split; [apply lookup_insert_eq|].
  all: rewrite lookup_insert_ne by apply status_key_not_time_key.
  - split; [|congruence].
    exists (evs1 ++ evs3 ++
      [EvSend (ERROR_NODE_RECONNECT_FAILED (node_name node) (NodeMonitor.node_ip node)
                 (NodeMonitor.node_error node) (reconnect_attempts cfg) (clock e (tick w3)));
       EvSet status_key (SText "disconnected") None]).
    split; [by rewrite Ht3, Ht1, <- !app_assoc|].
    rewrite !count_app, Ha1, Hb1, Hc1, Ha3, Hb3, Hc3. unfold count. simpl.
    rewrite String.eqb_refl. simpl.
    destruct (String.eqb_spec status_key time_key) as [Heq|_]; [|done].
    by destruct (status_key_not_time_key _ _ Heq).
  - split; [|rewrite Hk4, lookup_insert_eq; by eexists].
    eexists (evs1 ++ [_; _] ++ evs3 ++ [_; _]).
    split; [by rewrite Ht3, Ht1, <- !app_assoc|].
    rewrite !count_app, Ha1, Hb1, Hc1, Ha3, Hb3, Hc3. unfold count. simpl.
    rewrite !String.eqb_refl. simpl.
    destruct (String.eqb_spec status_key time_key) as [Heq|_]; [|done].
    by destruct (status_key_not_time_key _ _ Heq).
Qed.

Lemma tally_foreign_l a b c w w1 w2 :
  ext (foreign node) w w1 -> tally node a b c w1 w2 -> tally node a b c w w2.
Proof. intros H1 H2. apply tally_foreign in H1. apply (tally_trans node 0 0 0 a b c w w1 w2 H1 H2). Qed.

Lemma tally_foreign_r a b c w w1 w2 :
  tally node a b c w w1 -> ext (foreign node) w1 w2 -> tally node a b c w w2.
Proof.
  intros H1 H2. apply tally_foreign in H2.
  pose proof (tally_trans node a b c 0 0 0 w w1 w2 H1 H2) as H.
  by rewrite !Nat.add_0_r in H.
Qed.

Lemma process_nodes_strangers others w :
  Forall (stranger node) others -> store_wf (store w) ->
  exists w',
    NodeMonitor.process_nodes cfg e others w = (Ok tt, w') /\
    ext (foreign node) w w' /\ store_wf (store w').
Proof.
  intros Hall. revert w. induction Hall as [|other others Hother _ IH]; intros w Hwf; simpl.
  { exists w. split; [done|]. split; [apply ext_refl|done]. }
  destruct (process_node_ok other w Hwf) as (w1 & Hp & Hext & Hwf1).
  destruct (IH w1 Hwf1) as (w2 & Hps & Hext2 & Hwf2).
  exists w2. rewrite run_bind, Hp. split; [done|]. split; [|done].
  eapply ext_trans; [|exact Hext2]. eapply ext_mono; [|exact Hext].
  intros ev. by apply node_event_foreign.
Qed.

Variable fleet : list Node.
Hypothesis Hlists : lists e fleet.
Hypothesis Hfleet : listed_once node fleet.

Lemma fetch_listing_nominal start w :
  store_wf (store w) ->
  exists w',
    NodeMonitor.fetch_listing e start w = (Ok fleet, w') /\
    ext (foreign node) w w' /\ store_wf (store w').
Proof.
  intros Hwf.
  assert (Hfp : ext (foreign node) w (NodeMonitor.fetch_listing e start w).2).
  { apply (fun H : fp (foreign node) (NodeMonitor.fetch_listing e start) => H w).
    unfold NodeMonitor.fetch_listing, MarzbanAPI.get_nodes.
    apply fp_bind; [|intros; fp_auto].
    apply fp_get_nodes_from; [apply token_event_foreign|..];
      intros; repeat split; by intros []. }
  assert (Hok : (NodeMonitor.fetch_listing e start w).1 = Ok fleet).
  { unfold NodeMonitor.fetch_listing, MarzbanAPI.get_nodes. simpl.
    unfold MarzbanAPI.get_auth_headers. run.
    destruct (get_cached_token_nominal w Hwf) as (tok & Htok).
    destruct (MarzbanAPI.get_cached_token e w) as [r w1]. simpl in Htok. subst r.
    run. rewrite (Hlists (tick w1)). run. done. }
  destruct (NodeMonitor.fetch_listing e start w) as [r w']. simpl in *. subst r.
  exists w'. split; [done|]. split; [done|].
  eapply ext_wf; [|exact Hfp|done]. by intros ev (? & _).
Qed.

Lemma ext_ticked (P : Event -> Prop) w : ext P w (ticked w).
Proof. exists []. simpl. rewrite app_nil_r. repeat split; auto. Qed.

(** One cycle, as seen from the node. *)
Lemma cycle_target w :
  store_wf (store w) ->
  exists w',
    NodeMonitor.cycle cfg e w = (Ok tt, w') /\
    store_wf (store w') /\
    store w' !! status_key = Some (SText "disconnected") /\
    if is_disconnected (store w !! status_key)
    then tally node 0 0 1 w w' /\ store w' !! time_key = store w !! time_key
    else tally node 1 1 1 w w' /\ exists t, store w' !! time_key = Some (SFloat t).
Proof.
  intros Hwf. destruct Hfleet as (before & after & Hfl & Hbefore & Hafter).
  destruct (fetch_listing_nominal (clock e (tick w)) (ticked w) Hwf)
    as (w0 & Hlist & Hext0 & Hwf0).
  rewrite Hfl in Hlist.
  destruct (process_nodes_strangers before w0 Hbefore Hwf0) as (w1 & Hp1 & Hext1 & Hwf1).
  destruct (process_node_target w1 Hwf1) as (w2 & Hp2 & Hwf2 & Hst2 & Hcase).
  destruct (process_nodes_strangers after w2 Hafter Hwf2) as (w3 & Hp3 & Hext3 & Hwf3).
  assert (Hpre : ext (foreign node) w w1).
  { eapply ext_trans; [apply ext_ticked|]. eapply ext_trans; eauto. }
  assert (Hpost : ext (foreign node) w2
            (mkWorld (store w3) (trace w3 ++ [EvSleep (sleep_interval cfg)]) (tick w3))).
  { eapply ext_trans; [exact Hext3|]. apply ext_slept. repeat split; by intros []. }
  destruct (foreign_keeps node _ _ Hpre) as (Hk1 & Hk2 & _).
  destruct (foreign_keeps node _ _ Hpost) as (Hk3 & Hk4 & _). cbn [store] in Hk3, Hk4.
  eexists. split.
  { unfold NodeMonitor.cycle. run.
    rewrite (cycle_body_listed _ _ _ _ _ Hlist), run_bind, process_nodes_app, run_bind, Hp1.
    simpl. rewrite !run_bind, Hp2, Hp3. run. reflexivity. }
  cbn [store]. split; [done|]. split; [congruence|].
  rewrite Hk1 in Hcase.
  destruct (is_disconnected (store w !! status_key)); destruct Hcase as [Htally Htime].
  - split; [|congruence]. eapply tally_foreign_l; [exact Hpre|].
    eapply tally_foreign_r; [exact Htally|exact Hpost].
  - split; [|destruct Htime as (t & Ht); exists t; congruence].
    eapply tally_foreign_l; [exact Hpre|].
    eapply tally_foreign_r; [exact Htally|exact Hpost].
Qed.

Lemma tally_emitted {A} (m : M A) a b c w :
  tally node a b c w (m w).2 ->
  count (is_disconnect_alert (node_name node)) (emitted m w) = a /\
  count (is_set_of time_key) (emitted m w) = b /\
  count (is_reconnect_failed (node_name node)) (emitted m w) = c.
Proof. intros (evs & Ht & Ha & Hb & Hc). by rewrite (emitted_eq _ _ _ Ht). Qed.

(** Once the state [disconnected] is stored, further cycles send no alert
    and leave the timestamp alone; each ends with one NodeReconnectFailed
    notification. *)
Lemma cycles_known n w :
  store_wf (store w) ->
  is_disconnected (store w !! status_key) = true ->
  exists w',
    NodeMonitor.cycles cfg e n w = (Ok tt, w') /\
    store_wf (store w') /\
    store w' !! status_key = Some (SText "disconnected") /\
    tally node 0 0 n w w' /\
    store w' !! time_key = store w !! time_key.
Proof.
  revert w. induction n as [|n IH]; intros w Hwf Hknown; simpl.
  { exists w. repeat split; auto using tally_refl.
    destruct (store w !! status_key) as [[v|]|]; try done. simpl in Hknown.
    by apply String.eqb_eq in Hknown as ->. }
  destruct (cycle_target w Hwf) as (w1 & Hc & Hwf1 & Hst1 & Hcase).
  rewrite Hknown in Hcase. destruct Hcase as [Ht1 Hk1].
  destruct (IH w1 Hwf1) as (w2 & Hcs & Hwf2 & Hst2 & Ht2 & Hk2); [by rewrite Hst1|].
  exists w2. rewrite run_bind, Hc. repeat split; try done; [|congruence].
  apply (tally_trans node 0 0 1 0 0 n w w1 w2 Ht1 Ht2).
Qed.

Lemma cycles_fresh n w :
  store_wf (store w) ->
  is_disconnected (store w !! status_key) = false ->
  exists w1 w' t,
    NodeMonitor.cycle cfg e w = (Ok tt, w1) /\
    NodeMonitor.cycles cfg e (S n) w = (Ok tt, w') /\
    tally node 1 1 1 w w1 /\ tally node 0 0 n w1 w' /\
    store w1 !! status_key = Some (SText "disconnected") /\
    store w' !! status_key = Some (SText "disconnected") /\
    store w1 !! time_key = Some (SFloat t) /\
    store w' !! time_key = Some (SFloat t) /\
    store_wf (store w1).
Proof.
  intros Hwf Hfresh.
  destruct (cycle_target w Hwf) as (w1 & Hc & Hwf1 & Hst1 & Hcase).
  rewrite Hfresh in Hcase. destruct Hcase as [Ht1 (t & Hk1)].
  destruct (cycles_known n w1 Hwf1) as (w2 & Hcs & Hwf2 & Hst2 & Ht2 & Hk2); [by rewrite Hst1|].
  exists w1, w2, t. simpl. rewrite run_bind, Hc. repeat split; try done. congruence.
Qed.

(** C1 (amended): in every cycle the store answers every call, the token
    is obtained and the listing is returned (the hypotheses [Hup], [Hauth]
    and [Hlists] of the section); the node is listed once and every fetch
    reports it with the same status [s], neither [connected] nor
    [disabled]; the run starts with no disconnected state stored for it.
    Then, however many cycles the run has, exactly one NodeDisconnected
    alert is sent for the node, in the first cycle, and the disconnect
    timestamp is written exactly once, in the first cycle: after every
    cycle of the run the store holds that same timestamp. *)
Theorem disconnect_alert_once n w :
  store_wf (store w) ->
  is_disconnected (store w !! status_key) = false ->
  count (is_disconnect_alert (node_name node)) (emitted (NodeMonitor.cycle cfg e) w) = 1 /\
  count (is_disconnect_alert (node_name node))
    (emitted (NodeMonitor.cycles cfg e (S n)) w) = 1 /\
  count (is_set_of time_key) (emitted (NodeMonitor.cycle cfg e) w) = 1 /\
  count (is_set_of time_key) (emitted (NodeMonitor.cycles cfg e (S n)) w) = 1 /\
  exists t, forall k, k <= n ->
    store (NodeMonitor.cycles cfg e (S k) w).2 !! time_key = Some (SFloat t).
Proof.
  intros Hwf Hfresh.
  destruct (cycles_fresh n w Hwf Hfresh)
    as (w1 & w' & t & Hc & Hcs & Ht1 & Ht2 & _ & _ & Hk1 & _ & _).
  pose proof (tally_trans node 1 1 1 0 0 n w w1 w' Ht1 Ht2) as Ht. simpl in Ht.
  destruct (tally_emitted (NodeMonitor.cycle cfg e) 1 1 1 w) as (Ha1 & Hb1 & _);
    [by rewrite Hc|].
  destruct (tally_emitted (NodeMonitor.cycles cfg e (S n)) 1 1 (S n) w) as (Ha & Hb & _);
    [by rewrite Hcs|].
  repeat split; try done. exists t. intros k Hk.
  destruct (cycles_fresh k w Hwf Hfresh)
    as (w1' & w'' & t' & Hc' & Hcs' & _ & _ & _ & _ & Hk1' & Hk' & _).
  rewrite Hcs'. simpl. rewrite Hc in Hc'. injection Hc' as <-. congruence.
Qed.
End Target.
End Nominal.

Section Attempts.
Variable cfg : Config.
Variable e : Env.

Local Abbreviation P := (failed_alerts_report (reconnect_attempts cfg)).

Lemma far_token ev : token_event ev -> P ev.
Proof. by intros [] ? ? ? ? ?. Qed.

Lemma far_other ev :
  (forall name ip message a ts,
     ev <> EvSend (ERROR_NODE_RECONNECT_FAILED name ip message a ts)) -> P ev.
Proof. intros H ? ? ? ? ? Heq. by destruct (H _ _ _ _ _ Heq). Qed.

Lemma far_failed name ip message ts :
  P (EvSend (ERROR_NODE_RECONNECT_FAILED name ip message (reconnect_attempts cfg) ts)).
Proof. by intros ? ? ? ? ? [= _ _ _ <- _]. Qed.

#[local] Hint Resolve far_token far_failed : fp.
#[local] Hint Extern 1 (failed_alerts_report _ _) => (apply far_other; intros; discriminate) : fp.

Lemma fp_attempts_process_node node : fp P (NodeMonitor.process_node cfg e node).
Proof.
  assert (Hloop : forall n i, fp P (NodeMonitor.reconnect_loop cfg e node i n)).
  { induction n as [|n IH]; intros i; simpl; [apply fp_ret|].
    unfold NodeMonitor.reconnect_attempt. fp_auto. }
  unfold NodeMonitor.process_node, NodeMonitor.reconcile, NodeMonitor.report_recovery,
    NodeMonitor.handle_disconnected, NodeMonitor.recover.
  fp_auto.
Qed.

Lemma fp_attempts_cycle : fp P (NodeMonitor.cycle cfg e).
Proof.
  assert (Hnodes : forall nodes, fp P (NodeMonitor.process_nodes cfg e nodes)).
  { induction nodes as [|node nodes IH]; simpl; [apply fp_ret|].
    pose proof (fp_attempts_process_node node). fp_auto. }
  assert (Hlist : forall d n, fp P (MarzbanAPI.get_nodes_from e d n)).
  { intros. apply fp_get_nodes_from; auto with fp. }
  unfold NodeMonitor.cycle, NodeMonitor.cycle_body, NodeMonitor.fetch_listing,
    NodeMonitor.listing_failed, MarzbanAPI.get_nodes.
  fp_auto.
Qed.

Lemma fp_attempts_cycles n : fp P (NodeMonitor.cycles cfg e n).
Proof.
  induction n as [|n IH]; simpl; [apply fp_ret|].
  pose proof fp_attempts_cycle. fp_auto.
Qed.
End Attempts.


(** A cycle never raises: its handler catches every exception. *)
Lemma cycle_total cfg e w : (NodeMonitor.cycle cfg e w).1 = Ok tt.
Proof.
  unfold NodeMonitor.cycle. run.
  by destruct (NodeMonitor.cycle_body cfg e w) as [[[]|x] w1]; run.
Qed.

Lemma cycles_step cfg e k w :
  NodeMonitor.cycles cfg e (S k) w = NodeMonitor.cycles cfg e k (NodeMonitor.cycle cfg e w).2.
Proof.
  simpl. rewrite run_bind. pose proof (cycle_total cfg e w) as H.
  destruct (NodeMonitor.cycle cfg e w) as [r w1]. simpl in *. by subst r.
Qed.

(** [S k] cycles are [k] cycles followed by one more. *)
Lemma cycles_snoc cfg e k w :
  NodeMonitor.cycles cfg e (S k) w =
  NodeMonitor.cycle cfg e (NodeMonitor.cycles cfg e k w).2.
Proof.
  revert w. induction k as [|k IH]; intros w.
  - rewrite cycles_step. simpl. pose proof (cycle_total cfg e w) as H.
    destruct (NodeMonitor.cycle cfg e w) as [r w1]. simpl in *. by subst r.
  - rewrite cycles_step, IH. by rewrite <- cycles_step.
Qed.

(** C5 (amended): a node keeps being reported [connecting] and
    [reconnect_attempts] is 2; the run starts with no disconnected state
    stored for the node.  Over four cycles exactly one NodeDisconnected
    alert is sent, in cycle 1; each of the cycles 1 to 4 sends exactly one
    NodeReconnectFailed notification for the node, and every such
    notification reports 2 attempts; after each of the four cycles the
    stored state is [disconnected]. *)
Theorem connecting_scenario cfg e fleet node w :
  store_reachable e -> auth_succeeds e ->
  lists e fleet -> listed_once node fleet ->
  reports e (node_id node) "connecting" ->
  reconnect_attempts cfg = 2 ->
  store_wf (store w) ->
  is_disconnected (store w !! NodeMonitor.get_node_status_key (node_id node)) = false ->
  count (is_disconnect_alert (node_name node))
    (emitted (NodeMonitor.cycles cfg e 4) w) = 1 /\
  (forall k, k < 4 ->
     count (is_disconnect_alert (node_name node))
       (emitted (NodeMonitor.cycle cfg e) (NodeMonitor.cycles cfg e k w).2) =
       (if Nat.eqb k 0 then 1 else 0) /\
     count (is_reconnect_failed (node_name node))
       (emitted (NodeMonitor.cycle cfg e) (NodeMonitor.cycles cfg e k w).2) = 1 /\
     store (NodeMonitor.cycles cfg e (S k) w).2
       !! NodeMonitor.get_node_status_key (node_id node) = Some (SText "disconnected")) /\
  Forall (failed_alerts_report 2) (emitted (NodeMonitor.cycles cfg e 4) w).
Proof.
  intros Hup Hauth Hlists Hfleet Hrep Hatt Hwf Hfresh.
  assert (Hs1 : "connecting" <> "connected") by discriminate.
  assert (Hs2 : "connecting" <> "disabled") by discriminate.
  split; [|split].
  - destruct (cycles_fresh cfg e Hup Hauth node _ Hrep Hs1 Hs2 fleet Hlists Hfleet
                3 w Hwf Hfresh) as (w1 & w' & t & _ & Hcs & Ht1 & Ht2 & _).
    pose proof (tally_trans node 1 1 1 0 0 3 w w1 w' Ht1 Ht2) as Ht. simpl in Ht.
    destruct (tally_emitted node (NodeMonitor.cycles cfg e 4) 1 1 4 w) as (Ha & _);
      [by rewrite Hcs|].
    exact Ha.
  - intros k Hk. rewrite cycles_snoc.
    assert (Hk' : store_wf (store (NodeMonitor.cycles cfg e k w).2) /\
                  is_disconnected (store (NodeMonitor.cycles cfg e k w).2
                    !! NodeMonitor.get_node_status_key (node_id node)) = negb (Nat.eqb k 0)).
    { destruct k as [|k]; [done|].
      destruct (cycles_fresh cfg e Hup Hauth node _ Hrep Hs1 Hs2 fleet Hlists Hfleet
                  k w Hwf Hfresh)
        as (w1 & w' & t & Hc & Hcs & _ & _ & Hst1 & Hst & _ & _ & Hwf1).
      rewrite Hcs. cbn [snd]. rewrite Hst. split; [|done].
      destruct (cycles_known cfg e Hup Hauth node _ Hrep Hs1 Hs2 fleet Hlists Hfleet
                  k w1 Hwf1) as (w'' & Hcs' & Hwf'' & _); [by rewrite Hst1|].
      rewrite cycles_step, Hc in Hcs. cbn [snd] in Hcs. rewrite Hcs' in Hcs.
      by injection Hcs as <-. }
    destruct Hk' as [Hwfk Hknown].
    destruct (cycle_target cfg e Hup Hauth node _ Hrep Hs1 Hs2 fleet Hlists Hfleet
                _ Hwfk) as (w2 & Hc2 & Hwf2 & Hst2 & Hcase).
    rewrite Hknown in Hcase. rewrite Hc2. cbn [snd].
    destruct (Nat.eqb k 0); simpl in Hcase; destruct Hcase as [Ht2 _].
    + destruct (tally_emitted node (NodeMonitor.cycle cfg e) 1 1 1
                  (NodeMonitor.cycles cfg e k w).2) as (Ha & _ & Hf); [by rewrite Hc2|].
      done.
    + destruct (tally_emitted node (NodeMonitor.cycle cfg e) 0 0 1
                  (NodeMonitor.cycles cfg e k w).2) as (Ha & _ & Hf); [by rewrite Hc2|].
      done.
  - pose proof (ext_emitted _ _ _ (fp_attempts_cycles cfg e 4 w)) as (_ & H & _).
    by rewrite Hatt in H.
Qed.

Lemma connecting_scenario_witness :
  count (is_disconnect_alert "gamma")
    (emitted (NodeMonitor.cycles two_attempts env_connecting 4) empty_world) = 1 /\
  (forall k, k < 4 ->
     count (is_disconnect_alert "gamma")
       (emitted (NodeMonitor.cycle two_attempts env_connecting)
          (NodeMonitor.cycles two_attempts env_connecting k empty_world).2) =
       (if Nat.eqb k 0 then 1 else 0) /\
     count (is_reconnect_failed "gamma")
       (emitted (NodeMonitor.cycle two_attempts env_connecting)
          (NodeMonitor.cycles two_attempts env_connecting k empty_world).2) = 1 /\
     store (NodeMonitor.cycles two_attempts env_connecting (S k) empty_world).2
       !! NodeMonitor.get_node_status_key "3" = Some (SText "disconnected")) /\
  Forall (failed_alerts_report 2)
    (emitted (NodeMonitor.cycles two_attempts env_connecting 4) empty_world).
Proof.
  apply (connecting_scenario two_attempts env_connecting [node_c] node_c empty_world).
  - intros k. reflexivity.
  - intros k. eexists. split; reflexivity.
  - intros k. reflexivity.
  - exists [], []. repeat split; constructor.
  - intros k. reflexivity.
  - reflexivity.
  - intros key v H. discriminate H.
  - reflexivity.
Defined.

(** C5 as stated fails: in the scenario each of the cycles 2, 3 and 4
    sends one NodeReconnectFailed notification, not two (and so does
    cycle 1). *)
Lemma connecting_scenario_one_failure_per_cycle :
  let failures k :=
    count (is_reconnect_failed "gamma")
      (emitted (NodeMonitor.cycle two_attempts env_connecting)
         (NodeMonitor.cycles two_attempts env_connecting k empty_world).2) in
  failures 0 = 1 /\ failures 1 = 1 /\ failures 2 = 1 /\ failures 3 = 1 /\
  count is_reconnect
    (emitted (NodeMonitor.cycle two_attempts env_connecting)
       (NodeMonitor.cycles two_attempts env_connecting 1 empty_world).2) = 2.
Proof. vm_compute. done. Qed.

(** ** The statements at concrete inputs *)

Lemma disconnect_alert_once_witness :
  count (is_disconnect_alert (node_name node_c))
    (emitted (NodeMonitor.cycle two_attempts env_connecting) empty_world) = 1 /\
  count (is_disconnect_alert (node_name node_c))
    (emitted (NodeMonitor.cycles two_attempts env_connecting 4) empty_world) = 1 /\
  count (is_set_of (NodeMonitor.get_node_disconnect_time_key (node_id node_c)))
    (emitted (NodeMonitor.cycle two_attempts env_connecting) empty_world) = 1 /\
  count (is_set_of (NodeMonitor.get_node_disconnect_time_key (node_id node_c)))
    (emitted (NodeMonitor.cycles two_attempts env_connecting 4) empty_world) = 1 /\
  exists t, forall k, k <= 3 ->
    store (NodeMonitor.cycles two_attempts env_connecting (S k) empty_world).2
      !! NodeMonitor.get_node_disconnect_time_key (node_id node_c) = Some (SFloat t).
Proof.
  refine (disconnect_alert_once two_attempts env_connecting _ _ node_c "connecting" _ _ _
            [node_c] _ _ 3 empty_world _ _).
  - intros k. reflexivity.
  - intros k. exists (mkTokenData "token" None). split; reflexivity.
  - intros k. reflexivity.
  - discriminate.
  - discriminate.
  - intros k. reflexivity.
  - exists [], []. repeat split; constructor.
  - intros key v H. discriminate H.
  - reflexivity.
Defined.


(** The same run, computed: with [T0 = 0.0] and [T1 = 160.5] the quotient
    is the float just below 2.675, and the downtime sent is 2.67. *)
Example downtime_of_160_5_seconds :
  emitted (NodeMonitor.process_node NodeMonitor.default_config
             (env_half_past [node_a] "connected") node_a) world_flagged_at_zero =
    emitted (MarzbanAPI.get_node (env_half_past [node_a] "connected") "1")
      world_flagged_at_zero ++
    [EvSend (SUCCESS_NODE_RECONNECTED "alpha" "10.0.0.1" (323 # 2) (binary64 (267 # 100)));
     EvDelete (NodeMonitor.get_node_status_key "1");
     EvDelete (NodeMonitor.get_node_disconnect_time_key "1")].
Proof. vm_compute. reflexivity. Qed.

Lemma recovery_without_timestamp_is_silent_witness :
  exists w',
    NodeMonitor.process_node NodeMonitor.default_config (env_calm [node_a] "connected")
      node_a world_flagged_unstamped = (Ok tt, w') /\
    trace w' =
      trace (MarzbanAPI.get_node (env_calm [node_a] "connected") "1"
               world_flagged_unstamped).2 ++
      [EvDelete (NodeMonitor.get_node_status_key "1");
       EvDelete (NodeMonitor.get_node_disconnect_time_key "1")] /\
    count is_send
      (emitted (NodeMonitor.process_node NodeMonitor.default_config
                  (env_calm [node_a] "connected") node_a) world_flagged_unstamped) = 0 /\
    store w' !! NodeMonitor.get_node_status_key "1" = None /\
    store w' !! NodeMonitor.get_node_disconnect_time_key "1" = None.
Proof.
  apply (recovery_without_timestamp_is_silent NodeMonitor.default_config
           (env_calm [node_a] "connected") node_a (fun k => eq_refl)
           world_flagged_unstamped (mkNodeData (Some "connected"))).
  - vm_compute. reflexivity.
  - reflexivity.
  - vm_compute. reflexivity.
  - vm_compute. reflexivity.
Defined.

Lemma disabled_node_left_alone_witness :
  trace (NodeMonitor.process_node NodeMonitor.default_config (env_calm [node_a] "disabled")
           node_a world_flagged).2 =
    trace (MarzbanAPI.get_node (env_calm [node_a] "disabled") "1" world_flagged).2 /\
  store (NodeMonitor.process_node NodeMonitor.default_config (env_calm [node_a] "disabled")
           node_a world_flagged).2 =
    store (MarzbanAPI.get_node (env_calm [node_a] "disabled") "1" world_flagged).2 /\
  count is_send
    (emitted (NodeMonitor.process_node NodeMonitor.default_config
                (env_calm [node_a] "disabled") node_a) world_flagged) = 0 /\
  count is_reconnect
    (emitted (NodeMonitor.process_node NodeMonitor.default_config
                (env_calm [node_a] "disabled") node_a) world_flagged) = 0.
Proof.
  apply (disabled_node_left_alone NodeMonitor.default_config (env_calm [node_a] "disabled")
           node_a world_flagged (mkNodeData (Some "disabled"))).
  - vm_compute. reflexivity.
  - reflexivity.
Defined.

Lemma recovery_bounded_and_stops_witness :
  count is_reconnect
    (emitted (NodeMonitor.recover NodeMonitor.default_config (env_calm [node_a] "connected")
                node_a) empty_world) <= 3 /\
  stops_when_connected "1"
    (emitted (NodeMonitor.recover NodeMonitor.default_config (env_calm [node_a] "connected")
                node_a) empty_world).
Proof.
  split.
  - apply (proj1 (recovery_bounded_and_stops NodeMonitor.default_config
                    (env_calm [node_a] "connected") node_a empty_world)).
  - apply (proj2 (recovery_bounded_and_stops NodeMonitor.default_config
                    (env_calm [node_a] "connected") node_a empty_world)).
    intros k. reflexivity.
Defined.

Lemma exhausted_recovery_witness :
  exists w' ts,
    NodeMonitor.recover two_attempts env_connecting node_c empty_world = (Ok tt, w') /\
    emitted (NodeMonitor.recover two_attempts env_connecting node_c) empty_world =
      emitted (NodeMonitor.reconnect_loop two_attempts env_connecting node_c 0 2) empty_world ++
      [EvSend (ERROR_NODE_RECONNECT_FAILED "gamma" "10.0.0.3" "handshake failed" 2 ts);
       EvSet (NodeMonitor.get_node_status_key "3") (SText "disconnected") None] /\
    count (is_reconnect_failed "gamma")
      (emitted (NodeMonitor.recover two_attempts env_connecting node_c) empty_world) = 1 /\
    store w' !! NodeMonitor.get_node_status_key "3" = Some (SText "disconnected") /\
    store w' !! NodeMonitor.get_node_disconnect_time_key "3" =
      store empty_world !! NodeMonitor.get_node_disconnect_time_key "3".
Proof.
  apply (exhausted_recovery two_attempts env_connecting node_c empty_world).
  - intros k. reflexivity.
  - vm_compute. repeat (constructor; [discriminate|]). constructor.
Defined.

(** C1 as stated fails: the node is observed [connecting] in two
    consecutive cycles, and in the first of them the store does not answer
    the write of the state [disconnected] (line 220, interaction 27),
    which no handler of the loop over the nodes covers.  The first cycle
    ends in the handler of line 224 with no state stored; the second cycle
    sends the NodeDisconnected alert again and writes another disconnect
    timestamp. *)
Lemma disconnect_alert_repeated_after_store_failure :
  let e := env_connecting_fault 27 in
  let w1 := (NodeMonitor.cycle two_attempts e empty_world).2 in
  let w2 := (NodeMonitor.cycle two_attempts e w1).2 in
  reports e "3" "connecting" /\
  count (is_fetch_of "3") (emitted (NodeMonitor.cycle two_attempts e) empty_world) = 1 /\
  count (is_fetch_of "3") (emitted (NodeMonitor.cycle two_attempts e) w1) = 1 /\
  count (is_disconnect_alert "gamma")
    (emitted (NodeMonitor.cycles two_attempts e 2) empty_world) = 2 /\
  count (is_set_of (NodeMonitor.get_node_disconnect_time_key "3"))
    (emitted (NodeMonitor.cycles two_attempts e 2) empty_world) = 2 /\
  store w1 !! NodeMonitor.get_node_status_key "3" = None /\
  store w1 !! NodeMonitor.get_node_disconnect_time_key "3" = Some (SFloat 16) /\
  store w2 !! NodeMonitor.get_node_disconnect_time_key "3" = Some (SFloat 42).
Proof. split; [intros k; reflexivity|]. vm_compute. done. Qed.

(** C6 as stated fails in its second half: the first attempt reconnects
    the node and fetches it connected, the notification is sent, and the
    store does not answer the deletion of line 191 (interaction 12).  The
    deletion is inside the [try] of line 168: the handler of line 194
    takes the exception, sleeps, and the loop goes on with a second
    reconnect action, after the fetch that saw the node connected. *)
Lemma reconnect_after_connected_when_delete_fails :
  let e := env_calm_fault 12 [node_a] "connected" in
  let evs := emitted (NodeMonitor.recover NodeMonitor.default_config e node_a) empty_world in
  evs = take 5 evs ++ seen_connected "1" :: drop 6 evs /\
  count is_reconnect (drop 6 evs) = 1 /\
  ~ stops_when_connected "1" evs.
Proof.
  intros e evs.
  assert (H1 : evs = take 5 evs ++ seen_connected "1" :: drop 6 evs)
    by (vm_compute; reflexivity).
  assert (H2 : count is_reconnect (drop 6 evs) = 1) by (vm_compute; reflexivity).
  split; [done|]. split; [done|]. intros Hstop. specialize (Hstop _ _ H1). congruence.
Qed.

(** * Further properties of the code *)

Lemma Qltb_of_lt a b : (a < b)%Q -> Qltb a b = true.
Proof.
  intros H. unfold Qltb. apply negb_true_iff.
  destruct (Qle_bool b a) eqn:Hle; [|done].
  apply Qle_bool_iff in Hle. by apply Qlt_not_le in H.
Qed.

(** The path of lines 35-37. *)
Lemma get_cached_token_hit e w tok x :
  store_up e (tick w) = true -> store_up e (S (tick w)) = true ->
  store w !! MarzbanAPI.token_key = Some (SText tok) -> tok <> "" ->
  store w !! MarzbanAPI.token_expiry_key = Some (SFloat x) ->
  (clock e (S (S (tick w))) < x)%Q ->
  MarzbanAPI.get_cached_token e w = (Ok tok, mkWorld (store w) (trace w) (3 + tick w)).
Proof.
  intros Hup1 Hup2 Htok Hne Hexp Hlt.
  unfold MarzbanAPI.get_cached_token, MarzbanAPI.cache_is_fresh.
  run. rewrite Hup1. run. rewrite Hup2. run. rewrite Htok, Hexp. calc.
  apply String.eqb_neq in Hne. rewrite Hne. calc. run.
  rewrite (Qltb_of_lt _ _ Hlt). run. done.
Qed.

(** X1: [get_cached_token] with a cached token that is not empty and an
    expiry later than the clock reading, the store answering both reads:
    the cached token is returned, no request is made and nothing is
    written. *)
Theorem fresh_token_is_reused e w tok x :
  store_up e (tick w) = true -> store_up e (S (tick w)) = true ->
  store w !! MarzbanAPI.token_key = Some (SText tok) -> tok <> "" ->
  store w !! MarzbanAPI.token_expiry_key = Some (SFloat x) ->
  (clock e (S (S (tick w))) < x)%Q ->
  (MarzbanAPI.get_cached_token e w).1 = Ok tok /\
  emitted (MarzbanAPI.get_cached_token e) w = [] /\
  store (MarzbanAPI.get_cached_token e w).2 = store w.
Proof.
  intros Hup1 Hup2 Htok Hne Hexp Hlt.
  unfold emitted. rewrite (get_cached_token_hit e w tok x) by done.
  cbn [fst snd trace store]. by rewrite drop_all.
Qed.

(** [authenticate] starts with the request to the token endpoint. *)
Lemma authenticate_posts e w :
  exists rest,
    trace (MarzbanAPI.authenticate e w).2 =
      trace w ++ EvPostToken (post_token e (tick w)) :: rest /\
    Forall token_event rest /\ count is_post_token rest = 0.
Proof.
  unfold MarzbanAPI.authenticate.
  repeat (run; try case_env; calc); cbn [snd trace]; rewrite <- ?app_assoc;
    eexists; (split; [reflexivity|]); split; repeat constructor.
Qed.

Lemma trace_grew (evs : list Event) ev rest l :
  l ++ evs ++ ev :: rest <> l.
Proof.
  intros H. apply (f_equal length) in H. rewrite !length_app in H. simpl in H. lia.
Qed.

(** X2: the converse.  A token that [get_cached_token] returns without any
    effect (no request to the token endpoint, no write) is the one the
    store held, and the expiry the store held is a number strictly later
    than the clock reading of line 35: an expired, missing or empty entry
    is never served. *)
Theorem token_without_request_was_cached e w tok w' :
  MarzbanAPI.get_cached_token e w = (Ok tok, w') -> trace w' = trace w ->
  exists v x,
    store w !! MarzbanAPI.token_key = Some v /\ truthy v = true /\ decode v = tok /\
    store w !! MarzbanAPI.token_expiry_key = Some (SFloat x) /\
    (clock e (S (S (tick w))) < x)%Q /\
    store w' = store w.
Proof.
  assert (Hau : forall w0 r w1, trace w0 = trace w ->
            MarzbanAPI.authenticate e w0 = (r, w1) ->
            exists ev rest, trace w1 = trace w ++ ev :: rest).
  { intros w0 r w1 H0 Hr. destruct (authenticate_posts e w0) as (rest & Ht & _).
    rewrite Hr in Ht. simpl in Ht. rewrite H0 in Ht. eauto. }
  assert (Hau2 : forall w0 r w1 ev rest, trace w0 = trace w ++ ev :: rest ->
            MarzbanAPI.authenticate e w0 = (r, w1) ->
            exists ev rest, trace w1 = trace w ++ ev :: rest).
  { intros w0 r w1 ev rest H0 Hr. destruct (authenticate_posts e w0) as (rest' & Ht & _).
    rewrite Hr in Ht. simpl in Ht. rewrite H0, <- app_assoc in Ht. simpl in Ht. eauto. }
  unfold MarzbanAPI.get_cached_token, MarzbanAPI.cache_is_fresh.
  run. case_env; [run; case_env|]; run.
  1: destruct (store w !! MarzbanAPI.token_key) as [t|] eqn:Ht;
      [destruct (store w !! MarzbanAPI.token_expiry_key) as [x|] eqn:Hx;
        [destruct (truthy t && truthy x) eqn:Htr|]|]; run.
  all: repeat first
    [ progress run
    | progress calc
    | case_auth
    | match goal with
      | |- context [match ?x with SText _ => _ | SFloat _ => _ end] => destruct x
      | |- context [if Qltb ?a ?b then _ else _] => destruct (Qltb a b) eqn:?
      | |- context [if is_RedisError ?x then _ else _] => destruct (is_RedisError x)
      end ].
  all: try discriminate.
  all: intros [= <- <-] Htr'.
  all: try (exfalso;
       repeat match goal with
       | H : MarzbanAPI.authenticate _ ?w0 = (_, ?w1) |- _ =>
           first [ apply Hau in H; [|done]
                 | match goal with
                   | H' : exists ev rest, trace w0 = _ ++ ev :: rest |- _ =>
                       destruct H' as (? & ? & H'); apply (Hau2 _ _ _ _ _ H') in H
                   end ]
       end;
       match goal with
       | H : exists ev rest, trace ?w1 = _ ++ ev :: rest |- _ =>
           let ev := fresh "ev" in let rest := fresh "rest" in
           destruct H as (ev & rest & H); rewrite H in Htr';
           by apply (trace_grew [] ev rest) in Htr'
       end).
  exists t, t0. apply andb_true_iff in Htr as [Htr _].
  repeat split; try done. by apply Qltb_lt.
Qed.



Lemma eam_authenticate e : emits_at_most is_post_token 1 (MarzbanAPI.authenticate e).
Proof.
  intros w. destruct (authenticate_posts e w) as (rest & Ht & _ & Hc).
  eexists. split; [exact Ht|]. change (count is_post_token (?a :: ?l)) with (S (count is_post_token l)).
  lia.
Qed.

Lemma eam_get_cached_token e :
  emits_at_most is_post_token 2 (MarzbanAPI.get_cached_token e).
Proof.
  pose proof (eam_authenticate e) as Hau.
  assert (Hq : forall A (m : M A), fp (fun ev => is_post_token ev = false) m ->
                 emits_at_most is_post_token 0 m).
  { intros A m. by apply eam_fp. }
  unfold MarzbanAPI.get_cached_token. apply (eam_bind _ 1 1).
  - apply eam_try_block. apply (eam_bind _ 0 1); [apply Hq; fp_auto|intros token].
    apply (eam_bind _ 0 1); [apply Hq; fp_auto|intros expiry].
    apply (eam_bind _ 0 1); [apply Hq; unfold MarzbanAPI.cache_is_fresh; fp_auto|].
    intros []; [|done]. eapply eam_weaken; [|apply Hq, fp_ret]. lia.
  - intros [tok|x]; [eapply eam_weaken; [|apply Hq, fp_ret]; lia|].
    destruct (is_RedisError x); [done|]. eapply eam_weaken; [|apply Hq, fp_raise]. lia.
Qed.

(** X4: a call of [get_cached_token] sends at most two requests to the
    token endpoint, and two are sent when the store refuses the write of
    the new token: the [RedisError] of the first [authenticate] is caught
    by line 40, which authenticates again. *)
Theorem at_most_two_token_requests :
  (forall e w, count is_post_token (emitted (MarzbanAPI.get_cached_token e) w) <= 2) /\
  count is_post_token (emitted (MarzbanAPI.get_cached_token env_ttl_refused) empty_world) = 2.
Proof.
  split; [|vm_compute; reflexivity].
  intros e w. destruct (eam_get_cached_token e w) as (evs & Ht & Hc).
  by rewrite (emitted_eq _ _ _ Ht).
Qed.

(** X5: with the store unreachable, [get_cached_token] returns no token:
    the fallback of line 42 sends one request to the token endpoint and
    the call raises, with [RedisError] when that request was answered
    (the token cannot be written); the store is unchanged. *)
Theorem store_outage_yields_no_token e w :
  (forall k, store_up e k = false) ->
  exists x,
    (MarzbanAPI.get_cached_token e w).1 = Raise x /\
    emitted (MarzbanAPI.get_cached_token e) w = [EvPostToken (post_token e (S (tick w)))] /\
    store (MarzbanAPI.get_cached_token e w).2 = store w /\
    (forall d, post_token e (S (tick w)) = Ok200 d -> x = RedisError "store unreachable").
Proof.
  intros Hdown. unfold emitted, MarzbanAPI.get_cached_token, MarzbanAPI.authenticate.
  run. rewrite Hdown. run. calc. run.
  destruct (post_token e (S (tick w))) eqn:Hp; run; rewrite ?Hdown; run; calc; run;
    cbn [fst snd trace store]; rewrite drop_app_length;
    eexists; (split; [reflexivity|]); repeat split; done.
Qed.

(** ** The exceptions a call can raise *)

Section Raises.
Variable Q : exn -> Prop.

Lemma ro_ret {A} (a : A) : raises_only Q (ret a).
Proof. by intros w x. Qed.

Lemma ro_raise {A} x : Q x -> raises_only Q (@raise A x).
Proof. by intros Hx w x' [= <-]. Qed.

Lemma ro_bind {A B} (m : M A) (f : A -> M B) :
  raises_only Q m -> (forall a, raises_only Q (f a)) -> raises_only Q (bind m f).
Proof.
  intros Hm Hf w x. rewrite run_bind. specialize (Hm w).
  destruct (m w) as [[a|x'] w1]; simpl in *; [apply Hf | intros [= <-]; auto].
Qed.

Lemma ro_try_block {A} (m : M A) : raises_only Q (try_block m).
Proof. intros w x. by rewrite try_block_run. Qed.

Lemma ro_next_tick : raises_only Q next_tick.
Proof. by intros w x. Qed.

Lemma ro_emit ev : raises_only Q (emit ev).
Proof. by intros w x. Qed.

Lemma ro_sleep d : raises_only Q (sleep d).
Proof. apply ro_emit. Qed.

Lemma ro_send_message m : raises_only Q (send_message m).
Proof. apply ro_emit. Qed.

Lemma ro_time_time e : raises_only Q (time_time e).
Proof. by intros w x. Qed.

Lemma ro_datetime_now e : raises_only Q (datetime_now e).
Proof. by intros w x. Qed.

Lemma ro_py_float v : (forall m, Q (ValueError m)) -> raises_only Q (py_float v).
Proof. intros HQ. destruct v; [by apply ro_raise | apply ro_ret]. Qed.

Lemma ro_redis_get e key : (forall m, Q (RedisError m)) -> raises_only Q (redis_get e key).
Proof. intros HQ w x. rewrite run_redis_get. destruct (store_up e _); [done|]. by intros [= <-]. Qed.

Lemma ro_redis_set e key v ex :
  (forall m, Q (RedisError m)) -> raises_only Q (redis_set e key v ex).
Proof.
  intros HQ w x. rewrite run_redis_set. destruct (store_up e _); [|by intros [= <-]].
  destruct (match ex with Some t => ttl_ok e t | None => true end); [done|]. by intros [= <-].
Qed.

Lemma ro_redis_delete e key :
  (forall m, Q (RedisError m)) -> raises_only Q (redis_delete e key).
Proof.
  intros HQ w x. rewrite run_redis_delete. destruct (store_up e _); [done|]. by intros [= <-].
Qed.

Lemma ro_exchange {A} (answer : nat -> Reply A) log :
  (forall m, Q (RequestError m)) -> (forall m, Q (HTTPStatusError m)) ->
  (forall m, Q (ValueError m)) -> raises_only Q (exchange answer log).
Proof.
  intros H1 H2 H3 w x. rewrite run_exchange. simpl.
  destruct (answer (tick w)); [done|by intros [= <-]..].
Qed.

(** The shape of the handlers of [marzban_api.py]: an exception of the
    kind [p] is replaced, any other is raised again. *)
Lemma ro_handler {A} (p : exn -> bool) (m : M A) (h : exn -> M A) :
  (forall x, p x = true -> raises_only Q (h x)) ->
  raises_only (fun x => p x = false -> Q x) m ->
  raises_only Q
    (bind (try_block m)
       (fun r => match r with
                 | Ok a => ret a
                 | Raise x => if p x then h x else raise x
                 end)).
Proof.
  intros Hh Hm w x. rewrite run_bind, try_block_run. specialize (Hm w).
  destruct (m w) as [[a|x'] w1]; simpl in *; [done|].
  destruct (p x') eqn:Hp; [by apply Hh|]. intros [= <-]. auto.
Qed.

End Raises.

Ltac ro_step :=
  first
    [ assumption | apply ro_ret | apply ro_try_block | apply ro_next_tick | apply ro_time_time
    | apply ro_datetime_now | apply ro_sleep | apply ro_send_message
    | apply ro_py_float; [by intros]
    | apply ro_redis_get; [by intros] | apply ro_redis_set; [by intros]
    | apply ro_redis_delete; [by intros]
    | apply ro_exchange; by intros
    | apply ro_raise; done
    | apply ro_bind; [| intros ?]
    | match goal with |- raises_only _ (match ?x with _ => _ end) => destruct x end ].

Ltac ro_auto := repeat ro_step.

Lemma ro_authenticate e :
  raises_only (fun x => is_HTTPError x = false) (MarzbanAPI.authenticate e).
Proof.
  unfold MarzbanAPI.authenticate.
  apply (ro_handler _ is_HTTPError _ (fun x => raise (Exception ("Authentication failed: " +:+ exn_str x)))).
  - intros x _. by apply ro_raise.
  - ro_auto.
Qed.

Lemma ro_get_cached_token e :
  raises_only (fun x => is_HTTPError x = false) (MarzbanAPI.get_cached_token e).
Proof.
  pose proof (ro_authenticate e) as Hau.
  unfold MarzbanAPI.get_cached_token.
  apply (ro_handler _ is_RedisError _ (fun _ => MarzbanAPI.authenticate e)).
  - by intros x _.
  - assert (Hau' : raises_only (fun x => is_RedisError x = false -> is_HTTPError x = false)
                     (MarzbanAPI.authenticate e)).
    { intros w x Hx _. by apply (Hau w). }
    unfold MarzbanAPI.cache_is_fresh. ro_auto.
Qed.

Lemma ro_get_node e id :
  raises_only (fun x => is_HTTPError x = false) (MarzbanAPI.get_node e id).
Proof.
  unfold MarzbanAPI.get_node.
  apply (ro_handler _ is_HTTPError _
           (fun x => raise (Exception ("Failed to retrieve node " +:+ id +:+ ": " +:+ exn_str x)))).
  - intros x _. by apply ro_raise.
  - ro_auto.
Qed.

Lemma ro_reconnect_node e id :
  raises_only (fun x => is_HTTPError x = false) (MarzbanAPI.reconnect_node e id).
Proof.
  unfold MarzbanAPI.reconnect_node.
  apply (ro_handler _ is_HTTPError _
           (fun x => raise (Exception ("Failed to reconnect node " +:+ id +:+ ": " +:+ exn_str x)))).
  - intros x _. by apply ro_raise.
  - ro_auto.
Qed.

Lemma ro_get_nodes_from e delay n :
  raises_only (fun x => is_RequestError x = false) (MarzbanAPI.get_nodes_from e delay n).
Proof.
  induction n as [|n IH]; simpl; [by apply ro_raise|].
  apply (ro_handler _ is_RequestError _
           (fun _ => bind (sleep delay) (fun _ => MarzbanAPI.get_nodes_from e delay n))).
  - intros x _. ro_auto.
  - ro_auto.
Qed.

(** X6: no [httpx.HTTPError] leaves [authenticate], [get_cached_token],
    [get_node] or [reconnect_node]: whatever they raise is not an instance
    of it (lines 71-73, 113-115, 126-128 replace it by a plain
    [Exception]). *)
Theorem http_errors_are_wrapped e id w x :
  (MarzbanAPI.authenticate e w).1 = Raise x \/
  (MarzbanAPI.get_cached_token e w).1 = Raise x \/
  (MarzbanAPI.get_node e id w).1 = Raise x \/
  (MarzbanAPI.reconnect_node e id w).1 = Raise x ->
  is_HTTPError x = false.
Proof.
  intros [H|[H|[H|H]]].
  - exact (ro_authenticate e w x H).
  - exact (ro_get_cached_token e w x H).
  - exact (ro_get_node e id w x H).
  - exact (ro_reconnect_node e id w x H).
Qed.

(** ** The listing and its retries *)

Lemma get_nodes_from_no_reply e delay n w :
  store_reachable e -> auth_succeeds e -> store_wf (store w) ->
  (forall k, nodes_reply e k = NoReply) ->
  exists evs,
    trace (MarzbanAPI.get_nodes_from e delay n w).2 = trace w ++ evs /\
    (MarzbanAPI.get_nodes_from e delay n w).1 =
      Raise (Exception "Exceeded maximum retries for get_nodes") /\
    count is_get_nodes evs = n /\
    List.filter is_sleep evs = repeat (EvSleep delay) n.
Proof.
  intros Hup Hauth Hwf Hno. revert w Hwf.
  induction n as [|n IH]; intros w Hwf; simpl.
  { exists []. by rewrite app_nil_r. }
  unfold MarzbanAPI.get_auth_headers. run.
  destruct (get_cached_token_nominal e Hup Hauth w Hwf) as (tok & Htok).
  pose proof (get_cached_token_ext e w) as Hext.
  destruct (MarzbanAPI.get_cached_token e w) as [r w1]. simpl in Htok, Hext. subst r.
  run. rewrite Hno. calc. run.
  match goal with |- context [MarzbanAPI.get_nodes_from e delay n ?w0] =>
    destruct (IH w0) as (evs & Ht & Hr & Hc & Hs) end.
  { cbn [store]. eapply ext_wf; [|exact Hext|done]. apply token_event_sane. }
  destruct Hext as (toks & Htoks & Hall & _).
  exists (toks ++ [EvGetNodes NoReply; EvSleep delay] ++ evs).
  split; [rewrite Ht; cbn [trace]; rewrite Htoks, <- !app_assoc; done|].
  split; [done|].
  rewrite count_app, List.filter_app.
  rewrite (count_none is_get_nodes token_event toks) by (done || by intros ev []).
  assert (Hnil : List.filter is_sleep toks = []).
  { clear -Hall. induction Hall as [|ev toks Hev _ IHt]; [done|]. simpl.
    by destruct Hev. }
  rewrite Hnil. change (count is_get_nodes ([EvGetNodes NoReply; EvSleep delay] ++ evs))
    with (S (count is_get_nodes evs)). simpl. by rewrite Hc, Hs.
Qed.

(** X7: when no request to the listing endpoint is answered (and the
    token is obtained each time), [get_nodes] with [n] retries sends [n]
    requests, sleeps [delay] seconds after each of them, the last one
    included, and raises "Exceeded maximum retries for get_nodes". *)
Theorem get_nodes_gives_up e delay n w :
  store_reachable e -> auth_succeeds e -> store_wf (store w) ->
  (forall k, nodes_reply e k = NoReply) ->
  (MarzbanAPI.get_nodes_from e delay n w).1 =
    Raise (Exception "Exceeded maximum retries for get_nodes") /\
  count is_get_nodes (emitted (MarzbanAPI.get_nodes_from e delay n) w) = n /\
  List.filter is_sleep (emitted (MarzbanAPI.get_nodes_from e delay n) w) =
    repeat (EvSleep delay) n.
Proof.
  intros Hup Hauth Hwf Hno.
  destruct (get_nodes_from_no_reply e delay n w Hup Hauth Hwf Hno) as (evs & Ht & Hr & Hc & Hs).
  by rewrite (emitted_eq _ _ _ Ht).
Qed.

Lemma get_nodes_from_refused e delay n w tok w1 x :
  MarzbanAPI.get_cached_token e w = (Ok tok, w1) ->
  listing_refused (nodes_reply e (tick w1)) = Some x ->
  MarzbanAPI.get_nodes_from e delay (S n) w =
    (Raise x, mkWorld (store w1) (trace w1 ++ [EvGetNodes (nodes_reply e (tick w1))])
                (S (tick w1))).
Proof.
  intros Htok Hx. simpl. unfold MarzbanAPI.get_auth_headers. run. rewrite Htok. run.
  destruct (nodes_reply e (tick w1)) as [[ns|]| | |]; simpl in Hx; try discriminate;
    injection Hx as <-; run; calc; run; done.
Qed.

(** X8: an answer of the listing endpoint that is an error status, not
    JSON or not a list is not retried: [get_nodes] raises at once the
    corresponding exception ([HTTPStatusError] or [ValueError]) after that
    one request, without sleeping. *)
Theorem get_nodes_fails_fast e delay n w tok w1 x :
  MarzbanAPI.get_cached_token e w = (Ok tok, w1) ->
  listing_refused (nodes_reply e (tick w1)) = Some x ->
  MarzbanAPI.get_nodes_from e delay (S n) w =
    (Raise x, mkWorld (store w1) (trace w1 ++ [EvGetNodes (nodes_reply e (tick w1))])
                (S (tick w1))) /\
  count is_get_nodes (emitted (MarzbanAPI.get_nodes_from e delay (S n)) w) = 1 /\
  count is_sleep (emitted (MarzbanAPI.get_nodes_from e delay (S n)) w) = 0.
Proof.
  intros Htok Hx. pose proof (get_nodes_from_refused e delay n w tok w1 x Htok Hx) as Hrun.
  split; [done|].
  pose proof (get_cached_token_ext e w) as (toks & Ht & Hall & _).
  rewrite Htok in Ht. simpl in Ht.
  rewrite (emitted_eq _ _ (toks ++ [EvGetNodes (nodes_reply e (tick w1))]))
    by (rewrite Hrun; cbn [snd trace]; by rewrite Ht, <- app_assoc).
  rewrite !count_app.
  rewrite (count_none is_get_nodes token_event toks) by (done || by intros ev []).
  rewrite (count_none is_sleep token_event toks) by (done || by intros ev []).
  done.
Qed.

Lemma get_nodes_from_token_failure e delay n w x w1 :
  MarzbanAPI.get_cached_token e w = (Raise x, w1) ->
  MarzbanAPI.get_nodes_from e delay (S n) w = (Raise x, w1).
Proof.
  intros Htok. pose proof (ro_get_cached_token e w x) as Hx. rewrite Htok in Hx.
  specialize (Hx eq_refl). simpl. unfold MarzbanAPI.get_auth_headers. run.
  rewrite Htok. run. destruct x; try discriminate; calc; run; done.
Qed.

(** X9: when the token cannot be obtained, [get_nodes] raises what
    [get_cached_token] raised, in the world that call left: no request to
    the listing endpoint, no sleep, no second try. *)
Theorem token_failure_is_not_retried e delay n w x w1 :
  MarzbanAPI.get_cached_token e w = (Raise x, w1) ->
  MarzbanAPI.get_nodes_from e delay (S n) w = (Raise x, w1) /\
  count is_get_nodes (emitted (MarzbanAPI.get_nodes_from e delay (S n)) w) = 0 /\
  count is_sleep (emitted (MarzbanAPI.get_nodes_from e delay (S n)) w) = 0.
Proof.
  intros Htok. pose proof (get_nodes_from_token_failure e delay n w x w1 Htok) as Hrun.
  split; [done|].
  pose proof (get_cached_token_ext e w) as (toks & Ht & Hall & _).
  rewrite Htok in Ht. simpl in Ht.
  rewrite (emitted_eq _ _ toks) by (by rewrite Hrun).
  split; eapply count_none; eauto; by intros ev [].
Qed.

Lemma eam_get_nodes_from e delay n :
  emits_at_most is_get_nodes n (MarzbanAPI.get_nodes_from e delay n) /\
  emits_at_most is_sleep n (MarzbanAPI.get_nodes_from e delay n) /\
  emits_at_most is_post_token (n + n) (MarzbanAPI.get_nodes_from e delay n).
Proof.
  assert (Hq : forall p A (m : M A), fp (fun ev => p ev = false) m -> emits_at_most p 0 m).
  { intros p A m. by apply eam_fp. }
  assert (Htok : forall p, (forall ev, token_event ev -> p ev = false) ->
            emits_at_most p 0 (MarzbanAPI.get_cached_token e)).
  { intros p Hp. apply Hq. by apply fp_get_cached_token. }
  induction n as [|n (IH1 & IH2 & IH3)]; simpl.
  { repeat split; apply Hq, fp_raise. }
  unfold MarzbanAPI.get_auth_headers. repeat split.
  - apply (eam_bind _ 1 n).
    + apply eam_try_block. apply (eam_bind _ 0 1); [apply Htok; by intros ev []|intros _].
      apply (eam_bind _ 1 0); [apply eam_exchange|intros [ns|]; apply Hq; fp_auto].
    + intros [ns|x]; [eapply eam_weaken; [|apply Hq, fp_ret]; lia|].
      destruct (is_RequestError x); [|eapply eam_weaken; [|apply Hq, fp_raise]; lia].
      apply (eam_bind _ 0 n); [apply Hq; by apply fp_sleep|by intros _].
  - apply (eam_bind _ 0 (S n)).
    + apply eam_try_block. apply Hq. apply fp_bind; [by apply fp_get_cached_token; intros ev []|intros _].
      apply fp_bind; [by apply fp_exchange|intros [ns|]; fp_auto].
    + intros [ns|x]; [eapply eam_weaken; [|apply Hq, fp_ret]; lia|].
      destruct (is_RequestError x); [|eapply eam_weaken; [|apply Hq, fp_raise]; lia].
      apply (eam_bind _ 1 n); [|by intros _].
      intros w. rewrite run_sleep. eexists. split; [reflexivity|]. done.
  - eapply eam_weaken; [|apply (eam_bind _ 2 (n + n))]; [lia|..].
    + apply eam_try_block. replace 2 with (2 + 0) by lia.
      apply (eam_bind _ 2 0); [apply eam_get_cached_token|intros _].
      apply Hq. apply fp_bind; [by apply fp_exchange|intros [ns|]; fp_auto].
    + intros [ns|x]; [eapply eam_weaken; [|apply Hq, fp_ret]; lia|].
      destruct (is_RequestError x); [|eapply eam_weaken; [|apply Hq, fp_raise]; lia].
      apply (eam_bind _ 0 (n + n)); [apply Hq; by apply fp_sleep|by intros _].
Qed.

(** X10: whatever the collaborators answer, [get_nodes()] sends at most 3
    requests to the listing endpoint, sleeps at most 3 times and sends at
    most 6 requests to the token endpoint. *)
Theorem get_nodes_is_bounded e w :
  count is_get_nodes (emitted (MarzbanAPI.get_nodes e) w) <= 3 /\
  count is_sleep (emitted (MarzbanAPI.get_nodes e) w) <= 3 /\
  count is_post_token (emitted (MarzbanAPI.get_nodes e) w) <= 6.
Proof.
  destruct (eam_get_nodes_from e 5 3) as (H1 & H2 & H3). unfold MarzbanAPI.get_nodes.
  destruct (H1 w) as (evs1 & Ht1 & Hc1). destruct (H2 w) as (evs2 & Ht2 & Hc2).
  destruct (H3 w) as (evs3 & Ht3 & Hc3).
  rewrite (emitted_eq _ _ _ Ht1) at 1. rewrite (emitted_eq _ _ _ Ht2) at 1.
  rewrite (emitted_eq _ _ _ Ht3). simpl in Hc3. done.
Qed.

(** X11: the list [get_nodes] returns is the body of its last request to
    the listing endpoint, the last effect of the call; every earlier
    request to that endpoint was left without answer. *)
Theorem listing_comes_from_last_request e delay n w ns w' :
  MarzbanAPI.get_nodes_from e delay n w = (Ok ns, w') ->
  exists before,
    trace w' = trace w ++ before ++ [EvGetNodes (Ok200 (NodeList ns))] /\
    Forall (fun ev => is_get_nodes ev = true -> ev = EvGetNodes NoReply) before /\
    nodes_reply e (Nat.pred (tick w')) = Ok200 (NodeList ns).
Proof.
  revert w. induction n as [|n IH]; intros w; simpl; [done|].
  unfold MarzbanAPI.get_auth_headers. run.
  pose proof (get_cached_token_ext e w) as (toks & Ht & Hall & _).
  assert (Htoks : Forall (fun ev => is_get_nodes ev = true -> ev = EvGetNodes NoReply) toks).
  { eapply Forall_impl; [exact Hall|]. by intros ev []. }
  destruct (MarzbanAPI.get_cached_token e w) as [[tok|x] w1]; simpl in Ht; run.
  - destruct (nodes_reply e (tick w1)) as [[ns'|]| | |] eqn:Hr; run; calc; run; try done.
    + intros [= <- <-]. exists toks. cbn [trace tick Nat.pred]. rewrite Ht, <- app_assoc. done.
    + intros Hrec. apply IH in Hrec as (before & Ht' & Hb & Hlast). cbn [trace] in Ht'.
      exists (toks ++ [EvGetNodes NoReply; EvSleep delay] ++ before).
      split; [rewrite Ht', Ht, <- !app_assoc; done|]. split; [|done].
      apply Forall_app. split; [done|]. apply Forall_app. split; [|done].
      by repeat constructor.
  - destruct (is_RequestError x); run; [|done].
    intros Hrec. apply IH in Hrec as (before & Ht' & Hb & Hlast). cbn [trace] in Ht'.
    exists (toks ++ [EvSleep delay] ++ before).
    split; [rewrite Ht', Ht, <- !app_assoc; done|]. split; [|done].
    apply Forall_app. split; [done|]. apply Forall_app. split; [|done].
    by repeat constructor.
Qed.

(** ** Nodes that cannot be fetched, listings that fail *)

Lemma get_node_ok_reply e id w d w1 :
  MarzbanAPI.get_node e id w = (Ok d, w1) ->
  node_reply e (Nat.pred (tick w1)) id = Ok200 d.
Proof.
  unfold MarzbanAPI.get_node, MarzbanAPI.get_auth_headers. run.
  destruct (MarzbanAPI.get_cached_token e w) as [[tok|x] w0]; run.
  - destruct (node_reply e (tick w0) id) eqn:Hr; calc; run; try done.
    by intros [= <- <-].
  - by destruct (is_HTTPError x).
Qed.

Lemma read_event_quiet ev :
  read_event ev ->
  is_send ev = false /\ is_reconnect ev = false /\ is_sleep ev = false /\
  (forall id, ~ touches (NodeMonitor.get_node_status_key id) ev) /\
  (forall id, ~ touches (NodeMonitor.get_node_disconnect_time_key id) ev).
Proof.
  intros (id & H). repeat split.
  1-3: by destruct H as [ev []|].
  - intros id'. by eapply fetch_event_status_key.
  - intros id'. by eapply fetch_event_time_key.
Qed.

Lemma process_nodes_unreachable cfg e nodes w :
  (forall k id d, node_reply e k id <> Ok200 d) ->
  exists w', NodeMonitor.process_nodes cfg e nodes w = (Ok tt, w') /\ ext read_event w w'.
Proof.
  intros Hno. revert w. induction nodes as [|node nodes IH]; intros w; simpl.
  { exists w. split; [done|apply ext_refl]. }
  pose proof (get_node_ext e (node_id node) w) as Hext.
  destruct (MarzbanAPI.get_node e (node_id node) w) as [[d|x] w1] eqn:Hget.
  { apply get_node_ok_reply in Hget. by destruct (Hno _ _ _ Hget). }
  rewrite run_bind, (process_node_skipped _ _ _ _ _ _ Hget).
  destruct (IH w1) as (w' & Hrun & Hext'). exists w'. split; [done|].
  eapply ext_trans; [|exact Hext']. eapply ext_mono; [|exact Hext].
  intros ev Hev. by exists (node_id node).
Qed.

(** X12: when no fetch of a node is answered with a body, the loop over
    the listing skips every node and raises nothing: nothing is sent, no
    reconnect is asked, and the record of every node is what it was
    (whatever the store and the token endpoint do). *)
Theorem unreachable_nodes_are_skipped cfg e nodes w id :
  (forall k id d, node_reply e k id <> Ok200 d) ->
  (NodeMonitor.process_nodes cfg e nodes w).1 = Ok tt /\
  count is_send (emitted (NodeMonitor.process_nodes cfg e nodes) w) = 0 /\
  count is_reconnect (emitted (NodeMonitor.process_nodes cfg e nodes) w) = 0 /\
  store (NodeMonitor.process_nodes cfg e nodes w).2 !! NodeMonitor.get_node_status_key id =
    store w !! NodeMonitor.get_node_status_key id /\
  store (NodeMonitor.process_nodes cfg e nodes w).2
    !! NodeMonitor.get_node_disconnect_time_key id =
    store w !! NodeMonitor.get_node_disconnect_time_key id.
Proof.
  intros Hno. destruct (process_nodes_unreachable cfg e nodes w Hno) as (w' & Hrun & Hext).
  unfold emitted. rewrite Hrun. cbn [fst snd]. split; [done|].
  pose proof Hext as (evs & Ht & Hall & _). rewrite Ht, drop_app_length.
  split; [eapply count_none; [|exact Hall]; intros ev Hev; by apply read_event_quiet|].
  split; [eapply count_none; [|exact Hall]; intros ev Hev; by apply read_event_quiet|].
  split; (eapply ext_lookup; [|exact Hext]); intros ev Hev; by apply read_event_quiet.
Qed.

Lemma get_nodes_quiet e w :
  ext (fun ev => is_get_node ev = false /\ is_reconnect ev = false /\ is_send ev = false)
    w (MarzbanAPI.get_nodes e w).2.
Proof.
  apply fp_get_nodes_from; [by intros ev []|done..].
Qed.

(** X13: a cycle whose [get_nodes] raises [x] sends one MonitorFailure
    notification carrying [str(x)] ("Timeout while retrieving nodes" for a
    [TimeoutError]), sleeps [sleep_interval] and is over: no node is
    fetched, no reconnect is asked, nothing else is sent. *)
Theorem failed_listing_is_reported cfg e w x w1 :
  MarzbanAPI.get_nodes e (ticked w) = (Raise x, w1) ->
  NodeMonitor.cycle cfg e w =
    (Ok tt,
     mkWorld (store w1)
       (trace w1 ++
        [EvSend (ERROR_MONITOR_FAILURE
                   (if is_TimeoutError x then "Timeout while retrieving nodes" else exn_str x)
                   (clock e (tick w1)));
         EvSleep (sleep_interval cfg)])
       (S (tick w1))) /\
  count is_get_node (emitted (NodeMonitor.cycle cfg e) w) = 0 /\
  count is_reconnect (emitted (NodeMonitor.cycle cfg e) w) = 0 /\
  count is_send (emitted (NodeMonitor.cycle cfg e) w) = 1.
Proof.
  intros Hget.
  assert (Hrun : NodeMonitor.cycle cfg e w =
    (Ok tt,
     mkWorld (store w1)
       (trace w1 ++
        [EvSend (ERROR_MONITOR_FAILURE
                   (if is_TimeoutError x then "Timeout while retrieving nodes" else exn_str x)
                   (clock e (tick w1)));
         EvSleep (sleep_interval cfg)])
       (S (tick w1)))).
  { unfold NodeMonitor.cycle, NodeMonitor.cycle_body, NodeMonitor.fetch_listing,
      NodeMonitor.listing_failed.
    run. rewrite Hget. destruct (is_TimeoutError x); run; by rewrite <- app_assoc. }
  split; [done|].
  pose proof (get_nodes_quiet e (ticked w)) as (evs & Ht & Hall & _).
  rewrite Hget in Ht. cbn [snd ticked trace] in Ht.
  unfold emitted. rewrite Hrun. cbn [snd trace]. rewrite Ht, <- app_assoc, drop_app_length.
  rewrite !count_app.
  rewrite (count_none is_get_node _ evs (fun ev H => proj1 H) Hall).
  rewrite (count_none is_reconnect _ evs (fun ev H => proj1 (proj2 H)) Hall).
  rewrite (count_none is_send _ evs (fun ev H => proj2 (proj2 H)) Hall).
  done.
Qed.

(** X14: with the store unreachable and the token endpoint answering, the
    effects of a cycle are the request to the token endpoint, one
    MonitorFailure notification "store unreachable" and the sleep of
    [sleep_interval]; the store is unchanged. *)
Theorem store_outage_cycle cfg e w d :
  (forall k, store_up e k = false) ->
  post_token e (2 + tick w) = Ok200 d ->
  (NodeMonitor.cycle cfg e w).1 = Ok tt /\
  emitted (NodeMonitor.cycle cfg e) w =
    [EvPostToken (Ok200 d);
     EvSend (ERROR_MONITOR_FAILURE "store unreachable" (clock e (4 + tick w)));
     EvSleep (sleep_interval cfg)] /\
  store (NodeMonitor.cycle cfg e w).2 = store w.
Proof.
  intros Hdown Hd. simpl in Hd.
  unfold emitted, NodeMonitor.cycle, NodeMonitor.cycle_body, NodeMonitor.fetch_listing,
    NodeMonitor.listing_failed, MarzbanAPI.get_nodes.
  simpl MarzbanAPI.get_nodes_from.
  unfold MarzbanAPI.get_auth_headers, MarzbanAPI.get_cached_token, MarzbanAPI.authenticate.
  repeat first [progress run | rewrite Hdown | rewrite Hd | progress calc].
  cbn [fst snd trace store]. rewrite <- !app_assoc, drop_app_length. done.
Qed.

(** ** The loop as a whole *)

#[local] Hint Constructors loop_event : fp.

Section Loop.
Variable cfg : Config.
Variable e : Env.

Lemma fp_loop_process_nodes nodes : fp loop_event (NodeMonitor.process_nodes cfg e nodes).
Proof.
  induction nodes as [|node nodes IH]; simpl; [apply fp_ret|].
  apply fp_bind; [|by intros _].
  intros w. eapply ext_mono; [|apply fp_process_node]. intros ev. apply le_node.
Qed.

Lemma fp_loop_cycle : fp loop_event (NodeMonitor.cycle cfg e).
Proof.
  pose proof fp_loop_process_nodes as Hnodes.
  assert (Hlist : forall d n, fp loop_event (MarzbanAPI.get_nodes_from e d n)).
  { intros. apply fp_get_nodes_from; auto with fp. }
  unfold NodeMonitor.cycle, NodeMonitor.cycle_body, NodeMonitor.fetch_listing,
    NodeMonitor.listing_failed, MarzbanAPI.get_nodes.
  fp_auto.
Qed.

Lemma fp_loop_cycles n : fp loop_event (NodeMonitor.cycles cfg e n).
Proof.
  induction n as [|n IH]; simpl; [apply fp_ret|].
  pose proof fp_loop_cycle. fp_auto.
Qed.

Lemma cycles_total n w : (NodeMonitor.cycles cfg e n w).1 = Ok tt.
Proof.
  revert w. induction n as [|n IH]; intros w; [done|]. by rewrite cycles_step.
Qed.

End Loop.

Lemma loop_event_not_start ev : loop_event ev -> is_monitor_start ev = false.
Proof.
  intros [ev' []| |node ev' [ev'' [ev3 []| | | | | |]| | |m Hm]| |]; try done.
  by destruct m.
Qed.

Lemma loop_event_sane ev : loop_event ev -> sane ev.
Proof.
  intros [ev' H| |node ev' H| |]; try done;
    eauto using token_event_sane, node_event_sane.
Qed.

Lemma token_event_sets_disconnected ev : token_event ev -> sets_disconnected ev.
Proof. intros []; simpl; try done; intros id H; discriminate H. Qed.

Lemma loop_event_sets_disconnected ev : loop_event ev -> sets_disconnected ev.
Proof.
  intros [ev' H| |node ev' [ev'' [ev3 H| | | | | |]| | |m Hm]| |]; simpl; try done.
  all: by apply token_event_sets_disconnected.
Qed.

Lemma replay_status_wf evs s :
  Forall sets_disconnected evs -> status_wf s -> status_wf (replay evs s).
Proof.
  intros Hall. revert s. induction Hall as [|ev evs Hev _ IH]; intros s Hwf; [done|].
  unfold replay in *. simpl. apply IH. clear IH.
  destruct ev; simpl in *; try done.
  - intros id v' Hk. destruct (decide (key = NodeMonitor.get_node_status_key id)) as [->|Hne].
    + rewrite lookup_insert_eq in Hk. injection Hk as <-. eauto.
    + rewrite lookup_insert_ne in Hk by done. eauto.
  - intros id v' Hk. destruct (decide (key = NodeMonitor.get_node_status_key id)) as [->|Hne].
    + by rewrite lookup_delete_eq in Hk.
    + rewrite lookup_delete_ne in Hk by done. eauto.
Qed.

(** X15: [monitor] raises nothing, whatever the collaborators do and
    however many cycles it runs; its first effect is the MONITOR_START
    message, which is sent nowhere else. *)
Theorem monitor_announces_once cfg e n w :
  exists rest,
    (NodeMonitor.monitor cfg e n w).1 = Ok tt /\
    emitted (NodeMonitor.monitor cfg e n) w = EvSend MONITOR_START :: rest /\
    count is_monitor_start rest = 0.
Proof.
  unfold emitted, NodeMonitor.monitor. run.
  match goal with |- context [NodeMonitor.cycles cfg e n ?w0] =>
    pose proof (cycles_total cfg e n w0) as Hok;
    pose proof (fp_loop_cycles cfg e n w0) as (rest & Ht & Hall & _) end.
  exists rest. split; [done|]. rewrite Ht. cbn [trace].
  rewrite <- app_assoc, drop_app_length. split; [done|].
  eapply count_none; [|exact Hall]. apply loop_event_not_start.
Qed.

(** X16: the loop keeps the store typed.  If every disconnect-time key
    and the token expiry key hold a number and every status key holds
    [disconnected], the same is true after any number of cycles, whatever
    the collaborators answer: [float(disconnect_time)] of line 121 and
    [float(expiry)] of line 35 find a number. *)
Theorem stored_values_stay_typed cfg e n w :
  store_wf (store w) -> status_wf (store w) ->
  store_wf (store (NodeMonitor.cycles cfg e n w).2) /\
  status_wf (store (NodeMonitor.cycles cfg e n w).2).
Proof.
  intros Hwf Hst. pose proof (fp_loop_cycles cfg e n w) as (evs & _ & Hall & -> & _).
  split.
  - apply replay_wf; [|done]. eapply Forall_impl; [exact Hall|]. apply loop_event_sane.
  - apply replay_status_wf; [|done]. eapply Forall_impl; [exact Hall|].
    apply loop_event_sets_disconnected.
Qed.

(** ** One node at a time *)

Lemma node_event_about node ev : node_event node ev -> about_node node ev.
Proof.
  intros [ev' [ev'' []| | | | | |]| | |m Hm]; simpl; auto.
Qed.

(** X17: the handling of a node concerns that node only.  Every message
    it sends carries the name of the node, every fetch and reconnect
    request its id, every write goes to one of its two keys or to the
    credential cache; the record of a node of another id is left as it
    was. *)
Theorem handling_concerns_one_node cfg e node w id :
  id <> node_id node ->
  store (NodeMonitor.process_node cfg e node w).2 !! NodeMonitor.get_node_status_key id =
    store w !! NodeMonitor.get_node_status_key id /\
  store (NodeMonitor.process_node cfg e node w).2
    !! NodeMonitor.get_node_disconnect_time_key id =
    store w !! NodeMonitor.get_node_disconnect_time_key id /\
  Forall (about_node node) (emitted (NodeMonitor.process_node cfg e node) w).
Proof.
  intros Hne. pose proof (fp_process_node cfg e node w) as Hext.
  apply (ext_mono _ (about_node node)) in Hext; [|apply node_event_about].
  split; [|split].
  - eapply ext_lookup; [|exact Hext]. intros [] Hab Ht; simpl in *; try done; subst key;
      destruct Hab as [H|[H|[H|H]]]; try discriminate H.
    all: try by apply status_key_inj in H.
  - eapply ext_lookup; [|exact Hext]. intros [] Hab Ht; simpl in *; try done; subst key;
      destruct Hab as [H|[H|[H|H]]]; try discriminate H.
    all: by apply time_key_inj in H.
  - by apply ext_emitted in Hext as (_ & Hall & _).
Qed.

Lemma token_event_no_alert node ev : token_event ev -> no_alert node ev.
Proof. intros []; by split. Qed.

#[local] Hint Resolve token_event_no_alert : fp.
#[local] Hint Extern 1 (no_alert _ _) => (split; reflexivity) : fp.

Section Recorded.
Variable cfg : Config.
Variable e : Env.
Variable node : Node.

Local Abbreviation status_key := (NodeMonitor.get_node_status_key (node_id node)).
Local Abbreviation time_key := (NodeMonitor.get_node_disconnect_time_key (node_id node)).

Lemma fp_no_alert_recover : fp (no_alert node) (NodeMonitor.recover cfg e node).
Proof.
  assert (Hloop : forall n i, fp (no_alert node) (NodeMonitor.reconnect_loop cfg e node i n)).
  { induction n as [|n IH]; intros i; simpl; [apply fp_ret|].
    unfold NodeMonitor.reconnect_attempt. fp_auto. }
  unfold NodeMonitor.recover. fp_auto.
Qed.

Lemma fp_no_alert_report_recovery :
  fp (no_alert node) (NodeMonitor.report_recovery e node).
Proof. unfold NodeMonitor.report_recovery. fp_auto. Qed.

Lemma reconcile_recorded ns w :
  store w !! status_key = Some (SText "disconnected") ->
  ext (no_alert node) w (NodeMonitor.reconcile cfg e node ns w).2.
Proof.
  intros Hs. unfold NodeMonitor.reconcile. run.
  destruct (store_up e (tick w)); run; [|apply ext_ticked].
  rewrite Hs. calc.
  destruct (String.eqb (default "unknown" (nd_status ns)) "connected"); calc.
  - pose proof (fp_no_alert_report_recovery (ticked w)) as Hr.
    destruct (NodeMonitor.report_recovery e node (ticked w)) as [[[]|x] w1];
      run; (eapply ext_trans; [apply ext_ticked|exact Hr]).
  - run. destruct (String.eqb (default "unknown" (nd_status ns)) "disabled"); calc; run;
      [apply ext_ticked|].
    unfold NodeMonitor.handle_disconnected. run.
    destruct (store_up e (S (S (tick w)))); run;
      [|eapply ext_trans; [apply ext_ticked|]; eapply ext_trans; apply ext_ticked].
    rewrite Hs. calc. run.
    eapply ext_trans; [apply ext_ticked|]. eapply ext_trans; [apply ext_ticked|].
    eapply ext_trans; [apply ext_ticked|]. apply fp_no_alert_recover.
Qed.

(** X18: a node whose stored state is [disconnected] is handled without a
    NodeDisconnected alert and without a write of its disconnect
    timestamp, whatever its fetch returns and whatever the collaborators
    do. *)
Theorem recorded_node_is_not_alerted_again w :
  store w !! status_key = Some (SText "disconnected") ->
  count (is_disconnect_alert (node_name node))
    (emitted (NodeMonitor.process_node cfg e node) w) = 0 /\
  count (is_set_of time_key) (emitted (NodeMonitor.process_node cfg e node) w) = 0.
Proof.
  intros Hs.
  assert (Hext : ext (no_alert node) w (NodeMonitor.process_node cfg e node w).2).
  { pose proof (get_node_ext e (node_id node) w) as Hg.
    apply (ext_mono _ (no_alert node)) in Hg;
      [|intros ev [ev' H|r]; [by apply token_event_no_alert|by split]].
    destruct (get_node_keeps_record e (node_id node) (node_id node) w) as [Hk _].
    destruct (MarzbanAPI.get_node e (node_id node) w) as [[ns|x] w1] eqn:Hget;
      simpl in Hg, Hk.
    - rewrite (process_node_fetched _ _ _ _ _ _ Hget).
      eapply ext_trans; [exact Hg|]. apply reconcile_recorded. by rewrite Hk.
    - by rewrite (process_node_skipped _ _ _ _ _ _ Hget). }
  apply ext_emitted in Hext as (_ & Hall & _).
  split; (eapply count_none; [|exact Hall]); by intros ev [].
Qed.

Lemma reconnect_attempt_break i w w' :
  NodeMonitor.reconnect_attempt cfg e node i w = (Ok true, w') ->
  store w' !! status_key = None /\ store w' !! time_key = None /\
  exists before ts,
    trace w' = trace w ++ before ++
      [seen_connected (node_id node);
       EvSend (SUCCESS_NODE_RECONNECTED_AFTER_ATTEMPTS (node_name node)
                 (NodeMonitor.node_ip node) ts (i + 1));
       EvDelete status_key; EvDelete time_key].
Proof.
  intros Hrun. pose proof (reconnect_attempt_trace cfg e node i w) as Htr.
  pose proof (fp_reconnect_attempt cfg e node i w) as (evs' & Ht' & _ & Hs & _).
  rewrite Hrun in Htr, Ht', Hs. simpl in Ht', Hs.
  destruct Htr as (evs & Ht & before & ts & _ & ->).
  rewrite Ht in Ht'. apply app_inv_head in Ht'. subst evs'.
  rewrite Hs, replay_app. unfold replay at 1 3. simpl.
  split; [|split; [apply lookup_delete_eq|by exists before, ts]].
  rewrite lookup_delete_ne by (symmetry; apply status_key_not_time_key).
  apply lookup_delete_eq.
Qed.

Lemma reconnect_loop_break n i w w' :
  NodeMonitor.reconnect_loop cfg e node i n w = (Ok true, w') ->
  store w' !! status_key = None /\ store w' !! time_key = None /\
  exists before ts k,
    i < k <= i + n /\
    trace w' = trace w ++ before ++
      [seen_connected (node_id node);
       EvSend (SUCCESS_NODE_RECONNECTED_AFTER_ATTEMPTS (node_name node)
                 (NodeMonitor.node_ip node) ts k);
       EvDelete status_key; EvDelete time_key].
Proof.
  revert i w. induction n as [|n IH]; intros i w; simpl; [done|].
  run. destruct (NodeMonitor.reconnect_attempt cfg e node i w) as [[[]|x] w1] eqn:Ha; run.
  - intros [= <-]. apply reconnect_attempt_break in Ha as (H1 & H2 & before & ts & Ht).
    split; [done|]. split; [done|]. exists before, ts, (i + 1). split; [lia|done].
  - pose proof (fp_reconnect_attempt cfg e node i w) as (evs & Ht & _).
    rewrite Ha in Ht. simpl in Ht.
    intros Hl. apply IH in Hl as (H1 & H2 & before & ts & k & Hk & Ht').
    split; [done|]. split; [done|]. exists (evs ++ before), ts, k. split; [lia|].
    by rewrite Ht', Ht, <- !app_assoc.
  - pose proof (fp_reconnect_attempt cfg e node i w) as (evs & Ht & _).
    rewrite Ha in Ht. simpl in Ht.
    intros Hl. apply IH in Hl as (H1 & H2 & before & ts & k & Hk & Ht').
    split; [done|]. split; [done|].
    exists (evs ++ [EvSleep (reconnect_delay cfg)] ++ before), ts, k. split; [lia|].
    cbn [trace] in Ht'. by rewrite Ht', Ht, <- !app_assoc.
Qed.

(** X19: when the loop of the reconnect attempts is left by [break], the
    recovery ends there: both keys of the node are absent from the store,
    no NodeReconnectFailed notification is sent, and the last effects are
    the fetch that saw the node connected, the notification of the
    reconnection, whose [attempts] field lies between 1 and
    [reconnect_attempts], and the two deletions. *)
Theorem reconnection_clears_the_record w w' :
  NodeMonitor.reconnect_loop cfg e node 0 (reconnect_attempts cfg) w = (Ok true, w') ->
  NodeMonitor.recover cfg e node w = (Ok tt, w') /\
  store w' !! status_key = None /\ store w' !! time_key = None /\
  count (is_reconnect_failed (node_name node))
    (emitted (NodeMonitor.recover cfg e node) w) = 0 /\
  exists before ts k,
    1 <= k <= reconnect_attempts cfg /\
    emitted (NodeMonitor.recover cfg e node) w =
      before ++
      [seen_connected (node_id node);
       EvSend (SUCCESS_NODE_RECONNECTED_AFTER_ATTEMPTS (node_name node)
                 (NodeMonitor.node_ip node) ts k);
       EvDelete status_key; EvDelete time_key].
Proof.
  intros Hl.
  assert (Hrun : NodeMonitor.recover cfg e node w = (Ok tt, w')).
  { unfold NodeMonitor.recover. by rewrite run_bind, Hl. }
  pose proof (fp_reconnect_loop cfg e node (reconnect_attempts cfg) 0 w) as (evs & Ht & Hall & _).
  rewrite Hl in Ht. simpl in Ht.
  apply reconnect_loop_break in Hl as (H1 & H2 & before & ts & k & Hk & Ht').
  split; [done|]. split; [done|]. split; [done|].
  unfold emitted. rewrite Hrun. cbn [snd]. split.
  - rewrite Ht, drop_app_length. eapply count_none; [|exact Hall].
    by intros ev [ev' []| | | | | |].
  - exists before, ts, k. split; [lia|]. by rewrite Ht', drop_app_length.
Qed.

End Recorded.

(** ** A fleet in which nothing is wrong *)

Lemma read_event_calm ev : read_event ev -> calm_event ev.
Proof. by left. Qed.

Lemma calm_event_quiet ev :
  calm_event ev ->
  is_send ev = false /\ is_reconnect ev = false /\ is_sleep ev = false /\ sane ev /\
  forall id, ~ touches (NodeMonitor.get_node_status_key id) ev.
Proof.
  intros [H|[r ->]]; [|by repeat split; try done; intros ? []].
  destruct (read_event_quiet ev H) as (H1 & H2 & H3 & H4 & _).
  repeat split; try done. destruct H as (id & H). by eapply fetch_event_sane.
Qed.

Lemma calm_keeps w w' :
  ext calm_event w w' -> store_wf (store w) -> no_record (store w) ->
  store_wf (store w') /\ no_record (store w').
Proof.
  intros Hext Hwf Hno. split.
  - eapply ext_wf; [|exact Hext|done]. intros ev Hev. by apply calm_event_quiet.
  - intros id. erewrite ext_lookup; [apply Hno| |exact Hext].
    intros ev Hev. by apply calm_event_quiet.
Qed.

Section Healthy.
Variable cfg : Config.
Variable e : Env.
Hypothesis Hup : store_reachable e.
Hypothesis Hauth : auth_succeeds e.
Hypothesis Hhealthy : healthy e.
Hypothesis Hlisting : listing_answers e.

Lemma healthy_process_node node w :
  store_wf (store w) -> no_record (store w) ->
  exists w', NodeMonitor.process_node cfg e node w = (Ok tt, w') /\ ext calm_event w w'.
Proof.
  intros Hwf Hno.
  pose proof (get_node_ext e (node_id node) w) as Hext.
  apply (ext_mono _ calm_event) in Hext; [|intros ev Hev; left; by exists (node_id node)].
  destruct (get_node_keeps_record e (node_id node) (node_id node) w) as [Hk _].
  assert (Hget : exists s, (MarzbanAPI.get_node e (node_id node) w).1 =
                             Ok (mkNodeData (Some s)) /\
                           (s = "connected" \/ s = "disabled")).
  { unfold MarzbanAPI.get_node, MarzbanAPI.get_auth_headers. run.
    destruct (get_cached_token_nominal e Hup Hauth w Hwf) as (tok & Htok).
    destruct (MarzbanAPI.get_cached_token e w) as [r w1]. simpl in Htok. subst r. run.
    destruct (Hhealthy (tick w1) (node_id node)) as (s & -> & Hs). run. by exists s. }
  destruct Hget as (s & Hget & Hs).
  destruct (MarzbanAPI.get_node e (node_id node) w) as [r w1] eqn:Hg.
  simpl in Hget, Hext, Hk. subst r.
  rewrite (process_node_fetched _ _ _ _ _ _ Hg). unfold NodeMonitor.reconcile.
  run. rewrite Hup. run. rewrite Hk, Hno. cbn [nd_status]. calc. run.
  exists (ticked w1). split.
  - by destruct Hs as [-> | ->].
  - eapply ext_trans; [exact Hext|apply ext_ticked].
Qed.

Lemma healthy_process_nodes nodes w :
  store_wf (store w) -> no_record (store w) ->
  exists w', NodeMonitor.process_nodes cfg e nodes w = (Ok tt, w') /\ ext calm_event w w'.
Proof.
  revert w. induction nodes as [|node nodes IH]; intros w Hwf Hno; simpl.
  { exists w. split; [done|apply ext_refl]. }
  destruct (healthy_process_node node w Hwf Hno) as (w1 & Hrun & Hext).
  destruct (calm_keeps _ _ Hext Hwf Hno) as [Hwf1 Hno1].
  destruct (IH w1 Hwf1 Hno1) as (w2 & Hrun2 & Hext2).
  exists w2. rewrite run_bind, Hrun. split; [done|]. by eapply ext_trans.
Qed.

Lemma healthy_cycle w :
  store_wf (store w) -> no_record (store w) ->
  exists w1,
    NodeMonitor.cycle cfg e w =
      (Ok tt, mkWorld (store w1) (trace w1 ++ [EvSleep (sleep_interval cfg)]) (tick w1)) /\
    ext calm_event w w1.
Proof.
  intros Hwf Hno.
  assert (Hlist : exists fleet w0,
            MarzbanAPI.get_nodes e (ticked w) = (Ok fleet, w0) /\ ext calm_event w w0).
  { unfold MarzbanAPI.get_nodes. simpl. unfold MarzbanAPI.get_auth_headers. run.
    destruct (get_cached_token_nominal e Hup Hauth (ticked w) Hwf) as (tok & Htok).
    pose proof (get_cached_token_ext e (ticked w)) as Hext.
    destruct (MarzbanAPI.get_cached_token e (ticked w)) as [r w1]. simpl in Htok, Hext. subst r.
    run. destruct (Hlisting (tick w1)) as (fleet & ->). run.
    eexists _, _. split; [reflexivity|].
    eapply ext_trans; [apply ext_ticked|]. eapply ext_trans.
    - eapply ext_mono; [|exact Hext]. intros ev Hev. left. exists "". by constructor.
    - exists [EvGetNodes (Ok200 (NodeList fleet))]. simpl. repeat split; auto.
      constructor; [|constructor]. right. by eexists. }
  destruct Hlist as (fleet & w0 & Hget & Hext0).
  destruct (calm_keeps _ _ Hext0 Hwf Hno) as [Hwf0 Hno0].
  destruct (healthy_process_nodes fleet (ticked w0) Hwf0 Hno0) as (w1 & Hrun & Hext1).
  exists w1. split.
  - unfold NodeMonitor.cycle, NodeMonitor.cycle_body, NodeMonitor.fetch_listing.
    run. rewrite Hget. run. rewrite Hrun. run. done.
  - eapply ext_trans; [exact Hext0|]. eapply ext_trans; [apply ext_ticked|exact Hext1].
Qed.

Lemma healthy_cycles n w :
  store_wf (store w) -> no_record (store w) ->
  exists evs,
    trace (NodeMonitor.cycles cfg e n w).2 = trace w ++ evs /\
    count is_send evs = 0 /\ count is_reconnect evs = 0 /\
    List.filter is_sleep evs = repeat (EvSleep (sleep_interval cfg)) n /\
    no_record (store (NodeMonitor.cycles cfg e n w).2).
Proof.
  revert w. induction n as [|n IH]; intros w Hwf Hno.
  { exists []. simpl. by rewrite app_nil_r. }
  destruct (healthy_cycle w Hwf Hno) as (w1 & Hrun & Hext).
  destruct (calm_keeps _ _ Hext Hwf Hno) as [Hwf1 Hno1].
  rewrite cycles_step, Hrun. cbn [snd].
  match goal with |- context [NodeMonitor.cycles cfg e n ?w0] =>
    destruct (IH w0 Hwf1 Hno1) as (evs2 & Ht2 & Hc1 & Hc2 & Hf & Hno2) end.
  destruct Hext as (evs1 & Ht1 & Hall & _).
  exists (evs1 ++ [EvSleep (sleep_interval cfg)] ++ evs2).
  split; [rewrite Ht2; cbn [trace]; by rewrite Ht1, <- !app_assoc|].
  rewrite !count_app, !List.filter_app.
  rewrite (count_none is_send calm_event evs1) by (done || intros; by apply calm_event_quiet).
  rewrite (count_none is_reconnect calm_event evs1)
    by (done || intros; by apply calm_event_quiet).
  assert (Hnil : List.filter is_sleep evs1 = []).
  { clear -Hall. induction Hall as [|ev evs Hev _ IHt]; [done|]. simpl.
    destruct (calm_event_quiet ev Hev) as (_ & _ & -> & _). done. }
  rewrite Hnil, Hc1, Hc2, Hf. done.
Qed.

(** X20: a fleet in which nothing is wrong is watched in silence.  If
    every fetch finds its node connected or disabled, no node is recorded
    as disconnected, and the store, the token endpoint and the listing
    answer, then [n] cycles send no message, ask for no reconnection,
    sleep [sleep_interval] exactly [n] times, and leave no node recorded as
    disconnected. *)
Theorem healthy_fleet_is_silent n w :
  store_wf (store w) -> no_record (store w) ->
  count is_send (emitted (NodeMonitor.cycles cfg e n) w) = 0 /\
  count is_reconnect (emitted (NodeMonitor.cycles cfg e n) w) = 0 /\
  List.filter is_sleep (emitted (NodeMonitor.cycles cfg e n) w) =
    repeat (EvSleep (sleep_interval cfg)) n /\
  no_record (store (NodeMonitor.cycles cfg e n w).2).
Proof.
  intros Hwf Hno. destruct (healthy_cycles n w Hwf Hno) as (evs & Ht & H).
  by rewrite (emitted_eq _ _ _ Ht).
Qed.

End Healthy.

(** ** The requests of one pass over the listing *)

(** X21: [get_nodes] raises no [httpx.RequestError]: a transport failure
    is retried, and after the last retry the exception is the plain
    "Exceeded maximum retries". *)
Theorem get_nodes_absorbs_transport_errors e delay n w x :
  (MarzbanAPI.get_nodes_from e delay n w).1 = Raise x -> is_RequestError x = false.
Proof. apply ro_get_nodes_from. Qed.

Section Requests.
Variable cfg : Config.
Variable e : Env.

Lemma eam_zero {A} p (m : M A) n :
  fp (fun ev => p ev = false) m -> emits_at_most p n m.
Proof. intros H. eapply eam_weaken; [|by apply (eam_fp p _ m (fun ev H => H))]. lia. Qed.

Lemma eam_reconnect_process_node node :
  emits_at_most is_reconnect (reconnect_attempts cfg) (NodeMonitor.process_node cfg e node).
Proof.
  pose proof (fp_no_reconnect_get_node e node) as Hget.
  unfold NodeMonitor.process_node.
  apply (eam_bind _ 0 (reconnect_attempts cfg)); [apply eam_try_block, eam_zero, Hget|].
  intros [ns|x]; [|destruct (is_TimeoutError x); apply eam_zero, fp_ret].
  unfold NodeMonitor.reconcile.
  apply (eam_bind _ 0 (reconnect_attempts cfg)); [apply eam_zero; fp_auto|intros stored].
  apply (eam_bind _ 0 (reconnect_attempts cfg)).
  { apply eam_zero. unfold NodeMonitor.report_recovery. fp_auto. }
  intros _. destruct (negb _); [|apply eam_zero, fp_ret].
  unfold NodeMonitor.handle_disconnected.
  apply (eam_bind _ 0 (reconnect_attempts cfg)); [apply eam_zero; fp_auto|intros ts].
  apply (eam_bind _ 0 (reconnect_attempts cfg)); [apply eam_zero; fp_auto|intros stored'].
  apply (eam_bind _ 0 (reconnect_attempts cfg)); [apply eam_zero; fp_auto|intros _].
  apply eam_recover.
Qed.

Lemma eam_get_node e' id : emits_at_most is_get_node 1 (MarzbanAPI.get_node e' id).
Proof.
  unfold MarzbanAPI.get_node, MarzbanAPI.get_auth_headers.
  apply (eam_bind _ 1 0).
  - apply eam_try_block. apply (eam_bind _ 0 1).
    + apply eam_zero. apply fp_get_cached_token. by intros ev [].
    + intros _. apply eam_exchange.
  - intros [d|x]; [|destruct (is_HTTPError x)]; apply eam_zero; fp_auto.
Qed.

Lemma fp_no_fetch_reconnect_node id :
  fp (fun ev => is_get_node ev = false) (MarzbanAPI.reconnect_node e id).
Proof. apply fp_reconnect_node; [by intros ev []|done]. Qed.

Lemma eam_fetch_reconnect_loop node n i :
  emits_at_most is_get_node n (NodeMonitor.reconnect_loop cfg e node i n).
Proof.
  pose proof (fp_no_fetch_reconnect_node (node_id node)) as Hrec.
  revert i. induction n as [|n IH]; intros i; simpl; [apply eam_zero, fp_ret|].
  apply (eam_bind _ 1 n).
  - apply eam_try_block. unfold NodeMonitor.reconnect_attempt.
    apply (eam_bind _ 0 1); [by apply eam_zero|intros _].
    apply (eam_bind _ 0 1); [apply eam_zero; fp_auto|intros _].
    apply (eam_bind _ 1 0); [apply eam_get_node|intros ns].
    apply eam_zero. fp_auto.
  - intros [[]|x]; [apply eam_zero, fp_ret|apply IH|].
    apply (eam_bind _ 0 n); [apply eam_zero; fp_auto|intros _; apply IH].
Qed.

Lemma eam_fetch_process_node node :
  emits_at_most is_get_node (1 + reconnect_attempts cfg)
    (NodeMonitor.process_node cfg e node).
Proof.
  unfold NodeMonitor.process_node.
  apply (eam_bind _ 1 (reconnect_attempts cfg)); [apply eam_try_block, eam_get_node|].
  intros [ns|x]; [|destruct (is_TimeoutError x); apply eam_zero, fp_ret].
  unfold NodeMonitor.reconcile.
  apply (eam_bind _ 0 (reconnect_attempts cfg)); [apply eam_zero; fp_auto|intros stored].
  apply (eam_bind _ 0 (reconnect_attempts cfg)).
  { apply eam_zero. unfold NodeMonitor.report_recovery. fp_auto. }
  intros _. destruct (negb _); [|apply eam_zero, fp_ret].
  unfold NodeMonitor.handle_disconnected.
  apply (eam_bind _ 0 (reconnect_attempts cfg)); [apply eam_zero; fp_auto|intros ts].
  apply (eam_bind _ 0 (reconnect_attempts cfg)); [apply eam_zero; fp_auto|intros stored'].
  apply (eam_bind _ 0 (reconnect_attempts cfg)); [apply eam_zero; fp_auto|intros _].
  unfold NodeMonitor.recover.
  eapply eam_weaken; [|apply (eam_bind _ (reconnect_attempts cfg) 0)];
    [lia|apply eam_fetch_reconnect_loop|].
  intros []; apply eam_zero; fp_auto.
Qed.

Lemma eam_process_nodes p k nodes :
  (forall node, emits_at_most p k (NodeMonitor.process_node cfg e node)) ->
  emits_at_most p (length nodes * k) (NodeMonitor.process_nodes cfg e nodes).
Proof.
  intros Hnode. induction nodes as [|node nodes IH]; simpl; [apply eam_zero, fp_ret|].
  apply (eam_bind _ k (length nodes * k)); [apply Hnode|by intros _].
Qed.

(** X22: one pass over a listing of [length nodes] nodes asks for at most
    [reconnect_attempts] reconnections per node and fetches each node at
    most [1 + reconnect_attempts] times, whatever the collaborators
    answer. *)
Theorem requests_are_bounded_per_listing nodes w :
  count is_reconnect (emitted (NodeMonitor.process_nodes cfg e nodes) w)
    <= length nodes * reconnect_attempts cfg /\
  count is_get_node (emitted (NodeMonitor.process_nodes cfg e nodes) w)
    <= length nodes * (1 + reconnect_attempts cfg).
Proof.
  destruct (eam_process_nodes is_reconnect _ nodes eam_reconnect_process_node w)
    as (evs1 & Ht1 & Hc1).
  destruct (eam_process_nodes is_get_node _ nodes eam_fetch_process_node w)
    as (evs2 & Ht2 & Hc2).
  rewrite (emitted_eq _ _ _ Ht1) at 1. by rewrite (emitted_eq _ _ _ Ht2).
Qed.

End Requests.

(** ** The further statements at concrete inputs *)

Lemma fresh_token_is_reused_witness :
  (MarzbanAPI.get_cached_token (env_calm [] "connected") world_cached).1 = Ok "cached" /\
  emitted (MarzbanAPI.get_cached_token (env_calm [] "connected")) world_cached = [] /\
  store (MarzbanAPI.get_cached_token (env_calm [] "connected") world_cached).2 =
    store world_cached.
Proof.
  refine (fresh_token_is_reused (env_calm [] "connected") world_cached "cached" 100 _ _ _ _ _ _).
  - reflexivity.
  - reflexivity.
  - vm_compute. reflexivity.
  - discriminate.
  - vm_compute. reflexivity.
  - vm_compute. reflexivity.
Defined.

Lemma token_without_request_was_cached_witness :
  exists v x,
    store world_cached !! MarzbanAPI.token_key = Some v /\ truthy v = true /\
    decode v = "cached" /\
    store world_cached !! MarzbanAPI.token_expiry_key = Some (SFloat x) /\
    (clock (env_calm [] "connected") (S (S (tick world_cached))) < x)%Q /\
    store (MarzbanAPI.get_cached_token (env_calm [] "connected") world_cached).2 =
      store world_cached.
Proof.
  refine (token_without_request_was_cached (env_calm [] "connected") world_cached "cached"
            (MarzbanAPI.get_cached_token (env_calm [] "connected") world_cached).2 _ _).
  - vm_compute. reflexivity.
  - vm_compute. reflexivity.
Defined.


Lemma store_outage_yields_no_token_witness :
  exists x,
    (MarzbanAPI.get_cached_token (env_store_down []) empty_world).1 = Raise x /\
    emitted (MarzbanAPI.get_cached_token (env_store_down [])) empty_world =
      [EvPostToken (post_token (env_store_down []) (S (tick empty_world)))] /\
    store (MarzbanAPI.get_cached_token (env_store_down []) empty_world).2 =
      store empty_world /\
    (forall d, post_token (env_store_down []) (S (tick empty_world)) = Ok200 d ->
               x = RedisError "store unreachable").
Proof.
  refine (store_outage_yields_no_token (env_store_down []) empty_world _).
  intros k. reflexivity.
Defined.

Lemma http_errors_are_wrapped_witness :
  is_HTTPError (Exception "Failed to reconnect node 3: error status") = false.
Proof.
  refine (http_errors_are_wrapped env_connecting "3" empty_world
            (Exception "Failed to reconnect node 3: error status") _).
  right. right. right. vm_compute. reflexivity.
Defined.

Lemma get_nodes_gives_up_witness :
  (MarzbanAPI.get_nodes_from env_no_listing 5 3 empty_world).1 =
    Raise (Exception "Exceeded maximum retries for get_nodes") /\
  count is_get_nodes (emitted (MarzbanAPI.get_nodes_from env_no_listing 5 3) empty_world) = 3 /\
  List.filter is_sleep (emitted (MarzbanAPI.get_nodes_from env_no_listing 5 3) empty_world) =
    repeat (EvSleep 5) 3.
Proof.
  refine (get_nodes_gives_up env_no_listing 5 3 empty_world _ _ _ _).
  - intros k. reflexivity.
  - intros k. exists (mkTokenData "token" None). split; reflexivity.
  - intros key v H. discriminate H.
  - intros k. reflexivity.
Defined.

Lemma get_nodes_fails_fast_witness :
  MarzbanAPI.get_nodes_from env_not_a_list 5 (S 2) empty_world =
    (Raise (ValueError "Unexpected response format. Expected a list of nodes."),
     mkWorld (store (MarzbanAPI.get_cached_token env_not_a_list empty_world).2)
       (trace (MarzbanAPI.get_cached_token env_not_a_list empty_world).2 ++
        [EvGetNodes (nodes_reply env_not_a_list
                       (tick (MarzbanAPI.get_cached_token env_not_a_list empty_world).2))])
       (S (tick (MarzbanAPI.get_cached_token env_not_a_list empty_world).2))) /\
  count is_get_nodes
    (emitted (MarzbanAPI.get_nodes_from env_not_a_list 5 (S 2)) empty_world) = 1 /\
  count is_sleep
    (emitted (MarzbanAPI.get_nodes_from env_not_a_list 5 (S 2)) empty_world) = 0.
Proof.
  refine (get_nodes_fails_fast env_not_a_list 5 2 empty_world "token"
            (MarzbanAPI.get_cached_token env_not_a_list empty_world).2
            (ValueError "Unexpected response format. Expected a list of nodes.") _ _).
  - vm_compute. reflexivity.
  - reflexivity.
Defined.

Lemma token_failure_is_not_retried_witness :
  MarzbanAPI.get_nodes_from env_auth_refused 5 (S 2) empty_world =
    (Raise (Exception "Authentication failed: error status"),
     (MarzbanAPI.get_cached_token env_auth_refused empty_world).2) /\
  count is_get_nodes
    (emitted (MarzbanAPI.get_nodes_from env_auth_refused 5 (S 2)) empty_world) = 0 /\
  count is_sleep
    (emitted (MarzbanAPI.get_nodes_from env_auth_refused 5 (S 2)) empty_world) = 0.
Proof.
  refine (token_failure_is_not_retried env_auth_refused 5 2 empty_world
            (Exception "Authentication failed: error status")
            (MarzbanAPI.get_cached_token env_auth_refused empty_world).2 _).
  vm_compute. reflexivity.
Defined.

Lemma get_nodes_absorbs_transport_errors_witness :
  is_RequestError (Exception "Exceeded maximum retries for get_nodes") = false.
Proof.
  refine (get_nodes_absorbs_transport_errors env_no_listing 5 3 empty_world
            (Exception "Exceeded maximum retries for get_nodes") _).
  vm_compute. reflexivity.
Defined.

Lemma listing_comes_from_last_request_witness :
  exists before,
    trace (MarzbanAPI.get_nodes_from (env_calm [node_a] "connected") 5 3 empty_world).2 =
      trace empty_world ++ before ++ [EvGetNodes (Ok200 (NodeList [node_a]))] /\
    Forall (fun ev => is_get_nodes ev = true -> ev = EvGetNodes NoReply) before /\
    nodes_reply (env_calm [node_a] "connected")
      (Nat.pred (tick (MarzbanAPI.get_nodes_from (env_calm [node_a] "connected") 5 3
                         empty_world).2)) = Ok200 (NodeList [node_a]).
Proof.
  refine (listing_comes_from_last_request (env_calm [node_a] "connected") 5 3 empty_world
            [node_a]
            (MarzbanAPI.get_nodes_from (env_calm [node_a] "connected") 5 3 empty_world).2 _).
  vm_compute. reflexivity.
Defined.

Lemma unreachable_nodes_are_skipped_witness :
  (NodeMonitor.process_nodes NodeMonitor.default_config
     (env_unreachable_nodes [node_a; node_b]) [node_a; node_b] world_flagged).1 = Ok tt /\
  count is_send
    (emitted (NodeMonitor.process_nodes NodeMonitor.default_config
                (env_unreachable_nodes [node_a; node_b]) [node_a; node_b]) world_flagged) = 0 /\
  count is_reconnect
    (emitted (NodeMonitor.process_nodes NodeMonitor.default_config
                (env_unreachable_nodes [node_a; node_b]) [node_a; node_b]) world_flagged) = 0 /\
  store (NodeMonitor.process_nodes NodeMonitor.default_config
           (env_unreachable_nodes [node_a; node_b]) [node_a; node_b] world_flagged).2
    !! NodeMonitor.get_node_status_key "1" =
    store world_flagged !! NodeMonitor.get_node_status_key "1" /\
  store (NodeMonitor.process_nodes NodeMonitor.default_config
           (env_unreachable_nodes [node_a; node_b]) [node_a; node_b] world_flagged).2
    !! NodeMonitor.get_node_disconnect_time_key "1" =
    store world_flagged !! NodeMonitor.get_node_disconnect_time_key "1".
Proof.
  refine (unreachable_nodes_are_skipped NodeMonitor.default_config
            (env_unreachable_nodes [node_a; node_b]) [node_a; node_b] world_flagged "1" _).
  intros k id d. discriminate.
Defined.

Lemma failed_listing_is_reported_witness :
  NodeMonitor.cycle NodeMonitor.default_config env_not_a_list empty_world =
    (Ok tt,
     mkWorld (store (MarzbanAPI.get_nodes env_not_a_list (ticked empty_world)).2)
       (trace (MarzbanAPI.get_nodes env_not_a_list (ticked empty_world)).2 ++
        [EvSend (ERROR_MONITOR_FAILURE
                   (if is_TimeoutError
                         (ValueError "Unexpected response format. Expected a list of nodes.")
                    then "Timeout while retrieving nodes"
                    else exn_str
                           (ValueError "Unexpected response format. Expected a list of nodes."))
                   (clock env_not_a_list
                      (tick (MarzbanAPI.get_nodes env_not_a_list (ticked empty_world)).2)));
         EvSleep (sleep_interval NodeMonitor.default_config)])
       (S (tick (MarzbanAPI.get_nodes env_not_a_list (ticked empty_world)).2))) /\
  count is_get_node
    (emitted (NodeMonitor.cycle NodeMonitor.default_config env_not_a_list) empty_world) = 0 /\
  count is_reconnect
    (emitted (NodeMonitor.cycle NodeMonitor.default_config env_not_a_list) empty_world) = 0 /\
  count is_send
    (emitted (NodeMonitor.cycle NodeMonitor.default_config env_not_a_list) empty_world) = 1.
Proof.
  refine (failed_listing_is_reported NodeMonitor.default_config env_not_a_list empty_world
            (ValueError "Unexpected response format. Expected a list of nodes.")
            (MarzbanAPI.get_nodes env_not_a_list (ticked empty_world)).2 _).
  vm_compute. reflexivity.
Defined.

Lemma store_outage_cycle_witness :
  (NodeMonitor.cycle NodeMonitor.default_config (env_store_down [node_a]) empty_world).1 =
    Ok tt /\
  emitted (NodeMonitor.cycle NodeMonitor.default_config (env_store_down [node_a]))
    empty_world =
    [EvPostToken (Ok200 (mkTokenData "token" None));
     EvSend (ERROR_MONITOR_FAILURE "store unreachable"
               (clock (env_store_down [node_a]) (4 + tick empty_world)));
     EvSleep (sleep_interval NodeMonitor.default_config)] /\
  store (NodeMonitor.cycle NodeMonitor.default_config (env_store_down [node_a])
           empty_world).2 = store empty_world.
Proof.
  refine (store_outage_cycle NodeMonitor.default_config (env_store_down [node_a]) empty_world
            (mkTokenData "token" None) _ _).
  - intros k. reflexivity.
  - reflexivity.
Defined.

Lemma stored_values_stay_typed_witness :
  store_wf (store (NodeMonitor.cycles two_attempts env_connecting 2 empty_world).2) /\
  status_wf (store (NodeMonitor.cycles two_attempts env_connecting 2 empty_world).2).
Proof.
  refine (stored_values_stay_typed two_attempts env_connecting 2 empty_world _ _).
  - intros key v H. discriminate H.
  - intros id v H. discriminate H.
Defined.

Lemma handling_concerns_one_node_witness :
  store (NodeMonitor.process_node two_attempts env_connecting node_c world_flagged).2
    !! NodeMonitor.get_node_status_key "1" =
    store world_flagged !! NodeMonitor.get_node_status_key "1" /\
  store (NodeMonitor.process_node two_attempts env_connecting node_c world_flagged).2
    !! NodeMonitor.get_node_disconnect_time_key "1" =
    store world_flagged !! NodeMonitor.get_node_disconnect_time_key "1" /\
  Forall (about_node node_c)
    (emitted (NodeMonitor.process_node two_attempts env_connecting node_c) world_flagged).
Proof.
  refine (handling_concerns_one_node two_attempts env_connecting node_c world_flagged "1" _).
  discriminate.
Defined.

Lemma recorded_node_is_not_alerted_again_witness :
  count (is_disconnect_alert (node_name node_a))
    (emitted (NodeMonitor.process_node NodeMonitor.default_config
                (env_calm [node_a] "error") node_a) world_flagged) = 0 /\
  count (is_set_of (NodeMonitor.get_node_disconnect_time_key (node_id node_a)))
    (emitted (NodeMonitor.process_node NodeMonitor.default_config
                (env_calm [node_a] "error") node_a) world_flagged) = 0.
Proof.
  refine (recorded_node_is_not_alerted_again NodeMonitor.default_config
            (env_calm [node_a] "error") node_a world_flagged _).
  vm_compute. reflexivity.
Defined.

Lemma reconnection_clears_the_record_witness :
  NodeMonitor.recover NodeMonitor.default_config (env_calm [node_a] "connected") node_a
    world_flagged =
    (Ok tt,
     (NodeMonitor.reconnect_loop NodeMonitor.default_config (env_calm [node_a] "connected")
        node_a 0 (reconnect_attempts NodeMonitor.default_config) world_flagged).2) /\
  store (NodeMonitor.reconnect_loop NodeMonitor.default_config
           (env_calm [node_a] "connected") node_a 0
           (reconnect_attempts NodeMonitor.default_config) world_flagged).2
    !! NodeMonitor.get_node_status_key (node_id node_a) = None /\
  store (NodeMonitor.reconnect_loop NodeMonitor.default_config
           (env_calm [node_a] "connected") node_a 0
           (reconnect_attempts NodeMonitor.default_config) world_flagged).2
    !! NodeMonitor.get_node_disconnect_time_key (node_id node_a) = None /\
  count (is_reconnect_failed (node_name node_a))
    (emitted (NodeMonitor.recover NodeMonitor.default_config
                (env_calm [node_a] "connected") node_a) world_flagged) = 0 /\
  exists before ts k,
    1 <= k <= reconnect_attempts NodeMonitor.default_config /\
    emitted (NodeMonitor.recover NodeMonitor.default_config
               (env_calm [node_a] "connected") node_a) world_flagged =
      before ++
      [seen_connected (node_id node_a);
       EvSend (SUCCESS_NODE_RECONNECTED_AFTER_ATTEMPTS (node_name node_a)
                 (NodeMonitor.node_ip node_a) ts k);
       EvDelete (NodeMonitor.get_node_status_key (node_id node_a));
       EvDelete (NodeMonitor.get_node_disconnect_time_key (node_id node_a))].
Proof.
  refine (reconnection_clears_the_record NodeMonitor.default_config
            (env_calm [node_a] "connected") node_a world_flagged
            (NodeMonitor.reconnect_loop NodeMonitor.default_config
               (env_calm [node_a] "connected") node_a 0
               (reconnect_attempts NodeMonitor.default_config) world_flagged).2 _).
  vm_compute. reflexivity.
Defined.

Lemma healthy_fleet_is_silent_witness :
  count is_send
    (emitted (NodeMonitor.cycles NodeMonitor.default_config
                (env_calm [node_a; node_b] "connected") 2) empty_world) = 0 /\
  count is_reconnect
    (emitted (NodeMonitor.cycles NodeMonitor.default_config
                (env_calm [node_a; node_b] "connected") 2) empty_world) = 0 /\
  List.filter is_sleep
    (emitted (NodeMonitor.cycles NodeMonitor.default_config
                (env_calm [node_a; node_b] "connected") 2) empty_world) =
    repeat (EvSleep (sleep_interval NodeMonitor.default_config)) 2 /\
  no_record (store (NodeMonitor.cycles NodeMonitor.default_config
                      (env_calm [node_a; node_b] "connected") 2 empty_world).2).
Proof.
  refine (healthy_fleet_is_silent NodeMonitor.default_config
            (env_calm [node_a; node_b] "connected") _ _ _ _ 2 empty_world _ _).
  - intros k. reflexivity.
  - intros k. exists (mkTokenData "token" None). split; reflexivity.
  - intros k id. exists "connected". split; [reflexivity|left; reflexivity].
  - intros k. exists [node_a; node_b]. reflexivity.
  - intros key v H. discriminate H.
  - intros id. reflexivity.
Defined.

